(** * Match-to-annotation pipeline: a shallow embedding of the handlers

    The development follows [utils/pdf_handler.py], [utils/excel_handler.py],
    [utils/image_handler.py] and the dispatch wrappers of [app.py].

    - Python [str] is a list of Unicode code points ([list N]).
    - Python [float] is IEEE-754 binary64, taken from [SpecFloat] with
      [prec = 53] and [emax = 1024]; [int(x)] and [/] raise as CPython does.
    - PIL images live in an object store, so that aliasing between
      [pil_img], [pil_img.copy()] and [page_img_obj.original] is visible.
    - Exceptions are a result type threaded with the store. *)

From Stdlib Require Import ZArith NArith List Lia SpecFloat Ascii.
From stdpp Require Import base list strings gmap sorting pretty.

Open Scope N_scope.

(** ** Python strings *)

Abbreviation pystr := (list N).

(** A string literal of the source, as code points. *)
Definition py (s : string) : pystr :=
  N_of_ascii <$> String.list_ascii_of_string s.

(** [str.isspace] for one code point: the characters removed by
    [str.strip()] without arguments. *)
Definition is_space (c : N) : bool :=
  ((9 <=? c) && (c <=? 13)) || ((28 <=? c) && (c <=? 32))
  || (c =? 133) || (c =? 160) || (c =? 5760)
  || ((8192 <=? c) && (c <=? 8202))
  || (c =? 8232) || (c =? 8233) || (c =? 8239) || (c =? 8287)
  || (c =? 12288).

(** ASCII capital letter, and the capitals of the Latin-1 supplement
    (U+00C0..U+00DE without the multiplication sign U+00D7). *)
Definition is_ascii_upper (c : N) : bool := (65 <=? c) && (c <=? 90).
Definition is_ascii_lower (c : N) : bool := (97 <=? c) && (c <=? 122).
Definition is_latin1_upper (c : N) : bool :=
  (192 <=? c) && (c <=? 222) && negb (c =? 215).
Definition is_latin1_lower (c : N) : bool :=
  (224 <=? c) && (c <=? 254) && negb (c =? 247).

(** [str.lower] and [str.upper] on one code point. The tables are those of
    CPython for U+0000..U+00FF, together with the two capitals outside that
    range that [upper] produces from it (U+0178 and U+039C); every other
    code point is treated as caseless. [upper] of U+00DF is the two-letter
    string "SS". *)
Definition lower_cp (c : N) : pystr :=
  if is_ascii_upper c || is_latin1_upper c then [c + 32]
  else if c =? 376 then [255]
  else if c =? 924 then [956]
  else [c].

Definition upper_cp (c : N) : pystr :=
  if is_ascii_lower c || is_latin1_lower c then [c - 32]
  else if c =? 223 then [83; 83]
  else if c =? 255 then [376]
  else if c =? 181 then [924]
  else [c].

Definition py_lower (s : pystr) : pystr := flat_map lower_cp s.
Definition py_upper (s : pystr) : pystr := flat_map upper_cp s.

Fixpoint lstrip (s : pystr) : pystr :=
  match s with
  | c :: s' => if is_space c then lstrip s' else s
  | [] => []
  end.

(** [s.strip()] *)
Definition py_strip (s : pystr) : pystr := rev (lstrip (rev (lstrip s))).

Fixpoint startswith (t q : pystr) : bool :=
  match q, t with
  | [], _ => true
  | _ :: _, [] => false
  | a :: q', b :: t' => (a =? b) && startswith t' q'
  end.

(** [q in t] on strings: substring containment. *)
Fixpoint py_in (q t : pystr) : bool :=
  startswith t q ||
  match t with
  | [] => false
  | _ :: t' => py_in q t'
  end.

Definition is_nil {A} (l : list A) : bool :=
  match l with [] => true | _ => false end.

(** [enumerate(l, start)] *)
Fixpoint enumerate {A} (start : nat) (l : list A) : list (nat * A) :=
  match l with
  | [] => []
  | x :: l' => (start, x) :: enumerate (S start) l'
  end.

(** ** Python floats *)

Abbreviation float := spec_float.

Definition fmul : float -> float -> float := SFmul 53 1024.
Definition fdiv_ieee : float -> float -> float := SFdiv 53 1024.

Definition is_zero (x : float) : bool :=
  match x with S754_zero _ => true | _ => false end.

(** [0 < x], as the comparison operator of Python computes it. *)
Definition is_positive (x : float) : bool := SFltb (S754_zero false) x.

Inductive exn :=
  | ZeroDivisionError
  | OverflowError
  | ValueError
  | IndexError
  | KeyError
  | FileNotFoundError
  | UnidentifiedImageError
  | AttributeError
  | LibraryError (code : N).

Inductive result (A : Type) :=
  | Ok (a : A)
  | Raise (e : exn).
Arguments Ok {A} a.
Arguments Raise {A} e.

Definition rbind {A B} (r : result A) (k : A -> result B) : result B :=
  match r with
  | Ok a => k a
  | Raise e => Raise e
  end.

(** A pixel count converted to [float], as the operand conversion of
    [int / float] does. The sides of a PIL image are C [int]s, far below
    2^53, so the conversion is exact and its overflow error cannot occur. *)
Definition float_of_int (z : Z) : float := binary_normalize 53 1024 z 0 false.

(** [a / b] on floats: CPython raises on a zero divisor. *)
Definition fdiv (a b : float) : result float :=
  if is_zero b then Raise ZeroDivisionError else Ok (fdiv_ieee a b).

(** [int(x)]: truncation toward zero. *)
Definition py_int (x : float) : result Z :=
  match x with
  | S754_zero _ => Ok 0%Z
  | S754_finite s m e => Ok (cond_Zopp s (Z.shiftl (Z.pos m) e))
  | S754_infinity _ => Raise OverflowError
  | S754_nan => Raise ValueError
  end.

(** ** Documents *)

(** One entry of [page.extract_words()]: the dictionary keys the handler
    reads. [w_text] is [w.get("text")]. *)
Record word := {
  w_text : option pystr;
  w_x0 : float;
  w_top : float;
  w_x1 : float;
  w_bottom : float
}.

Record page := {
  page_width : float;
  page_height : float;
  extract_words : list word
}.

(** The dictionary appended to [matches] by [find_matches_in_pdf]. *)
Record pdf_match := {
  m_page : nat;
  m_text : pystr;
  m_x0 : float;
  m_top : float;
  m_x1 : float;
  m_bottom : float
}.

(** A worksheet: [cell_value r c] is [None] for an empty cell and
    [Some (str(val))] for a populated one. *)
Record worksheet := {
  max_row : nat;
  max_column : nat;
  cell_value : nat -> nat -> option pystr
}.

(** One row of the dictionary returned by [pytesseract.image_to_data]. *)
Record ocr_entry := {
  o_text : pystr;
  o_left : Z;
  o_top : Z;
  o_width : Z;
  o_height : Z
}.

(** ** MatchLocator *)

Definition word_match (q : pystr) (pnum : nat) (w : word) : list pdf_match :=
  let text := py_strip (default [] (w_text w)) in
  if py_in q (py_lower text)
  then [ {| m_page := pnum; m_text := text;
            m_x0 := w_x0 w; m_top := w_top w;
            m_x1 := w_x1 w; m_bottom := w_bottom w |} ]
  else [].

Definition find_matches_in_pdf (pdf : list page) (query : pystr) : list pdf_match :=
  let q := py_strip (py_lower query) in
  flat_map (fun '(pnum, pg) => flat_map (word_match q pnum) (extract_words pg))
           (enumerate 0 pdf).

Definition cell_match (ws : worksheet) (q : pystr) (r c : nat) : list (nat * nat) :=
  match cell_value ws r c with
  | None => []
  | Some s => if py_in q (py_lower s) then [(r, c)] else []
  end.

Definition find_matches_in_sheet (ws : worksheet) (query : pystr) : list (nat * nat) :=
  let q := py_strip (py_lower query) in
  flat_map (fun r => flat_map (cell_match ws q r) (seq 1 (max_column ws)))
           (seq 1 (max_row ws)).

Definition ocr_match (q : pystr) (o : ocr_entry) : list (Z * Z * Z * Z) :=
  let w := py_strip (o_text o) in
  match w with
  | [] => []
  | _ :: _ =>
      if py_in q (py_lower w)
      then [(o_left o, o_top o, o_left o + o_width o, o_top o + o_height o)%Z]
      else []
  end.

(** The box list of [extract_boxes]; the image it also returns is opened by
    the pipeline below. *)
Definition extract_boxes (data : list ocr_entry) (query : pystr) : list (Z * Z * Z * Z) :=
  let q := py_lower query in
  flat_map (ocr_match q) data.


(** ** Images, files and the object store *)

Abbreviation rect := (Z * Z * Z * Z)%type.

Inductive mode := RGB | OtherMode.

(** What the rasteriser hands over: pixel size, mode and the pixels
    themselves, which stay opaque. *)
Record raster := {
  r_size : Z * Z;
  r_mode : mode;
  r_pixels : N
}.

(** A shape painted on an image: a one-pixel outline of
    [ImageDraw.rectangle], or a rectangle of pdfplumber's
    [PageImage.draw_rect] given in page coordinates. *)
Inductive stroke :=
  | Outline (box : rect) (color : pystr)
  | NativeRect (x0 top x1 bottom : float) (color : pystr) (width : Z).

(** An image is its plain raster and what was painted on it, oldest
    first. *)
Record image := {
  im_size : Z * Z;
  im_mode : mode;
  im_pixels : N;
  im_strokes : list stroke
}.

Definition image_of_raster (r : raster) : image :=
  {| im_size := r_size r; im_mode := r_mode r; im_pixels := r_pixels r;
     im_strokes := [] |}.

Definition paint (s : stroke) (i : image) : image :=
  {| im_size := im_size i; im_mode := im_mode i; im_pixels := im_pixels i;
     im_strokes := im_strokes i ++ [s] |}.

Definition as_rgb (i : image) : image :=
  {| im_size := im_size i; im_mode := RGB; im_pixels := im_pixels i;
     im_strokes := im_strokes i |}.

Inductive file :=
  | PngFile (img : image)
  | PdfFile (pages : list image)
  | XlsxFile (borders : list (pystr * list (nat * nat))).

Inductive log_line :=
  | PdfMatchesFound (n : nat)
  | PdfCombinedSaved (p : pystr)
  | DrawRectFailed (e : exn)
  | XlsInputFile (path : pystr)
  | XlsQuery (q : pystr)
  | XlsOutputDir (out_dir : pystr)
  | XlsProcessingSheet (name : pystr)
  | XlsMatchesFound (n : nat)
  | XlsRenderError (name : pystr) (e : exn)
  | XlsSavedImage (p : pystr)
  | XlsWorkbookSaved (p : pystr)
  | XlsWorkbookError (e : exn)
  | XlsCombinedSaved (p : pystr)
  | XlsCombinedError (e : exn)
  | XlsNoImages.

(** The store: image objects by reference, the files written so far and
    what was printed. *)
Record world := {
  heap : list image;
  fs : gmap pystr file;
  stdout : list log_line
}.

Definition blank : image :=
  {| im_size := (0, 0)%Z; im_mode := RGB; im_pixels := 0; im_strokes := [] |}.

(** ** Computations that may raise *)

Definition M (A : Type) : Type := world -> result A * world.

Definition ret {A} (a : A) : M A := fun w => (Ok a, w).

Definition bind {A B} (c : M A) (k : A -> M B) : M B :=
  fun w => match c w with
           | (Ok a, w') => k a w'
           | (Raise e, w') => (Raise e, w')
           end.

Definition raise {A} (e : exn) : M A := fun w => (Raise e, w).

Definition lift {A} (r : result A) : M A := fun w => (r, w).

(** [try: c except Exception as e: h e] *)
Definition try_except {A} (c : M A) (h : exn -> M A) : M A :=
  fun w => match c w with
           | (Ok a, w') => (Ok a, w')
           | (Raise e, w') => h e w'
           end.

Notation "x <- c ;; k" := (bind c (fun x => k))
  (at level 100, c at next level, right associativity).

(** [for x in l: body x] *)
Fixpoint for_each {A} (l : list A) (body : A -> M unit) : M unit :=
  match l with
  | [] => ret tt
  | x :: l' => _ <- body x ;; for_each l' body
  end.

(** A loop that threads a local variable through its body. *)
Fixpoint for_fold {A S} (l : list A) (body : S -> A -> M S) (s : S) : M S :=
  match l with
  | [] => ret s
  | x :: l' => s' <- body s x ;; for_fold l' body s'
  end.

Fixpoint result_mapM {A B} (f : A -> result B) (l : list A) : result (list B) :=
  match l with
  | [] => Ok []
  | x :: l' =>
      match f x with
      | Raise e => Raise e
      | Ok y => match result_mapM f l' with
                | Raise e => Raise e
                | Ok ys => Ok (y :: ys)
                end
      end
  end.

(** [[f(x) for x in l]] *)
Fixpoint list_comp {A B} (f : A -> M B) (l : list A) : M (list B) :=
  match l with
  | [] => ret []
  | x :: l' => y <- f x ;; ys <- list_comp f l' ;; ret (y :: ys)
  end.

(** [range(n)] *)
Definition py_range (n : Z) : list Z := Z.of_nat <$> seq 0 (Z.to_nat n).

Definition print (l : log_line) : M unit :=
  fun w => (Ok tt, {| heap := heap w; fs := fs w; stdout := stdout w ++ [l] |}).

(** ** Dictionaries

    A Python [dict] keeps its keys in insertion order, and [sorted] is
    applied to that sequence, so a dictionary is an association list. *)

Fixpoint dict_get {V} (d : list (nat * V)) (k : nat) : option V :=
  match d with
  | [] => None
  | (k', v) :: d' => if (k' =? k)%nat then Some v else dict_get d' k
  end.

(** [d[k] = v] *)
Fixpoint dict_set {V} (d : list (nat * V)) (k : nat) (v : V) : list (nat * V) :=
  match d with
  | [] => [(k, v)]
  | (k', v') :: d' =>
      if (k' =? k)%nat then (k', v) :: d' else (k', v') :: dict_set d' k v
  end.

(** [d.setdefault(k, []).append(x)] *)
Definition setdefault_append {V} (d : list (nat * list V)) (k : nat) (x : V)
  : list (nat * list V) :=
  match dict_get d k with
  | Some l => dict_set d k (l ++ [x])
  | None => dict_set d k [x]
  end.

(** [d[k]] *)
Definition dict_getitem {V} (d : list (nat * V)) (k : nat) : result V :=
  match dict_get d k with
  | Some v => Ok v
  | None => Raise KeyError
  end.

(** [sorted(d.keys())] *)
Definition sorted_keys {V} (d : list (nat * V)) : list nat :=
  merge_sort Nat.le (d.*1).

(** The place of a cell in the picture of a sheet: its corner [(x, y)]
    and its [w_px] and [h_px], which are column and row sizes in pixels. *)
Record cell_px := {
  cell_x : Z;
  cell_y : Z;
  cell_w : N;
  cell_h : N
}.

(** [cell_boxes[(r, c)] = (x0, y0, x1, y1)] with [x1, y1 = x + w_px,
    y + h_px]. *)
Definition cell_box (g : cell_px) : rect :=
  (cell_x g, cell_y g, cell_x g + Z.of_N (cell_w g), cell_y g + Z.of_N (cell_h g))%Z.

(** ** excel_handler.py: column widths and the grid of cells *)

Definition fadd : float -> float -> float := SFadd 53 1024.

(** A Python number: openpyxl hands a column width over as a [float],
    and the handler replaces a missing one by the [int] 10. *)
Inductive number :=
  | PyInt (z : Z)
  | PyFloat (x : float).

Definition CHAR_PX : Z := 7.
Definition CELL_PADDING_PX : Z := 8.
Definition MIN_COL_PX : Z := 60.
Definition MAX_COL_PX : Z := 800.
Definition MAX_COL_CHARS : Z := 100.

(** [int(n_chars * char_px + pad * 2)]: exact on an [int], in binary64 on
    a [float]. *)
Definition pixel_width_from_chars (n_chars : number) : result Z :=
  rbind (match n_chars with
         | PyInt z => Ok (z * CHAR_PX + CELL_PADDING_PX * 2)%Z
         | PyFloat x =>
             py_int (fadd (fmul x (float_of_int CHAR_PX))
                          (float_of_int (CELL_PADDING_PX * 2)))
         end)
        (fun w => Ok (Z.max MIN_COL_PX (Z.min w MAX_COL_PX))).

(** Truth value of a width: [None], [0] and [0.0] are false. *)
Definition width_truthy (width : option number) : bool :=
  match width with
  | None => false
  | Some (PyInt z) => negb (z =? 0)%Z
  | Some (PyFloat x) => negb (is_zero x)
  end.

(** [ws.column_dimensions[col_letter].width or 10] *)
Definition width_or_10 (width : option number) : number :=
  match width with
  | Some n => if width_truthy width then n else PyInt 10
  | None => PyInt 10
  end.

(** [min(width_chars, MAX_COL_CHARS)]: the second argument is returned
    only when it is smaller than the first. *)
Definition min_max_col_chars (width_chars : number) : number :=
  match width_chars with
  | PyInt z => if (MAX_COL_CHARS <? z)%Z then PyInt MAX_COL_CHARS else PyInt z
  | PyFloat x =>
      if SFltb (float_of_int MAX_COL_CHARS) x then PyInt MAX_COL_CHARS
      else PyFloat x
  end.

(** The width in pixels [render_sheet_to_image] gives to a column. *)
Definition column_px (width : option number) : result Z :=
  pixel_width_from_chars (min_max_col_chars (width_or_10 width)).

(** The line boundaries of [str.splitlines]. *)
Definition is_linebreak (c : N) : bool :=
  ((10 <=? c) && (c <=? 13)) || ((28 <=? c) && (c <=? 30))
  || (c =? 133) || (c =? 8232) || (c =? 8233).

(** [s.splitlines()]: [cur] is the line being read, and [after_cr] holds
    right after a carriage return, whose line feed is part of the same
    boundary. *)
Fixpoint splitlines_from (after_cr : bool) (cur s : pystr) : list pystr :=
  match s with
  | [] => if is_nil cur then [] else [cur]
  | c :: s' =>
      if (c =? 10) && after_cr then splitlines_from false cur s'
      else if is_linebreak c then cur :: splitlines_from (c =? 13) [] s'
      else splitlines_from false (cur ++ [c]) s'
  end.

Definition splitlines (s : pystr) : list pystr := splitlines_from false [] s.

(** [max(xs)] on a sequence of lengths; [ValueError] on an empty one. *)
Definition py_max (xs : list nat) : result nat :=
  match xs with
  | [] => Raise ValueError
  | x :: rest => Ok (fold_left Nat.max rest x)
  end.

(** [max(len(line) for line in s.splitlines()) if s else 0] *)
Definition longest_line (s : pystr) : result nat :=
  if is_nil s then Ok 0%nat else py_max (length <$> splitlines s).

(** The first loop of [autosize_sheet_excel]: [ws.iter_rows(values_only=
    True)] gives the rows [1..max_row], each of the columns
    [1..max_column]. *)
Definition autosize_cell (ws : worksheet) (r : nat)
    (max_len_per_col : list (nat * nat)) (c_idx : nat)
  : result (list (nat * nat)) :=
  match cell_value ws r c_idx with
  | None => Ok max_len_per_col
  | Some s =>
      rbind (longest_line s) (fun l =>
        Ok (dict_set max_len_per_col c_idx
              (Nat.max (default 0%nat (dict_get max_len_per_col c_idx)) l)))
  end.

Fixpoint result_fold {A S} (f : S -> A -> result S) (l : list A) (s : S) : result S :=
  match l with
  | [] => Ok s
  | x :: l' => rbind (f s x) (result_fold f l')
  end.

Definition max_len_per_col (ws : worksheet) : result (list (nat * nat)) :=
  result_fold (fun d r => result_fold (autosize_cell ws r) (seq 1 (max_column ws)) d)
              (seq 1 (max_row ws)) [].

(** [max(min_col_width_chars, min(max_len + 2, max_col_width_chars))] *)
Definition autosize_width (min_col_width_chars max_col_width_chars : Z)
    (max_len : nat) : Z :=
  Z.max min_col_width_chars (Z.min (Z.of_nat max_len + 2) max_col_width_chars).

(** The widths of the columns of a sheet, by column index:
    [ws.column_dimensions[get_column_letter(c)].width]. *)
Definition column_widths := nat -> option number.

Definition set_width (d : column_widths) (c : nat) (v : number) : column_widths :=
  fun c' => if (c' =? c)%nat then Some v else d c'.

Definition autosize_sheet_excel (ws : worksheet) (min_col_width_chars
    max_col_width_chars : Z) (widths : column_widths) : result column_widths :=
  rbind (max_len_per_col ws) (fun lens =>
    Ok (fold_left (fun d '(c_idx, max_len) =>
                     set_width d c_idx
                       (PyInt (autosize_width min_col_width_chars
                                              max_col_width_chars max_len)))
                  lens widths)).

(** [sum(xs)] *)
Definition py_sum (xs : list Z) : Z := fold_left Z.add xs 0%Z.

(** The loops of [render_sheet_to_image] that place the cells: [col_px]
    and [row_px] are the lists built before them, one entry per column and
    per row, and the loops run over [range(1, col_count + 1)] and
    [range(1, row_count + 1)], reading [col_px[c-1]] and [row_px[r-1]]. *)
Definition place_row (col_px : list Z) (r : nat) (y h_px : Z)
    (cell_boxes : gmap (nat * nat) rect) : gmap (nat * nat) rect :=
  (fold_left (fun (st : Z * gmap (nat * nat) rect) (cw : nat * Z) =>
                let '(x, boxes) := st in
                let '(c, w_px) := cw in
                let '(x0, y0) := (x, y) in
                let '(x1, y1) := (x + w_px, y + h_px)%Z in
                (x1, <[(r, c) := (x0, y0, x1, y1)]> boxes))
             (enumerate 1 col_px) (0%Z, cell_boxes)).2.

Definition place_cells (col_px row_px : list Z) : gmap (nat * nat) rect :=
  (fold_left (fun (st : Z * gmap (nat * nat) rect) (rh : nat * Z) =>
                let '(y, boxes) := st in
                let '(r, h_px) := rh in
                (y + h_px, place_row col_px r y h_px boxes)%Z)
             (enumerate 1 row_px) (0%Z, ∅)).2.

(** ** External collaborators

    The rasteriser of pdfplumber, its native shape drawing, the outline
    drawing of Pillow, the layout of a sheet with PIL font metrics, the
    measuring of row heights and the workbook writer are outside the
    handlers. Each is a parameter that either returns or raises. *)
Record env := {
  (** [page.to_image(resolution=resolution)] *)
  to_image : page -> Z -> result raster;
  (** whether [page_img_obj.draw_rect] raises on a rectangle *)
  draw_rect_raises : pdf_match -> option exn;
  (** whether [ImageDraw.rectangle(box, outline=color)] raises: Pillow
      refuses a colour that [ImageColor] does not know, a box whose corners
      are out of order and a coordinate that does not fit a C [long] *)
  rectangle_raises : pystr -> rect -> option exn;
  (** whether [set_row_heights_for_wrapped_cells] raises on a worksheet
      with the given column widths *)
  row_heights_raise : worksheet -> column_widths -> Z -> option exn;
  (** the plain picture of a sheet and the place of its cells, as laid out
      by [render_sheet_to_image] from the cells and the column widths
      before it looks for matches *)
  layout_sheet : worksheet -> column_widths -> Z
                 -> result (raster * gmap (nat * nat) cell_px);
  (** whether [annotated_wb.save] raises *)
  workbook_save_raises : option exn
}.

(** *** PIL *)

Definition alloc (i : image) : M nat :=
  fun w => (Ok (length (heap w)),
            {| heap := heap w ++ [i]; fs := fs w; stdout := stdout w |}).

Definition deref (l : nat) : M image :=
  fun w => (Ok (nth l (heap w) blank), w).

(** [img.copy()] *)
Definition image_copy (l : nat) : M nat := i <- deref l ;; alloc i.

(** [img.convert("RGB")]: always a new object. *)
Definition convert_rgb (l : nat) : M nat := i <- deref l ;; alloc (as_rgb i).

(** [img.size] *)
Definition image_size (l : nat) : M (Z * Z) := i <- deref l ;; ret (im_size i).

(** [ImageDraw.Draw(img).rectangle(box, outline=color)]: raises what
    Pillow raises on this colour and box, and otherwise paints on the
    object itself. *)
Definition draw_rectangle (E : env) (l : nat) (box : rect) (color : pystr) : M unit :=
  match rectangle_raises E color box with
  | Some e => raise e
  | None =>
      fun w => (Ok tt, {| heap := alter (paint (Outline box color)) l (heap w);
                          fs := fs w; stdout := stdout w |})
  end.

(** [img.save(path)] *)
Definition image_save (l : nat) (path : pystr) : M unit :=
  fun w => (Ok tt, {| heap := heap w;
                      fs := <[path := PngFile (nth l (heap w) blank)]> (fs w);
                      stdout := stdout w |}).

(** [Image.open(path)] *)
Definition image_open (path : pystr) : M nat :=
  fun w => match fs w !! path with
           | Some (PngFile i) => alloc i w
           | Some _ => (Raise UnidentifiedImageError, w)
           | None => (Raise FileNotFoundError, w)
           end.

(** ** pdf_handler.py

    A document is the list of its pages, as [pdfplumber.open(pdf_path).pages]
    gives them: the functions are entered on a file that opens, and
    [out_dir.mkdir(parents=True, exist_ok=True)] has no part in what
    follows. *)

(** [out_dir / name] *)
Definition path_join (out_dir name : pystr) : pystr := out_dir ++ py "/" ++ name.

(** [Path(p).name] for a path that does not end in a separator: what
    follows the last [/]. *)
Definition path_name (p : pystr) : pystr :=
  fold_left (fun name c => if c =? 47 then [] else name ++ [c]) p [].

(** The handle returned by [page.to_image]: pdfplumber keeps the plain
    picture and a copy on which it draws. *)
Record page_image := {
  original : nat;
  annotated : nat
}.

Definition render_page (E : env) (pg : page) (resolution : Z) : M (nat * page_image) :=
  raw <- lift (to_image E pg resolution) ;;
  o <- alloc (image_of_raster raw) ;;
  a <- alloc (image_of_raster raw) ;;
  let page_img := {| original := o; annotated := a |} in
  let pil := original page_img in
  i <- deref pil ;;
  pil <- match im_mode i with
         | RGB => ret pil
         | OtherMode => convert_rgb pil
         end ;;
  ret (pil, page_img).

(** [page_img_obj.draw_rect(bbox, stroke=..., stroke_width=..., fill=None)] *)
Definition native_draw_rect (E : env) (pobj : page_image) (r : pdf_match)
    (stroke : pystr) (stroke_width : Z) : M unit :=
  match draw_rect_raises E r with
  | Some e => raise e
  | None =>
      fun w => (Ok tt,
                {| heap := alter (paint (NativeRect (m_x0 r) (m_top r) (m_x1 r)
                                                    (m_bottom r) stroke stroke_width))
                                 (annotated pobj) (heap w);
                   fs := fs w; stdout := stdout w |})
  end.

Definition draw_with_drawrect (E : env) (page_img_obj : page_image)
    (rects : list pdf_match) (out_path : pystr) (stroke : pystr)
    (stroke_width : Z) : M bool :=
  try_except
    (_ <- for_each rects (fun r =>
            native_draw_rect E page_img_obj r stroke stroke_width) ;;
     img <- convert_rgb (original page_img_obj) ;;
     _ <- image_save img out_path ;;
     ret true)
    (fun e => _ <- print (DrawRectFailed e) ;; ret false).

(** [a / b] with [a] an [int] and [b] a [float]. *)
Definition truediv (a : Z) (b : float) : result float := fdiv (float_of_int a) b.

(** The loop [for w in range(stroke_width): draw.rectangle([x0-w, y0-w,
    x1+w, y1+w], outline=stroke)], which [draw_fallback], [draw_boxes] and
    [draw_matches_on_image] each spell out. *)
Definition outline_passes (E : env) (img : nat) (box : rect) (stroke : pystr)
    (stroke_width : Z) : M unit :=
  let '(x0, y0, x1, y1) := box in
  for_each (py_range stroke_width) (fun w =>
    draw_rectangle E img (x0 - w, y0 - w, x1 + w, y1 + w)%Z stroke).

Definition draw_fallback (E : env) (pil_img : nat) (page_pts : float * float)
    (rects : list pdf_match) (out_path : pystr) (stroke : pystr)
    (stroke_width : Z) : M bool :=
  size <- image_size pil_img ;;
  let '(img_w, img_h) := size in
  let '(page_w, page_h) := page_pts in
  scale_x <- lift (truediv img_w page_w) ;;
  scale_y <- lift (truediv img_h page_h) ;;
  _ <- for_each rects (fun r =>
         x0 <- lift (py_int (fmul (m_x0 r) scale_x)) ;;
         x1 <- lift (py_int (fmul (m_x1 r) scale_x)) ;;
         y0 <- lift (py_int (fmul (m_top r) scale_y)) ;;
         y1 <- lift (py_int (fmul (m_bottom r) scale_y)) ;;
         outline_passes E pil_img (x0, y0, x1, y1) stroke stroke_width) ;;
  _ <- image_save pil_img out_path ;;
  ret true.

Definition images_to_pdf (image_list : list pystr) (out_pdf : pystr) : M unit :=
  imgs <- list_comp (fun p => i <- image_open p ;; convert_rgb i) image_list ;;
  match imgs with
  | [] => raise IndexError
  | first :: rest =>
      fun w => (Ok tt,
                {| heap := heap w;
                   fs := <[out_pdf := PdfFile ((fun l => nth l (heap w) blank)
                                               <$> (first :: rest))]> (fs w);
                   stdout := stdout w |})
  end.

Definition fallback_path (out_dir : pystr) (pnum : nat) : pystr :=
  path_join out_dir (py "page_" ++ py (pretty pnum) ++ py "_annot_fallback.png").

Definition drawrect_path (out_dir : pystr) (pnum : nat) : pystr :=
  path_join out_dir (py "page_" ++ py (pretty pnum) ++ py "_annot_drawrect.png").

Definition combined_path (out_dir : pystr) : pystr :=
  path_join out_dir (py "annotated_combined.pdf").

(** [matches_by_page], built with [setdefault] and [append]. *)
Definition group_by_page (matches : list pdf_match) : list (nat * list pdf_match) :=
  fold_left (fun d m => setdefault_append d (m_page m) m) matches [].

(** The body of the page loop of [annotate_pdf_and_build_combined]; the
    local [chosen_images] is threaded through. *)
Definition annotate_page (E : env) (out_dir : pystr) (resolution outline_width : Z)
    (stroke_color : pystr) (force_render : bool)
    (matches_by_page : list (nat * list pdf_match))
    (chosen_images : list (nat * pystr)) (item : nat * page)
  : M (list (nat * pystr)) :=
  let '(pnum, pg) := item in
  let page_matches := default [] (dict_get matches_by_page pnum) in
  if is_nil page_matches && negb force_render then ret chosen_images
  else
    rendered <- render_page E pg resolution ;;
    let '(pil_img, page_img_obj) := rendered in
    let fallback := fallback_path out_dir pnum in
    copy <- image_copy pil_img ;;
    _ <- draw_fallback E copy (page_width pg, page_height pg) page_matches
                       fallback stroke_color outline_width ;;
    let chosen_images := dict_set chosen_images pnum fallback in
    let drawrect := drawrect_path out_dir pnum in
    ok <- draw_with_drawrect E page_img_obj page_matches drawrect
                             stroke_color outline_width ;;
    ret chosen_images.

(** The end of [annotate_pdf_and_build_combined]: from
    [ordered = [chosen_images[k] for k in sorted(chosen_images.keys())]]
    to the [return]. *)
Definition build_combined (out_dir : pystr) (chosen_images : list (nat * pystr))
  : M (list pystr * pystr) :=
  ordered <- lift (result_mapM (dict_getitem chosen_images)
                               (sorted_keys chosen_images)) ;;
  let combined_pdf := combined_path out_dir in
  _ <- (if is_nil ordered then ret tt
        else _ <- images_to_pdf ordered combined_pdf ;;
             print (PdfCombinedSaved combined_pdf)) ;;
  ret (ordered, combined_pdf).

Definition annotate_pdf_and_build_combined (E : env) (pdf : list page)
    (query out_dir : pystr) (resolution outline_width : Z)
    (stroke_color : pystr) (prefer_fallback force_render : bool)
  : M (list pystr * pystr) :=
  let matches := find_matches_in_pdf pdf query in
  _ <- print (PdfMatchesFound (length matches)) ;;
  let matches_by_page := group_by_page matches in
  chosen_images <- for_fold (enumerate 0 pdf)
                     (annotate_page E out_dir resolution outline_width
                        stroke_color force_render matches_by_page) [] ;;
  build_combined out_dir chosen_images.

(** ** image_handler.py *)

Definition draw_boxes (E : env) (img : nat) (boxes : list rect) (out_path : pystr)
    (stroke : pystr) (width : Z) : M pystr :=
  _ <- for_each boxes (fun box => outline_passes E img box stroke width) ;;
  _ <- image_save img out_path ;;
  ret out_path.

(** ** excel_handler.py

    A workbook is the list of its sheets in the order of [wb.sheetnames],
    each with its two loads: [process_excel_file] is entered on a file that
    exists and that openpyxl loads, and [out_dir.mkdir] has no part in what
    follows. *)

(** What [wb[sheet_name]] gives: a worksheet, with its cells and the widths
    of its columns, or a chart sheet, which has neither. *)
Inductive sheet_object :=
  | Worksheet (ws : worksheet) (widths : column_widths)
  | Chartsheet.

(** A sheet of the workbook: its name, the sheet of the [data_only] load
    that is searched, and the sheet of the second load that is sized,
    marked and laid out. *)
Record sheet := {
  sheet_name : pystr;
  data_sheet : sheet_object;
  annotated_sheet : sheet_object
}.

(** [autosize_sheet_excel(annotated_ws)] on what [annotated_wb[sheet_name]]
    gave: a chart sheet has no [iter_rows]. The worksheet comes back with
    its new widths. *)
Definition autosize_annotated (o : sheet_object) : result (worksheet * column_widths) :=
  match o with
  | Chartsheet => Raise AttributeError
  | Worksheet ws widths =>
      rbind (autosize_sheet_excel ws 10 60 widths) (fun widths' => Ok (ws, widths'))
  end.

(** [set_row_heights_for_wrapped_cells(annotated_ws, font_size=font_size)]:
    the heights it sets are read by nothing below. *)
Definition set_row_heights_for_wrapped_cells (E : env) (ws : worksheet)
    (widths : column_widths) (font_size : Z) : result unit :=
  match row_heights_raise E ws widths font_size with
  | Some e => Raise e
  | None => Ok tt
  end.

(** [find_matches_in_sheet(ws, query)] on what [wb[sheet_name]] gave: a
    chart sheet has no [max_row]. *)
Definition find_matches_in (o : sheet_object) (query : pystr)
  : result (list (nat * nat)) :=
  match o with
  | Chartsheet => Raise AttributeError
  | Worksheet ws _ => Ok (find_matches_in_sheet ws query)
  end.

Definition render_sheet_to_image (E : env) (ws : worksheet) (widths : column_widths)
    (query : pystr) (font_size : Z)
  : M (nat * gmap (nat * nat) rect * list (nat * nat)) :=
  laid_out <- lift (layout_sheet E ws widths font_size) ;;
  let '(plain, cells) := laid_out in
  let cell_boxes := cell_box <$> cells in
  img <- alloc (image_of_raster plain) ;;
  let matches := find_matches_in_sheet ws query in
  ret (img, cell_boxes, matches).

Definition draw_matches_on_image (E : env) (img : nat)
    (cell_boxes : gmap (nat * nat) rect) (match_cells : list (nat * nat))
    (out_path : pystr) (stroke : pystr) (stroke_width : Z) : M bool :=
  _ <- for_each match_cells (fun rc =>
         match cell_boxes !! rc with
         | None => ret tt
         | Some box => outline_passes E img box stroke stroke_width
         end) ;;
  _ <- image_save img out_path ;;
  ret true.

Definition sheet_image_path (out_dir name : pystr) : pystr :=
  path_join out_dir (name ++ py "_annot.png").

(** The body of the sheet loop of [process_excel_file]. The locals
    [generated_images] and the red borders given to cells of the annotated
    workbook, sheet by sheet, are threaded through; [None] from the [try]
    stands for its [continue]. The borders are set before the [try], on the
    cells that match in the [data_only] load. *)
Definition process_sheet (E : env) (query out_dir stroke_color : pystr)
    (outline_width font_size : Z)
    (st : list pystr * list (pystr * list (nat * nat))) (sh : sheet)
  : M (list pystr * list (pystr * list (nat * nat))) :=
  let '(generated_images, borders) := st in
  _ <- print (XlsProcessingSheet (sheet_name sh)) ;;
  sized <- lift (autosize_annotated (annotated_sheet sh)) ;;
  let '(annotated_ws, widths) := sized in
  _ <- lift (set_row_heights_for_wrapped_cells E annotated_ws widths font_size) ;;
  match_cells <- lift (find_matches_in (data_sheet sh) query) ;;
  _ <- print (XlsMatchesFound (length match_cells)) ;;
  let borders := borders ++ [(sheet_name sh, match_cells)] in
  rendered <- try_except
    (r <- render_sheet_to_image E annotated_ws widths query font_size ;;
     ret (Some r))
    (fun e => _ <- print (XlsRenderError (sheet_name sh) e) ;; ret None) ;;
  match rendered with
  | None => ret (generated_images, borders)
  | Some (img, cell_boxes, matches) =>
      let out_img_path := sheet_image_path out_dir (sheet_name sh) in
      _ <- draw_matches_on_image E img cell_boxes match_cells out_img_path
                                 stroke_color outline_width ;;
      _ <- print (XlsSavedImage out_img_path) ;;
      ret (generated_images ++ [out_img_path], borders)
  end.

(** [annotated_wb.save(path)]: the file holds the borders set so far. *)
Definition save_workbook (E : env) (path : pystr)
    (borders : list (pystr * list (nat * nat))) : M unit :=
  match workbook_save_raises E with
  | Some e => raise e
  | None => fun w => (Ok tt, {| heap := heap w;
                                fs := <[path := XlsxFile borders]> (fs w);
                                stdout := stdout w |})
  end.

Definition process_excel_file (E : env) (xlsx_path : pystr) (wb : list sheet)
    (query out_dir stroke_color : pystr) (outline_width font_size : Z)
  : M (list pystr * pystr * pystr) :=
  _ <- print (XlsInputFile xlsx_path) ;;
  _ <- print (XlsQuery query) ;;
  _ <- print (XlsOutputDir out_dir) ;;
  st <- for_fold wb
      (process_sheet E query out_dir stroke_color outline_width font_size)
      ([], []) ;;
  let '(generated_images, borders) := st in
  let annotated_name := path_join out_dir (py "annotated_" ++ path_name xlsx_path) in
  _ <- try_except
         (_ <- save_workbook E annotated_name borders ;;
          print (XlsWorkbookSaved annotated_name))
         (fun e => print (XlsWorkbookError e)) ;;
  let combined_pdf := combined_path out_dir in
  _ <- (if is_nil generated_images then print XlsNoImages
        else try_except
               (_ <- images_to_pdf generated_images combined_pdf ;;
                print (XlsCombinedSaved combined_pdf))
               (fun e => print (XlsCombinedError e))) ;;
  ret (generated_images, combined_pdf, annotated_name).

(** ** app.py: the dispatch wrappers *)

(** The dictionary returned by a runner. [combined = None] is Python's
    [None]; [annotated_xlsx = None] is a dictionary without that key. *)
Record run_result := {
  pages : list pystr;
  combined : option pystr;
  annotated_xlsx : option pystr
}.

(** Truth value of a [pathlib.Path]: the class defines neither [__bool__]
    nor [__len__], so every path is true. *)
Definition path_truthy (p : pystr) : bool := true.

Definition run_pdf (E : env) (pdf : list page) (query outdir : pystr)
    (resolution outline : Z) (color : pystr) (force_render : bool)
  : M run_result :=
  r <- annotate_pdf_and_build_combined E pdf query outdir resolution
         outline color true force_render ;;
  let '(pgs, comb) := r in
  ret {| pages := pgs;
         combined := if path_truthy comb then Some comb else None;
         annotated_xlsx := None |}.

Definition run_excel (E : env) (path : pystr) (wb : list sheet)
    (query outdir : pystr) (outline : Z) (color : pystr) (font_size : Z)
  : M run_result :=
  r <- process_excel_file E path wb query outdir color outline font_size ;;
  let '(images, comb, annotated) := r in
  ret {| pages := images; combined := Some comb; annotated_xlsx := Some annotated |}.

(** ** Vocabulary of the statements *)

Definition is_ascii (s : pystr) : Prop := Forall (fun c => c < 128) s.

Definition all_space (s : pystr) : Prop := Forall (fun c => is_space c = true) s.

Definition pystr_eqb (a b : pystr) : bool := bool_decide (a = b).

(** The record emitted for a word that matches. *)
Definition match_of_word (pnum : nat) (w : word) : pdf_match :=
  {| m_page := pnum; m_text := py_strip (default [] (w_text w));
     m_x0 := w_x0 w; m_top := w_top w; m_x1 := w_x1 w; m_bottom := w_bottom w |}.

(** The populated cells of a sheet in row-major order. *)
Definition populated_cells (ws : worksheet) : list (nat * nat) :=
  flat_map (fun r =>
    flat_map (fun c => match cell_value ws r c with
                       | Some _ => [(r, c)]
                       | None => []
                       end)
             (seq 1 (max_column ws)))
    (seq 1 (max_row ws)).

(** Pass [k] of a stroke: the box grown by [k] pixels on each side. *)
Definition inflate (box : rect) (k : Z) : rect :=
  let '(x0, y0, x1, y1) := box in (x0 - k, y0 - k, x1 + k, y1 + k)%Z.

(** The outlines of one box for a stroke width, innermost first. *)
Definition box_outlines (color : pystr) (stroke_width : Z) (box : rect) : list stroke :=
  (fun k => Outline (inflate box k) color) <$> py_range stroke_width.

Definition paint_all (ss : list stroke) (i : image) : image :=
  {| im_size := im_size i; im_mode := im_mode i; im_pixels := im_pixels i;
     im_strokes := im_strokes i ++ ss |}.

(** Truncation toward zero of a float that has an integer part. *)
Definition trunc (x : float) : option Z :=
  match x with
  | S754_zero _ => Some 0%Z
  | S754_finite s m e => Some (cond_Zopp s (Z.shiftl (Z.pos m) e))
  | _ => None
  end.

(** The coordinate mapping in the words of the specification:
    [scale_x = raster_w / native_w], [scale_y = raster_h / native_h] and the
    pixel rectangle [(x0*scale_x, top*scale_y, x1*scale_x, bottom*scale_y)],
    each coordinate truncated. *)
Definition map_rect (raster_w raster_h : Z) (native_w native_h : float)
    (r : pdf_match) : option rect :=
  let scale_x := fdiv_ieee (float_of_int raster_w) native_w in
  let scale_y := fdiv_ieee (float_of_int raster_h) native_h in
  px0 ← trunc (fmul (m_x0 r) scale_x);
  ptop ← trunc (fmul (m_top r) scale_y);
  px1 ← trunc (fmul (m_x1 r) scale_x);
  pbottom ← trunc (fmul (m_bottom r) scale_y);
  Some (px0, ptop, px1, pbottom).

(** A box whose corners are in order: [x0 <= x1] and [y0 <= y1]. *)
Definition valid_box (box : rect) : bool :=
  let '(x0, y0, x1, y1) := box in ((x0 <=? x1) && (y0 <=? y1))%Z.

(** The boxes the stroke loop hands to [ImageDraw.rectangle] for one box,
    first pass first. *)
Definition stroke_passes (stroke_width : Z) (box : rect) : list rect :=
  inflate box <$> py_range stroke_width.

(** The first exception of [ImageDraw.rectangle] over a list of boxes, if
    there is one. *)
Fixpoint first_refusal (E : env) (color : pystr) (boxes : list rect) : option exn :=
  match boxes with
  | [] => None
  | box :: rest =>
      match rectangle_raises E color box with
      | Some e => Some e
      | None => first_refusal E color rest
      end
  end.

(** A box that the stroke loop can outline in a colour: none of its
    passes is refused. With a width that is not positive there is no
    pass. *)
Definition accepted (E : env) (color : pystr) (stroke_width : Z) (box : rect) : bool :=
  match first_refusal E color (stroke_passes stroke_width box) with
  | None => true
  | Some _ => false
  end.

(** One pass of the loop of [draw_fallback]: the four conversions in the
    order in which it makes them, and the acceptance of the box. *)
Definition pixel_rect (E : env) (color : pystr) (stroke_width : Z)
    (scale_x scale_y : float) (r : pdf_match) : result rect :=
  rbind (py_int (fmul (m_x0 r) scale_x)) (fun x0 =>
  rbind (py_int (fmul (m_x1 r) scale_x)) (fun x1 =>
  rbind (py_int (fmul (m_top r) scale_y)) (fun y0 =>
  rbind (py_int (fmul (m_bottom r) scale_y)) (fun y1 =>
  match first_refusal E color (stroke_passes stroke_width (x0, y0, x1, y1)) with
  | None => Ok (x0, y0, x1, y1)
  | Some e => Raise e
  end)))).

(** The exceptions of [int(x)] on a float. *)
Definition conversion_error (e : exn) : Prop :=
  e = OverflowError \/ e = ValueError.

(** An exception of [ImageDraw.rectangle] for an outline colour. *)
Definition drawing_error (E : env) (color : pystr) (e : exn) : Prop :=
  exists box, rectangle_raises E color box = Some e.

(** The boxes [draw_fallback] outlines on an image of the given size, or
    the exception it raises before saving. *)
Definition fallback_boxes (E : env) (color : pystr) (stroke_width : Z)
    (size : Z * Z) (page_pts : float * float) (rects : list pdf_match)
  : result (list rect) :=
  rbind (truediv size.1 page_pts.1) (fun scale_x =>
  rbind (truediv size.2 page_pts.2) (fun scale_y =>
  result_mapM (pixel_rect E color stroke_width scale_x scale_y) rects)).

(** The store after a successful [draw_fallback] on object [l]. *)
Definition fallback_saved (l : nat) (ss : list stroke) (path : pystr) (w : world) : world :=
  {| heap := alter (paint_all ss) l (heap w);
     fs := <[path := PngFile (paint_all ss (nth l (heap w) blank))]> (fs w);
     stdout := stdout w |}.

Definition update_image (l : nat) (f : image -> image) (w : world) : world :=
  {| heap := alter f l (heap w); fs := fs w; stdout := stdout w |}.


(** The dictionary obtained by recording rendered units one after the
    other, as the page loop does with [chosen_images[pnum] = ...]. *)
Definition dict_of (units : list (nat * pystr)) : list (nat * pystr) :=
  fold_left (fun d u => dict_set d u.1 u.2) units [].

(** The picture stored at a path. *)
Definition png_at (w : world) (p : pystr) : image :=
  match fs w !! p with
  | Some (PngFile i) => i
  | _ => blank
  end.

(** The canonical picture of a page: the plain raster in RGB with the
    outlines of [draw_fallback], or the exception that prevents it. *)
Definition fallback_image (E : env) (pg : page) (resolution : Z)
    (rects : list pdf_match) (color : pystr) (stroke_width : Z) : result image :=
  rbind (to_image E pg resolution) (fun raw =>
    let plain := as_rgb (image_of_raster raw) in
    rbind (fallback_boxes E color stroke_width (im_size plain)
                          (page_width pg, page_height pg) rects)
      (fun boxes =>
         Ok (paint_all (flat_map (box_outlines color stroke_width) boxes) plain))).

(** The first exception of [draw_rect] over the rectangles, if any. *)
Fixpoint first_native_failure (E : env) (rects : list pdf_match) : option exn :=
  match rects with
  | [] => None
  | r :: rects' =>
      match draw_rect_raises E r with
      | Some e => Some e
      | None => first_native_failure E rects'
      end
  end.

(** The outlines [draw_matches_on_image] paints for the matching cells. *)
Definition cell_outlines (cell_boxes : gmap (nat * nat) rect)
    (color : pystr) (stroke_width : Z) (match_cells : list (nat * nat)) : list stroke :=
  flat_map (fun rc => match cell_boxes !! rc with
                      | Some box => box_outlines color stroke_width box
                      | None => []
                      end) match_cells.

(** The layout of a sheet, as the sheet loop obtains it: on the annotated
    worksheet once its columns are sized. *)
Definition sheet_layout (E : env) (font_size : Z) (sh : sheet)
  : result (raster * gmap (nat * nat) cell_px) :=
  rbind (autosize_annotated (annotated_sheet sh)) (fun '(ws, widths) =>
    layout_sheet E ws widths font_size).

(** Whether the layout of a sheet succeeds. *)
Definition lays_out (E : env) (font_size : Z) (sh : sheet) : bool :=
  match sheet_layout E font_size sh with
  | Ok _ => true
  | Raise _ => false
  end.

(** The matching cells of a sheet, found in its [data_only] load. *)
Definition sheet_matches (sh : sheet) (query : pystr) : list (nat * nat) :=
  match find_matches_in (data_sheet sh) query with
  | Ok cells => cells
  | Raise _ => []
  end.

(** A sheet on which the steps that precede the [try] raise nothing: its
    two loads are worksheets and the row heights can be measured. *)
Definition prepared (E : env) (font_size : Z) (sh : sheet) : bool :=
  match autosize_annotated (annotated_sheet sh), data_sheet sh with
  | Ok (ws, widths), Worksheet _ _ =>
      match row_heights_raise E ws widths font_size with
      | None => true
      | Some _ => false
      end
  | _, _ => false
  end.

(** A sheet whose outlines the drawing accepts: the cell box of every
    matching cell, when the sheet lays out. *)
Definition drawable (E : env) (query color : pystr) (stroke_width font_size : Z)
    (sh : sheet) : bool :=
  match sheet_layout E font_size sh with
  | Ok (_, cells) =>
      forallb (fun rc => match (cell_box <$> cells) !! rc with
                         | Some box => accepted E color stroke_width box
                         | None => true
                         end) (sheet_matches sh query)
  | Raise _ => true
  end.

(** A sheet the loop gets through without raising. *)
Definition passable (E : env) (query color : pystr) (stroke_width font_size : Z)
    (sh : sheet) : bool :=
  prepared E font_size sh && drawable E query color stroke_width font_size sh.

(** The picture [process_sheet] saves for a sheet that lays out: the plain
    sheet with the outlines of the matching cells. *)
Definition sheet_picture (E : env) (query color : pystr) (stroke_width font_size : Z)
    (sh : sheet) : option image :=
  match sheet_layout E font_size sh with
  | Ok (plain, cells) =>
      Some (paint_all (cell_outlines (cell_box <$> cells) color stroke_width
                         (sheet_matches sh query))
                      (image_of_raster plain))
  | Raise _ => None
  end.

(** The files left by the sheet loop. *)
Definition sheet_files (E : env) (query out_dir color : pystr)
    (stroke_width font_size : Z) (wb : list sheet) (files : gmap pystr file)
  : gmap pystr file :=
  fold_left (fun m sh =>
               match sheet_picture E query color stroke_width font_size sh with
               | Some img => <[sheet_image_path out_dir (sheet_name sh) := PngFile img]> m
               | None => m
               end) wb files.

(** The paths [process_excel_file] returns: one per sheet that lays out, in
    workbook order. *)
Definition rendered_sheet_paths (E : env) (out_dir : pystr) (font_size : Z)
    (wb : list sheet) : list pystr :=
  (fun sh => sheet_image_path out_dir (sheet_name sh))
    <$> List.filter (lays_out E font_size) wb.

(** The red borders of the annotated workbook: the matching cells of each
    sheet, in workbook order. *)
Definition workbook_borders (wb : list sheet) (query : pystr)
  : list (pystr * list (nat * nat)) :=
  (fun sh => (sheet_name sh, sheet_matches sh query)) <$> wb.

(** The files after [annotated_wb.save]. *)
Definition workbook_saved (E : env) (path : pystr)
    (borders : list (pystr * list (nat * nat))) (files : gmap pystr file)
  : gmap pystr file :=
  match workbook_save_raises E with
  | Some _ => files
  | None => <[path := XlsxFile borders]> files
  end.

(** The body of the loop over [rects] in [draw_fallback]. *)
Definition fallback_body (E : env) (pil_img : nat) (color : pystr)
    (stroke_width : Z) (scale_x scale_y : float) (r : pdf_match) : M unit :=
  x0 <- lift (py_int (fmul (m_x0 r) scale_x)) ;;
  x1 <- lift (py_int (fmul (m_x1 r) scale_x)) ;;
  y0 <- lift (py_int (fmul (m_top r) scale_y)) ;;
  y1 <- lift (py_int (fmul (m_bottom r) scale_y)) ;;
  outline_passes E pil_img (x0, y0, x1, y1) color stroke_width.

(** The units of a dictionary in the order of [sorted(d.keys())]. *)
Definition ascending (d : list (nat * pystr)) : list (nat * pystr) :=
  (fun k => (k, default [] (dict_get d k))) <$> sorted_keys d.

(** [page_matches] of the page loop. *)
Definition page_matches (pdf : list page) (query : pystr) (pnum : nat) : list pdf_match :=
  default [] (dict_get (group_by_page (find_matches_in_pdf pdf query)) pnum).

(** The test that makes the page loop [continue]. *)
Definition skipped (force_render : bool)
    (matches_by_page : list (nat * list pdf_match)) (pnum : nat) : bool :=
  is_nil (default [] (dict_get matches_by_page pnum)) && negb force_render.

(** The pages the loop renders, each with its canonical picture, up to the
    first page whose fallback rendering raises, and that exception. *)
Fixpoint canonical_pages (E : env) (resolution outline_width : Z)
    (stroke_color : pystr) (force_render : bool)
    (matches_by_page : list (nat * list pdf_match))
    (items : list (nat * page)) : list (nat * image) * option exn :=
  match items with
  | [] => ([], None)
  | (pnum, pg) :: rest =>
      let later := canonical_pages E resolution outline_width stroke_color
                                   force_render matches_by_page rest in
      if skipped force_render matches_by_page pnum then later
      else match fallback_image E pg resolution
                   (default [] (dict_get matches_by_page pnum))
                   stroke_color outline_width with
           | Raise e => ([], Some e)
           | Ok img => ((pnum, img) :: later.1, later.2)
           end
  end.

(** [chosen_images] after recording the rendered pages. *)
Definition chosen_after (out_dir : pystr) (rendered : list (nat * image))
    (chosen_images : list (nat * pystr)) : list (nat * pystr) :=
  fold_left (fun d u => dict_set d u.1 (fallback_path out_dir u.1))
            rendered chosen_images.

(** The canonical pictures written for the rendered pages. *)
Definition canonical_files (out_dir : pystr) (rendered : list (nat * image))
    (files : gmap pystr file) : gmap pystr file :=
  fold_left (fun m u => <[fallback_path out_dir u.1 := PngFile u.2]> m)
            rendered files.

(** Every file of a run of the page pipeline other than the diagnostic
    [drawrect] pictures: the canonical pictures and, when the run completes
    with at least one of them, the combined file. *)
Definition pipeline_files (out_dir : pystr)
    (run : list (nat * image) * option exn) (files : gmap pystr file)
  : gmap pystr file :=
  let pictures := canonical_files out_dir run.1 files in
  match run.2 with
  | Some _ => pictures
  | None =>
      if is_nil run.1 then pictures
      else <[combined_path out_dir := PdfFile ((fun u => u.2) <$> run.1)]> pictures
  end.

(** ** An example scenario

    Pages of 600 by 800 points rasterised to 900 by 1200 pixels, one word at
    (100, 200, 160, 220). The rasteriser of the scenario refuses a page that
    is 801 points high. A sheet that has a row is laid out as a picture of
    60 by 30 pixels with its first cell all over it, a sheet without a row
    is not laid out. The drawing knows the colours [red] and [black]; like
    Pillow it raises [ValueError] on any other, on a box whose corners are
    out of order and on a coordinate beyond 64 bits. *)

Definition scenario_word (text : string) : word :=
  {| w_text := Some (py text);
     w_x0 := float_of_int 100; w_top := float_of_int 200;
     w_x1 := float_of_int 160; w_bottom := float_of_int 220 |}.

Definition scenario_page (text : string) (height : Z) : page :=
  {| page_width := float_of_int 600; page_height := float_of_int height;
     extract_words := [scenario_word text] |}.

Definition fits_long (v : Z) : bool := ((- 2 ^ 63 <=? v) && (v <? 2 ^ 63))%Z.

Definition scenario_rectangle (color : pystr) (box : rect) : option exn :=
  let '(x0, y0, x1, y1) := box in
  if pystr_eqb color (py "red") || pystr_eqb color (py "black")
  then if valid_box box && forallb fits_long [x0; y0; x1; y1]
       then None else Some ValueError
  else Some ValueError.

Definition scenario_env (native_fails : bool) : env :=
  {| to_image := fun pg _ =>
       if SFeqb (page_height pg) (float_of_int 801)
       then Raise (LibraryError 1)
       else Ok {| r_size := (900, 1200)%Z; r_mode := RGB; r_pixels := 0 |};
     draw_rect_raises := fun _ =>
       if native_fails then Some (LibraryError 2) else None;
     rectangle_raises := scenario_rectangle;
     row_heights_raise := fun _ _ _ => None;
     layout_sheet := fun ws _ _ =>
       if (max_row ws =? 0)%nat then Raise (LibraryError 3)
       else Ok ({| r_size := (60, 30)%Z; r_mode := RGB; r_pixels := 1 |},
                {[ (1%nat, 1%nat) := {| cell_x := 0; cell_y := 0;
                                        cell_w := 60; cell_h := 30 |} ]});
     workbook_save_raises := None |}.

Definition scenario_sheet (name text : string) : sheet :=
  let ws := {| max_row := 1; max_column := 1;
               cell_value := fun _ _ => Some (py text) |} in
  {| sheet_name := py name;
     data_sheet := Worksheet ws (fun _ => None);
     annotated_sheet := Worksheet ws (fun _ => None) |}.

Definition empty_world : world := {| heap := []; fs := ∅; stdout := [] |}.

(** ** Vocabulary of the further properties *)

(** The first path of a list that [Image.open] cannot read from the given
    files, with the exception it raises. *)
Fixpoint first_unreadable (files : gmap pystr file) (paths : list pystr)
  : option (pystr * exn) :=
  match paths with
  | [] => None
  | p :: rest =>
      match files !! p with
      | Some (PngFile _) => first_unreadable files rest
      | Some _ => Some (p, UnidentifiedImageError)
      | None => Some (p, FileNotFoundError)
      end
  end.

(** A string without any whitespace character, as the words that
    [page.extract_words()] cuts at blanks. *)
Definition no_space (s : pystr) : Prop := Forall (fun c => is_space c = false) s.

(** The pages of the combined file of a workbook: the pictures of the
    sheets that lay out, converted to RGB, in workbook order. *)
Definition sheet_pages (E : env) (query color : pystr) (stroke_width font_size : Z)
    (wb : list sheet) : list image :=
  (fun sh => as_rgb (default blank
                       (sheet_picture E query color stroke_width font_size sh)))
    <$> List.filter (lays_out E font_size) wb.

(** The row-major order of cells. *)
Definition cell_lt (a b : nat * nat) : Prop :=
  (a.1 < b.1)%nat \/ (a.1 = b.1 /\ (a.2 < b.2)%nat).

(** The texts of the populated cells of a column, from the first row
    down. *)
Definition column_texts (ws : worksheet) (c : nat) : list pystr :=
  omap (fun r => cell_value ws r c) (seq 1 (max_row ws)).

(** The length of the longest line among the texts of a column. *)
Definition longest_in_column (ws : worksheet) (c : nat) : nat :=
  max_list (flat_map (fun s => length <$> splitlines s) (column_texts ws c)).

(** ** pathlib

    Paths are POSIX paths, as [pathlib.PurePosixPath] parses them: the
    components of a path are what lies between its separators, without the
    empty ones and the [.] ones. *)

(** [s.split(sep)] for a one-character separator. *)
Fixpoint split_on (sep : N) (s : pystr) : list pystr :=
  match s with
  | [] => [[]]
  | c :: s' =>
      if c =? sep then [] :: split_on sep s'
      else match split_on sep s' with
           | piece :: pieces => (c :: piece) :: pieces
           | [] => [[c]]
           end
  end.

(** The components of a path, the root left aside. *)
Definition path_components (p : pystr) : list pystr :=
  List.filter (fun x => negb (is_nil x) && negb (pystr_eqb x (py ".")))
              (split_on 47 p).

(** [Path(p).name]: the final component, if any. *)
Definition name_of_path (p : pystr) : pystr :=
  default [] (last (path_components p)).

(** [s.rfind(c)]; [None] stands for [-1]. *)
Fixpoint rfind (c : N) (s : pystr) : option nat :=
  match s with
  | [] => None
  | x :: s' =>
      match rfind c s' with
      | Some i => Some (S i)
      | None => if x =? c then Some 0%nat else None
      end
  end.

(** Where the suffix of a name starts: [i = name.rfind('.')] when
    [0 < i < len(name) - 1]. *)
Definition suffix_start (name : pystr) : option nat :=
  match rfind 46 name with
  | Some i => if (0 <? i)%nat && (S i <? length name)%nat then Some i else None
  | None => None
  end.

(** [Path(p).suffix] *)
Definition path_suffix (p : pystr) : pystr :=
  let name := name_of_path p in
  match suffix_start name with
  | Some i => drop i name
  | None => []
  end.

(** [Path(p).stem] *)
Definition path_stem (p : pystr) : pystr :=
  let name := name_of_path p in
  match suffix_start name with
  | Some i => take i name
  | None => name
  end.

(** ** app.py: the kind of a file *)

(** [d.get(k)] on a dictionary with string keys. *)
Fixpoint str_dict_get {V} (d : list (pystr * V)) (k : pystr) : option V :=
  match d with
  | [] => None
  | (k', v) :: d' => if pystr_eqb k' k then Some v else str_dict_get d' k
  end.

Definition SUPPORTED_EXTENSIONS : list (pystr * pystr) :=
  [ (py ".pdf", py "pdf");
    (py ".docx", py "docx");
    (py ".xlsx", py "excel");
    (py ".xls", py "excel");
    (py ".png", py "image");
    (py ".jpg", py "image");
    (py ".jpeg", py "image");
    (py ".tif", py "image");
    (py ".tiff", py "image") ].

Definition detect_type (path : pystr) : option pystr :=
  str_dict_get SUPPORTED_EXTENSIONS (py_lower (path_suffix path)).

(** [str.lower] and, on ASCII, [str.upper] as maps on code points. *)
Definition lower_char (c : N) : N :=
  if is_ascii_upper c || is_latin1_upper c then c + 32
  else if c =? 376 then 255
  else if c =? 924 then 956
  else c.

Definition upper_ascii_char (c : N) : N :=
  if is_ascii_lower c then c - 32 else c.

(** A name that is one component of a path. *)
Definition plain_component (name : pystr) : Prop :=
  name <> [] /\ name <> py "." /\ 47 ∉ name.

(** A change of case keeps the separators and the dots where they are. *)
Definition keeps_marks (g : N -> N) : Prop :=
  forall c, ((g c =? 47) = (c =? 47)) /\ ((g c =? 46) = (c =? 46)).

(** ** app.py: the files to process *)

(** What a path leads to: a regular file, a directory with its entries in
    the order [iterdir] yields them, or something that is neither. A
    directory that may not be read cannot be listed; one that may be read
    but not searched can be listed, but its entries cannot be examined. *)
#[warnings="-register-all"]
Inductive node :=
  | RegularFile
  | Directory (entries : list (pystr * node))
  | UnreadableDirectory
  | UnsearchableDirectory (names : list pystr)
  | OtherNode.

(** The exceptions of the application layer: those of the handlers and
    the ones [app.py] and [docx_handler.py] raise or meet themselves.
    [DelegateCallFailed e] is the [RuntimeError] raised [from e];
    [KeyErrorResult] is [KeyError('result')]. [SystemExit] is not an
    [Exception], so [except Exception] lets it through. *)
Inductive runtime_error :=
  | UnsupportedExtension (suffix : pystr)
  | NoRunnerAvailable (ftype : pystr)
  | NoConverterFound.

Inductive app_exn :=
  | Raised (e : exn)
  | RuntimeError (why : runtime_error)
  | DelegateCallFailed (cause : app_exn)
  | NotADirectoryError
  | PermissionError
  | TypeError
  | KeyErrorResult
  | SystemExit (code : Z).

Inductive app_result (A : Type) :=
  | Done (a : A)
  | Fail (e : app_exn).
Arguments Done {A} a.
Arguments Fail {A} e.

Definition is_some {A} (o : option A) : bool :=
  match o with Some _ => true | None => false end.

(** [gather_files(path, recursive)], where [n] is what [path] leads to. The
    recursive call is made on a directory only. [iterdir] raises
    [PermissionError] on a directory that may not be read, and [is_file]
    raises it on the first entry of one that may not be searched. *)
Fixpoint gather_files (path : pystr) (n : node) (recursive : bool)
  : app_result (list pystr) :=
  match n with
  | RegularFile => Done [path]
  | OtherNode => Fail NotADirectoryError
  | UnreadableDirectory => Fail PermissionError
  | UnsearchableDirectory [] => Done []
  | UnsearchableDirectory (_ :: _) => Fail PermissionError
  | Directory entries =>
      (fix scan (entries : list (pystr * node)) (files : list pystr)
         : app_result (list pystr) :=
         match entries with
         | [] => Done files
         | (name, child) :: rest =>
             let p := path_join path name in
             match child with
             | RegularFile =>
                 scan rest (if is_some (detect_type p) then files ++ [p] else files)
             | Directory _ | UnreadableDirectory | UnsearchableDirectory _ =>
                 if recursive
                 then match gather_files p child recursive with
                      | Done found => scan rest (files ++ found)
                      | Fail e => Fail e
                      end
                 else scan rest files
             | OtherNode => scan rest files
             end
         end) entries []
  end.

(** [gather_files] on a path that may not exist: [iterdir] raises
    [FileNotFoundError] then. *)
Definition gather_files_at (path : pystr) (n : option node) (recursive : bool)
  : app_result (list pystr) :=
  match n with
  | Some n => gather_files path n recursive
  | None => Fail (Raised FileNotFoundError)
  end.

(** ** The application layer: console and computations *)

Inductive console_line :=
  | ImgInput (p : pystr)
  | ImgQuery (q : pystr)
  | ImgOutputDir (d : pystr)
  | ImgMatchesFound (n : nat)
  | ImgSaved (p : pystr)
  | ImgCombinedSaved (p : pystr)
  | RunnerNoFiles (p : pystr)
  | RunnerSeparator
  | RunnerProcessing (name path : pystr)
  | RunnerDone (subdir : pystr)
  | RunnerImagesHeading
  | RunnerImage (p : pystr)
  | RunnerCombined (p : pystr)
  | RunnerAnnotatedExcel (p : pystr)
  | RunnerError (name : pystr) (msg : pystr)
  | RunnerTraceback (e : app_exn)
  | RunnerSummary
  | SummaryError (file msg : pystr)
  | SummaryOutdir (file outdir : pystr)
  | SummaryCombined (p : pystr)
  | SummaryPages (n : nat)
  | RunnerAllDone.

(** The state of a run of the application: the store of the handlers and
    what the application itself printed. *)
Record session := {
  disk : world;
  console : list console_line
}.

Definition App (A : Type) : Type := session -> app_result A * session.

Definition app_ret {A} (a : A) : App A := fun s => (Done a, s).

Definition app_bind {A B} (c : App A) (k : A -> App B) : App B :=
  fun s => match c s with
           | (Done a, s') => k a s'
           | (Fail e, s') => (Fail e, s')
           end.

Definition app_raise {A} (e : app_exn) : App A := fun s => (Fail e, s).

Notation "x <~ c ;; k" := (app_bind c (fun x => k))
  (at level 100, c at next level, right associativity).

(** A computation of the handlers, run on the store of the session. *)
Definition run_handler {A} (c : M A) : App A :=
  fun s => match c (disk s) with
           | (Ok a, w') => (Done a, {| disk := w'; console := console s |})
           | (Raise e, w') => (Fail (Raised e), {| disk := w'; console := console s |})
           end.

Definition say (l : console_line) : App unit :=
  fun s => (Done tt, {| disk := disk s; console := console s ++ [l] |}).

(** Whether [except Exception] catches an exception. *)
Definition is_exception (e : app_exn) : bool :=
  match e with
  | SystemExit _ => false
  | _ => true
  end.

(** [try: c except Exception as e: h e] *)
Definition app_try {A} (c : App A) (h : app_exn -> App A) : App A :=
  fun s => match c s with
           | (Done a, s') => (Done a, s')
           | (Fail e, s') => if is_exception e then h e s' else (Fail e, s')
           end.

Fixpoint app_for_each {A} (l : list A) (body : A -> App unit) : App unit :=
  match l with
  | [] => app_ret tt
  | x :: l' => _ <~ body x ;; app_for_each l' body
  end.

Fixpoint app_for_fold {A S} (l : list A) (body : S -> A -> App S) (s : S) : App S :=
  match l with
  | [] => app_ret s
  | x :: l' => s' <~ body s x ;; app_for_fold l' body s'
  end.

(** ** image_handler.py: [process_image] *)

(** [extract_boxes(image_path, query)]: [ocr] stands for
    [pytesseract.image_to_data], and the list it returns for the rows of
    its dictionary. *)
Definition extract_boxes_at (ocr : image -> result (list ocr_entry))
    (image_path query : pystr) : M (nat * list rect) :=
  opened <- image_open image_path ;;
  img <- convert_rgb opened ;;
  i <- deref img ;;
  data <- lift (ocr i) ;;
  let boxes := extract_boxes data query in
  ret (img, boxes).

Definition path_exists (p : pystr) : App bool :=
  fun s => (Done (is_some (fs (disk s) !! p)), s).

Definition process_image (E : env) (ocr : image -> result (list ocr_entry))
    (image_path query out_dir stroke_color : pystr) (outline_width : Z)
  : App (pystr * pystr) :=
  found <~ path_exists image_path ;;
  if negb found then app_raise (Raised FileNotFoundError)
  else
    _ <~ say (ImgInput image_path) ;;
    _ <~ say (ImgQuery query) ;;
    _ <~ say (ImgOutputDir out_dir) ;;
    extracted <~ run_handler (extract_boxes_at ocr image_path query) ;;
    let '(img, boxes) := extracted in
    _ <~ say (ImgMatchesFound (length boxes)) ;;
    let out_img_path := path_join out_dir (path_stem image_path ++ py "_annot.png") in
    _ <~ run_handler (draw_boxes E img boxes out_img_path stroke_color
                                 outline_width) ;;
    _ <~ say (ImgSaved out_img_path) ;;
    let combined_pdf_path := path_join out_dir (py "annotated_combined.pdf") in
    _ <~ run_handler (images_to_pdf [out_img_path] combined_pdf_path) ;;
    _ <~ say (ImgCombinedSaved combined_pdf_path) ;;
    app_ret (out_img_path, combined_pdf_path).

(** The regular files of a tree with their paths, in the order in which a
    depth-first walk meets them. *)
Fixpoint regular_files (path : pystr) (n : node) : list pystr :=
  match n with
  | RegularFile => [path]
  | OtherNode | UnreadableDirectory | UnsearchableDirectory _ => []
  | Directory entries =>
      (fix walk (entries : list (pystr * node)) : list pystr :=
         match entries with
         | [] => []
         | (name, child) :: rest =>
             regular_files (path_join path name) child ++ walk rest
         end) entries
  end.

(** The regular files that are entries of the directory itself. *)
Definition direct_files (path : pystr) (entries : list (pystr * node)) : list pystr :=
  flat_map (fun '(name, child) =>
              match child with
              | RegularFile => [path_join path name]
              | _ => []
              end) entries.

Definition supported (p : pystr) : bool := is_some (detect_type p).

(** A tree that a recursive scan gets through: each of its directories
    may be read, and may be searched unless it is empty. *)
Fixpoint accessible (n : node) : bool :=
  match n with
  | RegularFile | OtherNode => true
  | UnreadableDirectory => false
  | UnsearchableDirectory names => is_nil names
  | Directory entries =>
      (fix each (entries : list (pystr * node)) : bool :=
         match entries with
         | [] => true
         | (_, child) :: rest => accessible child && each rest
         end) entries
  end.

(** ** app.py: runners and dispatch *)

(** The keyword arguments handed to a runner: a dictionary over the five
    keys [main] uses. A key that is absent is [None]. *)
Record opts := {
  opt_resolution : option Z;
  opt_outline : option Z;
  opt_color : option pystr;
  opt_force_render : option bool;
  opt_font_size : option Z
}.

(** The functions the runners look up in the handler modules: the four
    modules are importable and hold their entry points, as they do in the
    repository, and the functions are whatever the modules hold when a
    runner is called. *)
Record handlers := {
  (** [pdf_handler.annotate_pdf_and_build_combined(path, query, out_dir,
      resolution, outline_width, stroke_color, prefer_fallback,
      force_render)] *)
  h_annotate_pdf :
    pystr -> pystr -> pystr -> Z -> Z -> pystr -> bool -> bool
    -> App (list pystr * pystr);
  (** [docx_handler.process_word_file(path, query, out_dir, resolution,
      outline_width, stroke_color, force_render, prefer_fallback)] *)
  h_process_word_file :
    pystr -> pystr -> pystr -> Z -> Z -> pystr -> bool -> bool
    -> App (list pystr * option pystr);
  (** [excel_handler.process_excel_file(path, query, out_dir, stroke_color,
      outline_width, font_size)] *)
  h_process_excel_file :
    pystr -> pystr -> pystr -> pystr -> Z -> Z
    -> App (list pystr * pystr * pystr);
  (** [image_handler.process_image(path, query, out_dir, stroke_color,
      outline_width)] *)
  h_process_image :
    pystr -> pystr -> pystr -> pystr -> Z -> App (pystr * pystr)
}.

Definition runner := pystr -> pystr -> pystr -> opts -> App run_result.

(** Truth value of an optional string: [None] and [""] are false. *)
Definition str_truthy (o : option pystr) : bool :=
  match o with
  | Some (_ :: _) => true
  | _ => false
  end.

(** The runners as [DISPATCH] holds them. A call [runner(path, query,
    outdir, **opts)] raises [TypeError] unless [opts] has exactly the
    keywords of the runner. *)
Definition dispatch_run_pdf (H : handlers) : runner :=
  fun path query outdir o =>
    match o with
    | {| opt_resolution := Some resolution; opt_outline := Some outline;
         opt_color := Some color; opt_force_render := Some force_render;
         opt_font_size := None |} =>
        r <~ h_annotate_pdf H path query outdir resolution outline color true
               force_render ;;
        let '(pgs, comb) := r in
        app_ret {| pages := pgs;
                   combined := if path_truthy comb then Some comb else None;
                   annotated_xlsx := None |}
    | _ => app_raise TypeError
    end.

Definition dispatch_run_docx (H : handlers) : runner :=
  fun path query outdir o =>
    match o with
    | {| opt_resolution := Some resolution; opt_outline := Some outline;
         opt_color := Some color; opt_force_render := Some force_render;
         opt_font_size := None |} =>
        r <~ h_process_word_file H path query outdir resolution outline color
               force_render true ;;
        let '(pgs, comb) := r in
        app_ret {| pages := pgs;
                   combined := if str_truthy comb then comb else None;
                   annotated_xlsx := None |}
    | _ => app_raise TypeError
    end.

Definition dispatch_run_excel (H : handlers) : runner :=
  fun path query outdir o =>
    match o with
    | {| opt_resolution := None; opt_outline := Some outline;
         opt_color := Some color; opt_force_render := None;
         opt_font_size := Some font_size |} =>
        r <~ h_process_excel_file H path query outdir color outline font_size ;;
        let '(images, comb, annotated) := r in
        app_ret {| pages := images; combined := Some comb;
                   annotated_xlsx := Some annotated |}
    | _ => app_raise TypeError
    end.

Definition dispatch_run_image (H : handlers) : runner :=
  fun path query outdir o =>
    match o with
    | {| opt_resolution := None; opt_outline := Some outline;
         opt_color := Some color; opt_force_render := None;
         opt_font_size := None |} =>
        r <~ h_process_image H path query outdir color outline ;;
        let '(img, comb) := r in
        app_ret {| pages := [img]; combined := Some comb;
                   annotated_xlsx := None |}
    | _ => app_raise TypeError
    end.

Definition DISPATCH (H : handlers) : list (pystr * runner) :=
  [ (py "pdf", dispatch_run_pdf H);
    (py "docx", dispatch_run_docx H);
    (py "excel", dispatch_run_excel H);
    (py "image", dispatch_run_image H) ].

Definition process_single_file (H : handlers) (file_path query outdir : pystr)
    (o : opts) : App (run_result * pystr) :=
  let ftype := detect_type file_path in
  if negb (str_truthy ftype)
  then app_raise (RuntimeError (UnsupportedExtension (path_suffix file_path)))
  else
    let out_subdir := path_join outdir (path_stem file_path) in
    match str_dict_get (DISPATCH H) (default [] ftype) with
    | None => app_raise (RuntimeError (NoRunnerAvailable (default [] ftype)))
    | Some run =>
        result <~ run file_path query out_subdir o ;;
        app_ret (result, out_subdir)
    end.

(** ** app.py: [main], from the parsed arguments on *)

(** An item of [overall]. *)
Inductive summary_item :=
  | ItemResult (file outdir : pystr) (result : run_result)
  | ItemError (file error : pystr).

Definition no_opts : opts :=
  {| opt_resolution := None; opt_outline := None; opt_color := None;
     opt_force_render := None; opt_font_size := None |}.

(** [runner_opts], chosen by the kind of the file. *)
Definition runner_opts (ftype : option pystr) (resolution outline : Z)
    (color : pystr) (force_render : bool) (font_size : Z) : opts :=
  if pystr_eqb (default [] ftype) (py "pdf")
     || pystr_eqb (default [] ftype) (py "docx")
  then {| opt_resolution := Some resolution; opt_outline := Some outline;
          opt_color := Some color; opt_force_render := Some force_render;
          opt_font_size := None |}
  else if pystr_eqb (default [] ftype) (py "excel")
  then {| opt_resolution := None; opt_outline := Some outline;
          opt_color := Some color; opt_force_render := None;
          opt_font_size := Some font_size |}
  else if pystr_eqb (default [] ftype) (py "image")
  then {| opt_resolution := None; opt_outline := Some outline;
          opt_color := Some color; opt_force_render := None;
          opt_font_size := None |}
  else no_opts.

Section Main.

Variable H : handlers.
(** [str(e)] for an exception. *)
Variable message : app_exn -> pystr.
Variables (query outdir : pystr) (resolution outline : Z) (color : pystr).
Variables (force_render : bool) (font_size : Z).

(** The body of the loop over [files]; [overall] is threaded through. *)
Definition process_listed_file (overall : list summary_item) (f : pystr)
  : App (list summary_item) :=
  _ <~ say RunnerSeparator ;;
  _ <~ say (RunnerProcessing (name_of_path f) f) ;;
  app_try
    (let ftype := detect_type f in
     let o := runner_opts ftype resolution outline color force_render font_size in
     r <~ process_single_file H f query outdir o ;;
     let '(result, subdir) := r in
     _ <~ say (RunnerDone subdir) ;;
     _ <~ (if is_nil (pages result) then app_ret tt
           else _ <~ say RunnerImagesHeading ;;
                app_for_each (pages result) (fun p => say (RunnerImage p))) ;;
     _ <~ (if str_truthy (combined result)
           then say (RunnerCombined (default [] (combined result)))
           else app_ret tt) ;;
     _ <~ (if str_truthy (annotated_xlsx result)
           then say (RunnerAnnotatedExcel (default [] (annotated_xlsx result)))
           else app_ret tt) ;;
     app_ret (overall ++ [ItemResult f subdir result]))
    (fun e =>
       _ <~ say (RunnerError (name_of_path f) (message e)) ;;
       _ <~ say (RunnerTraceback e) ;;
       app_ret (overall ++ [ItemError f (message e)])).

(** The body of the summary loop: [item.get("error")] is false for an
    item without the key and for an empty message, and [item["result"]]
    raises [KeyError] on an item without that key. *)
Definition summarize_item (item : summary_item) : App unit :=
  match item with
  | ItemError file (c :: msg) => say (SummaryError file (c :: msg))
  | ItemError file [] => app_raise KeyErrorResult
  | ItemResult file dir r =>
      _ <~ say (SummaryOutdir file dir) ;;
      _ <~ (if str_truthy (combined r)
            then say (SummaryCombined (default [] (combined r)))
            else app_ret tt) ;;
      if is_nil (pages r) then app_ret tt
      else say (SummaryPages (length (pages r)))
  end.

(** [main] once the arguments are parsed and the paths resolved; [n] is
    what [path_obj] leads to. [open_folder] swallows every exception and
    leaves no trace in the session. *)
Definition main (path_obj : pystr) (n : option node) (recursive open_after : bool)
  : App Z :=
  files <~ (fun s => (gather_files_at path_obj n recursive, s)) ;;
  if is_nil files
  then _ <~ say (RunnerNoFiles path_obj) ;; app_raise (SystemExit 2)
  else
    overall <~ app_for_fold files process_listed_file [] ;;
    _ <~ say RunnerSeparator ;;
    _ <~ say RunnerSummary ;;
    _ <~ app_for_each overall summarize_item ;;
    _ <~ say RunnerAllDone ;;
    app_ret 0%Z.

End Main.

(** The file an item of [overall] is about. *)
Definition item_file (item : summary_item) : pystr :=
  match item with
  | ItemResult file _ _ => file
  | ItemError file _ => file
  end.

(** An item that records a failure whose message is empty. *)
Definition silent_failure (item : summary_item) : bool :=
  match item with
  | ItemError _ [] => true
  | _ => false
  end.

(** Handlers that fail with exceptions only, never with [SystemExit]. *)
Definition fail_with_exceptions (H : handlers) : Prop :=
  (forall a b c d e f g h s x s',
     h_annotate_pdf H a b c d e f g h s = (Fail x, s') -> is_exception x = true) /\
  (forall a b c d e f g h s x s',
     h_process_word_file H a b c d e f g h s = (Fail x, s') ->
     is_exception x = true) /\
  (forall a b c d e f s x s',
     h_process_excel_file H a b c d e f s = (Fail x, s') -> is_exception x = true) /\
  (forall a b c d e s x s',
     h_process_image H a b c d e s = (Fail x, s') -> is_exception x = true).

(** Handlers for the example scenario: every PDF is the one-page document
    of the scenario, every workbook has its one sheet, OCR reads one word,
    and no converter for Word documents is installed. *)
Definition scenario_handlers : handlers :=
  {| h_annotate_pdf := fun path query out_dir resolution outline color pf fr =>
       run_handler (annotate_pdf_and_build_combined (scenario_env false)
                      [scenario_page "report" 800] query out_dir resolution
                      outline color pf fr);
     h_process_word_file := fun path query out_dir resolution outline color fr pf =>
       app_raise (Raised FileNotFoundError);
     h_process_excel_file := fun path query out_dir color outline font_size =>
       run_handler (process_excel_file (scenario_env false) path
                      [scenario_sheet "Sheet1" "report"] query out_dir color
                      outline font_size);
     h_process_image := fun path query out_dir color outline =>
       process_image (scenario_env false)
                     (fun _ => Ok [ {| o_text := py "report"; o_left := 10;
                                       o_top := 20; o_width := 50;
                                       o_height := 12 |} ])
                     path query out_dir color outline |}.

Definition empty_session : session := {| disk := empty_world; console := [] |}.

(** The call a file of a given kind ends in, with the options of the
    command line: the handler of the kind and the shape given to its
    result. *)
Definition handler_call (H : handlers) (ftype file query subdir : pystr)
    (resolution outline : Z) (color : pystr) (force_render : bool) (font_size : Z)
  : App run_result :=
  if pystr_eqb ftype (py "pdf") then
    r <~ h_annotate_pdf H file query subdir resolution outline color true
           force_render ;;
    app_ret {| pages := r.1; combined := Some r.2; annotated_xlsx := None |}
  else if pystr_eqb ftype (py "docx") then
    r <~ h_process_word_file H file query subdir resolution outline color
           force_render true ;;
    app_ret {| pages := r.1; combined := if str_truthy r.2 then r.2 else None;
               annotated_xlsx := None |}
  else if pystr_eqb ftype (py "excel") then
    r <~ h_process_excel_file H file query subdir color outline font_size ;;
    app_ret {| pages := r.1.1; combined := Some r.1.2;
               annotated_xlsx := Some r.2 |}
  else
    r <~ h_process_image H file query subdir color outline ;;
    app_ret {| pages := [r.1]; combined := Some r.2; annotated_xlsx := None |}.

(** ** docx_handler.py *)

(** A [pathlib.Path] is kept as its string, [str(Path(p))]: the root, then
    the components joined by separators, or [.] when there is neither.
    Exactly two leading separators make the root [//], any other number
    makes it [/]. *)
Fixpoint leading_separators (p : pystr) : nat :=
  match p with
  | c :: p' => if c =? 47 then S (leading_separators p') else 0%nat
  | [] => 0%nat
  end.

Definition path_root (p : pystr) : pystr :=
  match leading_separators p with
  | 0%nat => []
  | 2%nat => py "//"
  | _ => py "/"
  end.

Fixpoint join_components (parts : list pystr) : pystr :=
  match parts with
  | [] => []
  | [x] => x
  | x :: rest => x ++ 47 :: join_components rest
  end.

Definition path_of (root : pystr) (parts : list pystr) : pystr :=
  if is_nil root && is_nil parts then py "."
  else root ++ join_components parts.

(** [str(Path(p))] *)
Definition path_str (p : pystr) : pystr :=
  path_of (path_root p) (path_components p).

(** [str(Path(p).parent)] *)
Definition path_parent (p : pystr) : pystr :=
  path_of (path_root p) (removelast (path_components p)).

(** [str(Path(d) / n)]: a rooted [n] replaces [d]. *)
Definition path_div (d n : pystr) : pystr :=
  if is_nil (path_root n)
  then path_of (path_root d) (path_components d ++ path_components n)
  else path_str n.

(** The programs the conversion relies on. [docx2pdf_convert] is [None]
    when the package cannot be imported, [which_soffice] is
    [shutil.which("soffice") or shutil.which("libreoffice")], and
    [run_soffice cmd outdir docx] is the [subprocess.run] of the
    conversion command with [check=True]. *)
Record converters := {
  docx2pdf_convert : option (pystr -> pystr -> App unit);
  which_soffice : option pystr;
  run_soffice : pystr -> pystr -> pystr -> App unit
}.

(** [shutil.move(src, dst)] of a file onto a file path. *)
Definition move_file (src dst : pystr) : App unit :=
  fun s =>
    match fs (disk s) !! src with
    | None => (Fail (Raised FileNotFoundError), s)
    | Some f =>
        (Done tt,
         {| disk := {| heap := heap (disk s);
                       fs := <[dst := f]> (delete src (fs (disk s)));
                       stdout := stdout (disk s) |};
            console := console s |})
    end.

(** The two converters take paths, here the strings of these paths. Files
    are found under the string of their path, and directories can be made:
    [mkdir(parents=True, exist_ok=True)] has no part in what follows. Two
    paths [resolve()] to the same file when their strings are the same. *)
Definition _convert_with_docx2pdf (C : converters) (docx_path out_pdf_path : pystr)
  : App bool :=
  match docx2pdf_convert C with
  | None => app_ret false
  | Some convert =>
      app_try
        (_ <~ convert docx_path out_pdf_path ;;
         path_exists out_pdf_path)
        (fun _ => app_ret false)
  end.

Definition _convert_with_libreoffice (C : converters)
    (docx_path out_pdf_path : pystr) : App bool :=
  match which_soffice C with
  | None => app_ret false
  | Some soffice_cmd =>
      let outdir := path_parent out_pdf_path in
      app_try
        (_ <~ run_soffice C soffice_cmd outdir docx_path ;;
         let expected := path_div outdir (path_stem docx_path ++ py ".pdf") in
         found <~ path_exists expected ;;
         if found
         then _ <~ (if negb (pystr_eqb expected out_pdf_path)
                    then move_file expected out_pdf_path
                    else app_ret tt) ;;
              path_exists out_pdf_path
         else app_ret false)
        (fun _ => app_ret false)
  end.

Definition convert_docx_to_pdf (C : converters)
    (docx_path output_pdf_path : pystr) : App unit :=
  let src := path_str docx_path in
  let dst := path_str output_pdf_path in
  ok <~ _convert_with_docx2pdf C src dst ;;
  if ok then app_ret tt
  else
    ok <~ _convert_with_libreoffice C src dst ;;
    if ok then app_ret tt
    else app_raise (RuntimeError NoConverterFound).

(** [with tempfile.TemporaryDirectory() as tmpd: body]: when the block is
    left, by its end or by an exception, the directory is removed with all
    it holds. [tmpd] is the name [tempfile] gives the directory. *)
Definition remove_tree (dir : pystr) (files : gmap pystr file) : gmap pystr file :=
  filter (fun kv => startswith kv.1 (dir ++ py "/") = false) files.

Definition with_temporary_directory {A} (tmpd : pystr) (body : App A) : App A :=
  fun s =>
    match body s with
    | (r, s') =>
        (r, {| disk := {| heap := heap (disk s');
                          fs := remove_tree tmpd (fs (disk s'));
                          stdout := stdout (disk s') |};
               console := console s' |})
    end.

(** [try: c except TypeError: h] *)
Definition app_try_type_error {A} (c : App A) (h : App A) : App A :=
  fun s => match c s with
           | (Fail TypeError, s') => h s'
           | r => r
           end.

(** The function [process_word_file] delegates to, in the two ways it is
    called: with the options by keyword, and with the first six arguments
    by position. It returns a list of page files and a path. *)
Record delegate := {
  call_by_keyword : pystr -> pystr -> pystr -> Z -> Z -> pystr -> bool -> bool
                    -> App (list pystr * pystr);
  call_by_position : pystr -> pystr -> pystr -> Z -> Z -> pystr
                     -> App (list pystr * pystr)
}.

(** [process_word_file] with a module [pdf_handler] that can be imported
    and has the function delegated to, [delegate_fn]. [tmpd] is the
    directory that [tempfile.TemporaryDirectory()] creates. *)
Definition process_word_file (C : converters) (delegate_fn : delegate)
    (tmpd : pystr) (path query out_dir : pystr) (resolution outline_width : Z)
    (stroke_color : pystr) (force_render prefer_fallback : bool)
  : App (list pystr * option pystr) :=
  let src := path_str path in
  found <~ path_exists src ;;
  if negb found then app_raise (Raised FileNotFoundError)
  else
    let out_dir_path := path_str out_dir in
    with_temporary_directory tmpd
      (let temp_pdf := path_div tmpd (path_stem src ++ py ".pdf") in
       _ <~ convert_docx_to_pdf C src temp_pdf ;;
       result <~ app_try_type_error
                   (call_by_keyword delegate_fn temp_pdf query out_dir_path
                      resolution outline_width stroke_color prefer_fallback
                      force_render)
                   (app_try
                      (call_by_position delegate_fn temp_pdf query out_dir_path
                         resolution outline_width stroke_color)
                      (fun e => app_raise (DelegateCallFailed e))) ;;
       let '(pgs, comb) := result in
       app_ret (pgs, if path_truthy comb then Some comb else None)).

(** The session once the temporary directory has been removed. *)
Definition cleaned (tmpd : pystr) (s : session) : session :=
  {| disk := {| heap := heap (disk s); fs := remove_tree tmpd (fs (disk s));
                stdout := stdout (disk s) |};
     console := console s |}.

(** The roots a POSIX path can have. *)
Definition root_of_path (r : pystr) : Prop := r = [] \/ r = py "/" \/ r = py "//".

(** * Properties *)

(** ** Strings *)

Lemma below_128 (P : N -> bool) :
  forallb (fun n => P (N.of_nat n)) (seq 0 128) = true ->
  forall c, c < 128 -> P c = true.
Proof.
  intros H c Hc. rewrite forallb_forall in H.
  rewrite <- (N2Nat.id c). apply H. apply in_seq. lia.
Qed.

Lemma lower_upper_cp_ascii c :
  c < 128 -> py_lower (upper_cp c) = lower_cp c.
Proof.
  intros Hc.
  apply (below_128 (fun c => pystr_eqb (py_lower (upper_cp c)) (lower_cp c)))
    in Hc; [| vm_compute; reflexivity].
  unfold pystr_eqb in Hc. by apply bool_decide_eq_true in Hc.
Qed.

Lemma lower_lower_cp_ascii c :
  c < 128 -> py_lower (lower_cp c) = lower_cp c.
Proof.
  intros Hc.
  apply (below_128 (fun c => pystr_eqb (py_lower (lower_cp c)) (lower_cp c)))
    in Hc; [| vm_compute; reflexivity].
  unfold pystr_eqb in Hc. by apply bool_decide_eq_true in Hc.
Qed.

Lemma py_lower_app s t : py_lower (s ++ t) = py_lower s ++ py_lower t.
Proof. unfold py_lower. apply flat_map_app. Qed.

Lemma py_lower_upper_ascii q :
  is_ascii q -> py_lower (py_upper q) = py_lower q.
Proof.
  induction 1 as [| c q Hc _ IH]; [reflexivity |].
  cbn [py_upper flat_map]. rewrite py_lower_app.
  fold (py_upper q). rewrite IH, lower_upper_cp_ascii by exact Hc.
  reflexivity.
Qed.

Lemma py_lower_lower_ascii q :
  is_ascii q -> py_lower (py_lower q) = py_lower q.
Proof.
  induction 1 as [| c q Hc _ IH]; [reflexivity |].
  cbn [py_lower flat_map]. rewrite py_lower_app.
  fold (py_lower q). rewrite IH, lower_lower_cp_ascii by exact Hc.
  reflexivity.
Qed.

Lemma lower_cp_space c : is_space c = true -> lower_cp c = [c].
Proof.
  unfold is_space, lower_cp, is_ascii_upper, is_latin1_upper. intros H.
  repeat rewrite ?orb_true_iff, ?andb_true_iff, ?N.leb_le, ?N.eqb_eq in H.
  destruct ((65 <=? c) && (c <=? 90) || (192 <=? c) && (c <=? 222) && negb (c =? 215)) eqn:E.
  { repeat rewrite ?orb_true_iff, ?andb_true_iff, ?N.leb_le in E. lia. }
  destruct (N.eqb_spec c 376); [lia |].
  destruct (N.eqb_spec c 924); [lia |].
  reflexivity.
Qed.

Lemma py_lower_space q : all_space q -> py_lower q = q.
Proof.
  induction 1 as [| c q Hc _ IH]; [reflexivity |].
  cbn [py_lower flat_map]. fold (py_lower q).
  rewrite IH, lower_cp_space by exact Hc. reflexivity.
Qed.

Lemma lstrip_space q : all_space q -> lstrip q = [].
Proof.
  induction 1 as [| c q Hc _ IH]; [reflexivity |].
  simpl. rewrite Hc. exact IH.
Qed.

Lemma py_strip_space q : all_space q -> py_strip q = [].
Proof. intros H. unfold py_strip. rewrite (lstrip_space q H). reflexivity. Qed.

Lemma startswith_nil t : startswith t [] = true.
Proof. destruct t; reflexivity. Qed.

Lemma py_in_nil t : py_in [] t = true.
Proof. destruct t; reflexivity. Qed.

(** ** MatchLocator *)

Lemma word_match_nil pnum w : word_match [] pnum w = [match_of_word pnum w].
Proof. unfold word_match. rewrite py_in_nil. reflexivity. Qed.

Lemma flat_map_singleton {A B} (f : A -> B) (g : A -> list B) l :
  (forall x, g x = [f x]) -> flat_map g l = map f l.
Proof.
  intros H. induction l as [| x l IH]; [reflexivity |].
  simpl. rewrite H, IH. reflexivity.
Qed.

Lemma below_256 (P : N -> bool) :
  forallb (fun n => P (N.of_nat n)) (seq 0 256) = true ->
  forall c, c < 256 -> P c = true.
Proof.
  intros H c Hc. rewrite forallb_forall in H.
  rewrite <- (N2Nat.id c). apply H. apply in_seq. lia.
Qed.

Lemma py_lower_map s : py_lower s = lower_char <$> s.
Proof.
  unfold py_lower. induction s as [| c s IH]; [reflexivity |].
  cbn [flat_map fmap list_fmap]. rewrite IH.
  unfold lower_cp, lower_char.
  destruct (is_ascii_upper c || is_latin1_upper c); [reflexivity |].
  destruct (c =? 376); [reflexivity |]. by destruct (c =? 924).
Qed.

Lemma lower_char_high c :
  256 <= c ->
  lower_char c = if c =? 376 then 255 else if c =? 924 then 956 else c.
Proof.
  intros Hc. unfold lower_char, is_ascii_upper, is_latin1_upper.
  replace (c <=? 90) with false by (symmetry; apply N.leb_gt; lia).
  replace (c <=? 222) with false by (symmetry; apply N.leb_gt; lia).
  by rewrite !andb_false_r.
Qed.

Lemma lower_char_idemp c : lower_char (lower_char c) = lower_char c.
Proof.
  destruct (N.lt_ge_cases c 256) as [Hc | Hc].
  - assert (H : forall c, c < 256 ->
              (fun c => lower_char (lower_char c) =? lower_char c) c = true).
    { apply below_256. vm_compute. reflexivity. }
    by apply N.eqb_eq, H.
  - rewrite (lower_char_high c Hc).
    destruct (N.eqb_spec c 376) as [-> |]; [reflexivity |].
    destruct (N.eqb_spec c 924) as [-> |]; [reflexivity |].
    rewrite (lower_char_high c Hc).
    rewrite !(proj2 (N.eqb_neq _ _)); done.
Qed.

Lemma py_lower_idemp q : py_lower (py_lower q) = py_lower q.
Proof.
  rewrite !py_lower_map, <- list_fmap_compose.
  apply list_fmap_ext. intros _ c _. apply lower_char_idemp.
Qed.

(** C5 (amended): the three locators return the same matches for [Q] and
    for [Q.lower()], whatever the query; for an ASCII query they return
    them for [Q.upper()] as well. *)
Theorem case_insensitive_query (Q : pystr) (pdf : list page)
    (ws : worksheet) (data : list ocr_entry) :
  (find_matches_in_pdf pdf Q = find_matches_in_pdf pdf (py_lower Q) /\
   find_matches_in_sheet ws Q = find_matches_in_sheet ws (py_lower Q) /\
   extract_boxes data Q = extract_boxes data (py_lower Q)) /\
  (is_ascii Q ->
   find_matches_in_pdf pdf Q = find_matches_in_pdf pdf (py_upper Q) /\
   find_matches_in_sheet ws Q = find_matches_in_sheet ws (py_upper Q) /\
   extract_boxes data Q = extract_boxes data (py_upper Q)).
Proof.
  unfold find_matches_in_pdf, find_matches_in_sheet, extract_boxes. split.
  - rewrite (py_lower_idemp Q). repeat split; reflexivity.
  - intros HQ. rewrite (py_lower_upper_ascii Q HQ). repeat split; reflexivity.
Qed.

Lemma case_insensitive_query_witness :
  let unit :=
    [ {| page_width := S754_zero false; page_height := S754_zero false;
         extract_words := [ {| w_text := Some (py "REPORTS"); w_x0 := S754_zero false;
                               w_top := S754_zero false; w_x1 := S754_zero false;
                               w_bottom := S754_zero false |} ] |} ] in
  is_ascii (py "Report") /\
  length (find_matches_in_pdf unit (py "Report")) = 1%nat /\
  find_matches_in_pdf unit (py "Report")
  = find_matches_in_pdf unit (py_upper (py "Report")) /\
  find_matches_in_pdf unit [223; 82]
  = find_matches_in_pdf unit (py_lower [223; 82]).
Proof.
  intros unit.
  assert (H : is_ascii (py "Report")).
  { unfold is_ascii. repeat constructor. }
  split; [exact H |]. split; [reflexivity |]. split.
  - exact (proj1 (proj2 (case_insensitive_query (py "Report") unit
      {| max_row := 0; max_column := 0; cell_value := fun _ _ => None |} []) H)).
  - exact (proj1 (proj1 (case_insensitive_query [223; 82] unit
      {| max_row := 0; max_column := 0; cell_value := fun _ _ => None |} []))).
Defined.

(** C5 fails beyond ASCII: [upper] turns U+00DF into "SS", which [lower]
    turns into "ss"; the word "Straße" contains the former only. *)
Lemma case_insensitive_query_sharp_s :
  let unit := [ {| page_width := S754_zero false; page_height := S754_zero false;
                   extract_words := [ {| w_text := Some [83; 116; 114; 97; 223; 101];
                                         w_x0 := S754_zero false; w_top := S754_zero false;
                                         w_x1 := S754_zero false; w_bottom := S754_zero false |} ] |} ] in
  length (find_matches_in_pdf unit [223]) = 1%nat /\
  find_matches_in_pdf unit (py_upper [223]) = [].
Proof. vm_compute. split; reflexivity. Qed.

Lemma flat_map_ext_elem {A B} (f g : A -> list B) l :
  (forall a, In a l -> f a = g a) -> flat_map f l = flat_map g l.
Proof.
  induction l as [| a l IH]; intros H; [reflexivity |]. simpl.
  rewrite (H a (or_introl eq_refl)), IH; [reflexivity |].
  intros b Hb. apply H. by right.
Qed.

Lemma matches_by_offset q pdf : forall s,
  flat_map (fun '(pnum, pg) => flat_map (word_match q pnum) (extract_words pg))
           (enumerate s pdf)
  = flat_map (fun k => match pdf !! (k - s)%nat with
                       | Some pg => flat_map (word_match q k) (extract_words pg)
                       | None => []
                       end)
             (seq s (length pdf)).
Proof.
  induction pdf as [| pg pdf IH]; intros s; [reflexivity |].
  cbn [enumerate flat_map length seq]. rewrite Nat.sub_diag. cbn [lookup list_lookup].
  f_equal. rewrite IH. apply flat_map_ext_elem. intros k Hk%in_seq.
  by replace (k - s)%nat with (S (k - S s)) by lia.
Qed.

(** C10: a non-empty query made of whitespace only normalises to the empty
    string, and then the locators return every extracted word of every page,
    page after page with the words of a page in their order, and every
    populated cell of a sheet. *)
Theorem whitespace_query_matches_everything (Q : pystr) (pdf : list page)
    (ws : worksheet) :
  Q <> [] -> all_space Q ->
  py_strip (py_lower Q) = [] /\
  find_matches_in_pdf pdf Q
  = flat_map (fun pnum => match pdf !! pnum with
                          | Some pg => match_of_word pnum <$> extract_words pg
                          | None => []
                          end)
             (seq 0 (length pdf)) /\
  (forall pnum pg w,
     pdf !! pnum = Some pg -> w ∈ extract_words pg ->
     match_of_word pnum w ∈ find_matches_in_pdf pdf Q) /\
  find_matches_in_sheet ws Q = populated_cells ws.
Proof.
  intros _ HQ.
  assert (Hq : py_strip (py_lower Q) = []).
  { rewrite py_lower_space by exact HQ. apply py_strip_space, HQ. }
  split; [exact Hq |].
  assert (Hpages : find_matches_in_pdf pdf Q
    = flat_map (fun pnum => match pdf !! pnum with
                            | Some pg => match_of_word pnum <$> extract_words pg
                            | None => []
                            end)
               (seq 0 (length pdf))).
  { unfold find_matches_in_pdf. rewrite Hq, matches_by_offset.
    apply flat_map_ext. intros pnum. rewrite Nat.sub_0_r.
    destruct (pdf !! pnum) as [pg |]; [| reflexivity].
    apply flat_map_singleton, word_match_nil. }
  split; [exact Hpages |]. split.
  - intros pnum pg w Hpg Hw. rewrite Hpages.
    apply list_elem_of_In, in_flat_map. exists pnum. split.
    + apply in_seq. apply lookup_lt_Some in Hpg. lia.
    + rewrite Hpg. apply list_elem_of_In, list_elem_of_fmap. by exists w.
  - unfold find_matches_in_sheet, populated_cells. rewrite Hq.
    apply flat_map_ext. intros r. apply flat_map_ext. intros c.
    unfold cell_match. destruct (cell_value ws r c); [| reflexivity].
    rewrite py_in_nil. reflexivity.
Qed.

Lemma whitespace_query_matches_everything_witness :
  let Q := [32; 9] in
  let pdf := [scenario_page "Annual" 800; scenario_page "Report" 800] in
  let ws := {| max_row := 2; max_column := 2;
               cell_value := fun r c => if (r =? c)%nat then Some (py "x") else None |} in
  Q <> [] /\ all_space Q /\
  find_matches_in_pdf pdf Q
  = [match_of_word 0 (scenario_word "Annual"); match_of_word 1 (scenario_word "Report")] /\
  find_matches_in_sheet ws Q = [(1, 1); (2, 2)]%nat.
Proof.
  intros Q pdf ws.
  assert (Hne : Q <> []) by discriminate.
  assert (Hsp : all_space Q) by (repeat constructor).
  destruct (whitespace_query_matches_everything Q pdf ws Hne Hsp)
    as (_ & Hpages & _ & Hcells).
  split; [exact Hne |]. split; [exact Hsp |].
  split; [rewrite Hpages | rewrite Hcells]; reflexivity.
Defined.

(** ** The store *)

Lemma bind_ok {A B} (c : M A) (k : A -> M B) w a w' :
  c w = (Ok a, w') -> bind c k w = k a w'.
Proof. unfold bind. by intros ->. Qed.

Lemma bind_raise {A B} (c : M A) (k : A -> M B) w e w' :
  c w = (Raise e, w') -> bind c k w = (Raise e, w').
Proof. unfold bind. by intros ->. Qed.

Lemma paint_all_nil i : paint_all [] i = i.
Proof. destruct i. unfold paint_all. simpl. by rewrite app_nil_r. Qed.

Lemma paint_all_app a b i : paint_all b (paint_all a i) = paint_all (a ++ b) i.
Proof. unfold paint_all. simpl. by rewrite app_assoc. Qed.

Lemma paint_one s i : paint s i = paint_all [s] i.
Proof. reflexivity. Qed.

Lemma update_image_id l w : update_image l (paint_all []) w = w.
Proof.
  destruct w as [h f o]. unfold update_image. simpl. f_equal.
  apply list_alter_id. intros. apply paint_all_nil.
Qed.

Lemma update_image_twice l a b w :
  update_image l (paint_all b) (update_image l (paint_all a) w)
  = update_image l (paint_all (a ++ b)) w.
Proof.
  unfold update_image. simpl. f_equal.
  rewrite list_alter_alter_eq. apply list_alter_ext; [| done].
  intros. apply paint_all_app.
Qed.

Lemma nth_lookup_blank (h : list image) l i : h !! l = Some i -> nth l h blank = i.
Proof. intros H. by apply nth_lookup_Some with (d := blank) in H. Qed.

Lemma nth_alter_blank (f : image -> image) (h : list image) l i :
  h !! l = Some i -> nth l (alter f l h) blank = f i.
Proof.
  intros H. apply nth_lookup_blank. by rewrite list_lookup_alter_eq, H.
Qed.

(** ** BoxRenderer *)

Lemma py_range_length W : length (py_range W) = Z.to_nat W.
Proof. unfold py_range. by rewrite length_fmap, length_seq. Qed.

Lemma py_range_lookup W k :
  (0 <= k < W)%Z -> py_range W !! Z.to_nat k = Some k.
Proof.
  intros Hk. unfold py_range. rewrite list_lookup_fmap.
  rewrite lookup_seq_lt by lia. simpl. f_equal. lia.
Qed.

Lemma py_range_nonpos W : (W <= 0)%Z -> py_range W = [].
Proof. intros H. unfold py_range. by replace (Z.to_nat W) with 0%nat by lia. Qed.

Lemma py_range_pos W : (0 < W)%Z -> exists ks, py_range W = 0%Z :: ks.
Proof.
  intros H. unfold py_range. destruct (Z.to_nat W) as [| n] eqn:E; [lia |].
  simpl. eauto.
Qed.

Lemma py_range_elem_of W k : k ∈ py_range W <-> (0 <= k < W)%Z.
Proof.
  unfold py_range. rewrite list_elem_of_fmap. split.
  - intros (n & -> & Hn%list_elem_of_In%in_seq). lia.
  - intros Hk. exists (Z.to_nat k). split; [lia |].
    apply list_elem_of_In, in_seq. lia.
Qed.

Lemma inflate_0 box : inflate box 0 = box.
Proof.
  destruct box as [[[x0 y0] x1] y1]. unfold inflate.
  by rewrite !Z.sub_0_r, !Z.add_0_r.
Qed.

Lemma draw_rectangle_run E l box c w :
  rectangle_raises E c box = None ->
  draw_rectangle E l box c w = (Ok tt, update_image l (paint_all [Outline box c]) w).
Proof. intros H. unfold draw_rectangle. by rewrite H. Qed.

Lemma draw_rectangle_rejects E l box c e w :
  rectangle_raises E c box = Some e -> draw_rectangle E l box c w = (Raise e, w).
Proof. intros H. unfold draw_rectangle. by rewrite H. Qed.

Lemma first_refusal_none E c boxes :
  first_refusal E c boxes = None <->
  Forall (fun box => rectangle_raises E c box = None) boxes.
Proof.
  induction boxes as [| box boxes IH]; cbn [first_refusal].
  - split; [constructor | done].
  - rewrite Forall_cons. destruct (rectangle_raises E c box); [| tauto].
    split; [done | by intros [? _]].
Qed.

Lemma first_refusal_drawing_error E c boxes e :
  first_refusal E c boxes = Some e -> drawing_error E c e.
Proof.
  induction boxes as [| box boxes IH]; cbn [first_refusal]; [done |].
  destruct (rectangle_raises E c box) as [e' |] eqn:Hbox; [| exact IH].
  intros [= <-]. by exists box.
Qed.

Lemma accepted_passes E c W box :
  accepted E c W box = true <->
  forall k, (0 <= k < W)%Z -> rectangle_raises E c (inflate box k) = None.
Proof.
  unfold accepted, stroke_passes.
  destruct (first_refusal E c (inflate box <$> py_range W)) eqn:Hfirst.
  - split; [done |]. intros Hall. exfalso.
    assert (Hnone : first_refusal E c (inflate box <$> py_range W) = None).
    { apply first_refusal_none, Forall_fmap, Forall_forall.
      intros k Hk%py_range_elem_of. by apply Hall. }
    congruence.
  - split; [| done]. intros _ k Hk.
    apply first_refusal_none in Hfirst.
    rewrite Forall_fmap, Forall_forall in Hfirst.
    by apply Hfirst, py_range_elem_of.
Qed.

Lemma accepted_nonpos E c W box : (W <= 0)%Z -> accepted E c W box = true.
Proof. intros HW. apply accepted_passes. intros k Hk. lia. Qed.

(** A loop of [draw.rectangle] calls: all boxes are painted, or the loop
    stops at the first one that the drawing refuses. *)
Lemma passes_run E l (f : Z -> rect) c ks : forall w,
  match first_refusal E c (f <$> ks) with
  | None =>
      for_each ks (fun k => draw_rectangle E l (f k) c) w
      = (Ok tt, update_image l (paint_all ((fun k => Outline (f k) c) <$> ks)) w)
  | Some e =>
      exists ss, for_each ks (fun k => draw_rectangle E l (f k) c) w
                 = (Raise e, update_image l (paint_all ss) w)
  end.
Proof.
  induction ks as [| k ks IH]; intros w.
  - simpl. unfold ret. by rewrite update_image_id.
  - cbn [fmap list_fmap first_refusal for_each].
    destruct (rectangle_raises E c (f k)) as [e |] eqn:Hk.
    + exists []. rewrite update_image_id.
      by apply bind_raise, draw_rectangle_rejects.
    + rewrite (bind_ok _ _ _ _ _ (draw_rectangle_run E l (f k) c w Hk)).
      specialize (IH (update_image l (paint_all [Outline (f k) c]) w)).
      destruct (first_refusal E c (f <$> ks)) as [e |].
      * destruct IH as [ss IH]. exists (Outline (f k) c :: ss).
        rewrite IH. by rewrite update_image_twice.
      * rewrite IH. by rewrite update_image_twice.
Qed.

(** The stroke loop on one box: all passes are painted, unless the
    drawing refuses one of them. *)
Lemma outline_passes_run E l box c W w :
  match first_refusal E c (stroke_passes W box) with
  | None =>
      outline_passes E l box c W w
      = (Ok tt, update_image l (paint_all (box_outlines c W box)) w)
  | Some e =>
      exists ss, outline_passes E l box c W w
                 = (Raise e, update_image l (paint_all ss) w)
  end.
Proof.
  destruct box as [[[x0 y0] x1] y1]. unfold outline_passes, box_outlines, stroke_passes.
  exact (passes_run E l (inflate (x0, y0, x1, y1)) c (py_range W) w).
Qed.

Lemma outline_passes_accepted E l box c W w :
  accepted E c W box = true ->
  outline_passes E l box c W w
  = (Ok tt, update_image l (paint_all (box_outlines c W box)) w).
Proof.
  intros Hacc. pose proof (outline_passes_run E l box c W w) as Hrun.
  unfold accepted in Hacc.
  by destruct (first_refusal E c (stroke_passes W box)).
Qed.

Lemma outline_passes_refused E l box c W e w :
  (0 < W)%Z -> rectangle_raises E c box = Some e ->
  outline_passes E l box c W w = (Raise e, w).
Proof.
  intros HW Hbox. destruct box as [[[x0 y0] x1] y1]. unfold outline_passes.
  destruct (py_range_pos W HW) as [ks ->]. cbn [for_each].
  apply bind_raise, draw_rectangle_rejects.
  by rewrite !Z.sub_0_r, !Z.add_0_r.
Qed.

Lemma boxes_loop_run E img stroke width boxes :
  Forall (fun box => accepted E stroke width box = true) boxes ->
  forall w,
  for_each boxes (fun box => outline_passes E img box stroke width) w
  = (Ok tt, update_image img
              (paint_all (flat_map (box_outlines stroke width) boxes)) w).
Proof.
  induction 1 as [| box boxes Hbox _ IH]; intros w.
  - simpl. unfold ret. by rewrite update_image_id.
  - cbn [for_each flat_map].
    rewrite (bind_ok _ _ _ _ _ (outline_passes_accepted E img box stroke width w Hbox)).
    rewrite IH. by rewrite update_image_twice.
Qed.

Lemma draw_boxes_run E img i boxes out_path stroke width w :
  heap w !! img = Some i ->
  Forall (fun box => accepted E stroke width box = true) boxes ->
  draw_boxes E img boxes out_path stroke width w
  = (Ok out_path,
     fallback_saved img (flat_map (box_outlines stroke width) boxes) out_path w).
Proof.
  intros Hi Hboxes. unfold draw_boxes.
  rewrite (bind_ok _ _ _ _ _ (boxes_loop_run E img stroke width boxes Hboxes w)).
  unfold bind, image_save, ret, fallback_saved, update_image. simpl.
  by rewrite (nth_alter_blank _ _ _ _ Hi), (nth_lookup_blank _ _ _ Hi).
Qed.

(** C6 (amended): with a stroke width [W > 0] and a box whose passes the
    drawing accepts, the box loop paints exactly [W] one-pixel outlines on
    the image, pass [k] grown by [k] pixels, so the outermost lies [W - 1]
    pixels beyond the box on each side, and [draw_boxes] saves exactly
    these outlines. For [W <= 0] it paints nothing and raises nothing,
    whatever the box and the colour. For [W > 0] a box or a colour that the
    drawing refuses makes the loop raise at its first pass, with nothing
    painted and nothing saved. *)
Theorem stroke_width_by_inflation (E : env) (img : nat) (i : image)
    (x0 y0 x1 y1 W : Z) (stroke out_path : pystr) (w : world) :
  heap w !! img = Some i ->
  let box := (x0, y0, x1, y1) in
  let painted := box_outlines stroke W box in
  ((forall k, (0 <= k < W)%Z -> rectangle_raises E stroke (inflate box k) = None) ->
   outline_passes E img box stroke W w
     = (Ok tt, update_image img (paint_all painted) w) /\
   heap (update_image img (paint_all painted) w) !! img
     = Some (paint_all painted i) /\
   draw_boxes E img [box] out_path stroke W w
     = (Ok out_path, fallback_saved img painted out_path w)) /\
  length painted = Z.to_nat W /\
  (forall k, (0 <= k < W)%Z ->
     painted !! Z.to_nat k
     = Some (Outline (x0 - k, y0 - k, x1 + k, y1 + k)%Z stroke)) /\
  ((0 < W)%Z ->
     last painted
     = Some (Outline (x0 - (W - 1), y0 - (W - 1), x1 + (W - 1), y1 + (W - 1))%Z
                     stroke)) /\
  ((W <= 0)%Z ->
     painted = [] /\
     outline_passes E img box stroke W w = (Ok tt, w) /\
     draw_boxes E img [box] out_path stroke W w
       = (Ok out_path, fallback_saved img [] out_path w)) /\
  (forall e, (0 < W)%Z -> rectangle_raises E stroke box = Some e ->
     outline_passes E img box stroke W w = (Raise e, w) /\
     draw_boxes E img [box] out_path stroke W w = (Raise e, w)).
Proof.
  intros Hi box painted.
  assert (Hk : forall k, (0 <= k < W)%Z ->
     painted !! Z.to_nat k
     = Some (Outline (x0 - k, y0 - k, x1 + k, y1 + k)%Z stroke)).
  { intros k Hk. unfold painted, box_outlines.
    rewrite list_lookup_fmap, py_range_lookup by exact Hk. reflexivity. }
  assert (Hlen : length painted = Z.to_nat W).
  { unfold painted, box_outlines. by rewrite length_fmap, py_range_length. }
  assert (Hrun : accepted E stroke W box = true ->
     outline_passes E img box stroke W w
       = (Ok tt, update_image img (paint_all painted) w) /\
     draw_boxes E img [box] out_path stroke W w
       = (Ok out_path, fallback_saved img painted out_path w)).
  { intros Hacc. split; [by apply outline_passes_accepted |].
    rewrite (draw_boxes_run E img i [box] _ _ _ _ Hi) by (by constructor).
    cbn [flat_map]. by rewrite app_nil_r. }
  split; [| split; [exact Hlen | split; [exact Hk | split; [| split]]]].
  - intros Hpasses. apply accepted_passes in Hpasses.
    destruct (Hrun Hpasses) as [Hloop Hsave]. split; [exact Hloop |].
    split; [| exact Hsave].
    unfold update_image; simpl; by rewrite list_lookup_alter_eq, Hi.
  - intros HW. rewrite last_lookup, Hlen.
    replace (Init.Nat.pred (Z.to_nat W)) with (Z.to_nat (W - 1)) by lia.
    apply Hk. lia.
  - intros HW.
    assert (Hnil : painted = []).
    { unfold painted, box_outlines. by rewrite py_range_nonpos. }
    destruct (Hrun (accepted_nonpos E stroke W box HW)) as [Hloop Hsave].
    rewrite Hnil in Hloop, Hsave. rewrite update_image_id in Hloop. done.
  - intros e HW Hbox.
    pose proof (outline_passes_refused E img box stroke W e w HW Hbox) as Hloop.
    split; [exact Hloop |]. unfold draw_boxes. cbn [for_each].
    by rewrite (bind_raise _ _ _ _ _ (bind_raise _ _ _ _ _ Hloop)).
Qed.

Lemma stroke_width_by_inflation_witness :
  let w := {| heap := [blank]; fs := ∅; stdout := [] |} in
  let run := outline_passes (scenario_env false) 0 (10, 20, 30, 40)%Z (py "red") 3 w in
  (forall k, (0 <= k < 3)%Z ->
     rectangle_raises (scenario_env false) (py "red") (inflate (10, 20, 30, 40)%Z k)
     = None) /\
  fst run = Ok tt /\
  im_strokes (nth 0 (heap (snd run)) blank)
  = [Outline (10, 20, 30, 40)%Z (py "red");
     Outline (9, 19, 31, 41)%Z (py "red");
     Outline (8, 18, 32, 42)%Z (py "red")].
Proof.
  intros w run.
  assert (Hpasses : forall k, (0 <= k < 3)%Z ->
            rectangle_raises (scenario_env false) (py "red")
              (inflate (10, 20, 30, 40)%Z k) = None).
  { intros k Hk.
    assert (Hcases : k = 0%Z \/ k = 1%Z \/ k = 2%Z) by lia.
    destruct Hcases as [-> | [-> | ->]]; reflexivity. }
  split; [exact Hpasses |].
  destruct (stroke_width_by_inflation (scenario_env false) 0 blank 10 20 30 40 3
              (py "red") (py "p.png") w eq_refl) as (Hrun & _).
  destruct (Hrun Hpasses) as (Hloop & _).
  unfold run. rewrite Hloop. split; reflexivity.
Defined.

(** C6 as stated fails: not every pixel rectangle is outlined. A box
    whose corners are out of order, and a colour that Pillow does not know,
    make [ImageDraw.rectangle] raise [ValueError] at the first pass, so
    that nothing is painted and [draw_boxes] saves nothing. *)
Lemma refused_box_is_not_outlined :
  let w := {| heap := [blank]; fs := ∅; stdout := [] |} in
  outline_passes (scenario_env false) 0 (30, 20, 10, 40)%Z (py "red") 3 w
  = (Raise ValueError, w) /\
  draw_boxes (scenario_env false) 0 [(30, 20, 10, 40)%Z] (py "p.png") (py "red") 3 w
  = (Raise ValueError, w) /\
  outline_passes (scenario_env false) 0 (10, 20, 30, 40)%Z (py "notacolor") 3 w
  = (Raise ValueError, w).
Proof. vm_compute. repeat split; reflexivity. Qed.

(** ** CoordinateMapper and the fallback renderer *)

Lemma py_int_trunc x :
  match trunc x with
  | Some z => py_int x = Ok z
  | None => exists e, conversion_error e /\ py_int x = Raise e
  end.
Proof. destruct x; simpl; unfold conversion_error; eauto. Qed.


Lemma pixel_rect_map_rect E c W raster_w raster_h native_w native_h r :
  let scale_x := fdiv_ieee (float_of_int raster_w) native_w in
  let scale_y := fdiv_ieee (float_of_int raster_h) native_h in
  match map_rect raster_w raster_h native_w native_h r with
  | Some box =>
      pixel_rect E c W scale_x scale_y r
      = match first_refusal E c (stroke_passes W box) with
        | None => Ok box
        | Some e => Raise e
        end
  | None =>
      exists e, conversion_error e /\ pixel_rect E c W scale_x scale_y r = Raise e
  end.
Proof.
  intros scale_x scale_y.
  unfold map_rect, pixel_rect in *. fold scale_x scale_y.
  pose proof (py_int_trunc (fmul (m_x0 r) scale_x)) as H0.
  pose proof (py_int_trunc (fmul (m_x1 r) scale_x)) as H1.
  pose proof (py_int_trunc (fmul (m_top r) scale_y)) as H2.
  pose proof (py_int_trunc (fmul (m_bottom r) scale_y)) as H3.
  destruct (trunc (fmul (m_x0 r) scale_x)); simpl;
    [rewrite H0 in * | destruct H0 as (e & ? & ->); simpl; eauto].
  destruct (trunc (fmul (m_x1 r) scale_x)); simpl;
    [rewrite H1 in * | destruct H1 as (e & ? & ->); simpl].
  2: { destruct (trunc (fmul (m_top r) scale_y)); simpl; eauto. }
  destruct (trunc (fmul (m_top r) scale_y)); simpl;
    [rewrite H2 in * | destruct H2 as (e & ? & ->); simpl; eauto].
  destruct (trunc (fmul (m_bottom r) scale_y)); simpl;
    [rewrite H3 in * | destruct H3 as (e & ? & ->); simpl; eauto].
  reflexivity.
Qed.

Lemma fallback_boxes_map_rect E c W raster_w raster_h native_w native_h rects :
  is_zero native_w = false -> is_zero native_h = false ->
  match mapM (map_rect raster_w raster_h native_w native_h) rects with
  | Some boxes =>
      if forallb (accepted E c W) boxes
      then fallback_boxes E c W (raster_w, raster_h) (native_w, native_h) rects
           = Ok boxes
      else exists e,
             drawing_error E c e /\
             fallback_boxes E c W (raster_w, raster_h) (native_w, native_h) rects
             = Raise e
  | None =>
      exists e, (conversion_error e \/ drawing_error E c e) /\
                fallback_boxes E c W (raster_w, raster_h) (native_w, native_h) rects
                = Raise e
  end.
Proof.
  intros Hw Hh. unfold fallback_boxes, truediv, fdiv. cbn [fst snd].
  rewrite Hw, Hh. cbn [rbind].
  set (scale_x := fdiv_ieee (float_of_int raster_w) native_w).
  set (scale_y := fdiv_ieee (float_of_int raster_h) native_h).
  induction rects as [| r rects IH]; [reflexivity |].
  pose proof (pixel_rect_map_rect E c W raster_w raster_h native_w native_h r) as Hr.
  cbv zeta in Hr. fold scale_x scale_y in Hr.
  assert (Hacc : forall box,
            accepted E c W box
            = match first_refusal E c (stroke_passes W box) with
              | None => true
              | Some _ => false
              end) by reflexivity.
  remember (accepted E c W) as acc eqn:Eacc.
  cbn [mapM result_mapM].
  destruct (map_rect raster_w raster_h native_w native_h r) as [box |];
    cbn [mbind option_bind].
  - rewrite Hr. clear Hr. specialize (Hacc box).
    destruct (first_refusal E c (stroke_passes W box)) as [e |] eqn:Hbox.
    + apply first_refusal_drawing_error in Hbox.
      destruct (mapM (map_rect raster_w raster_h native_w native_h) rects);
        cbn [mbind option_bind mret option_ret forallb]; rewrite ?Hacc;
        cbn [andb]; eauto.
    + destruct (mapM (map_rect raster_w raster_h native_w native_h) rects)
        as [boxes |]; cbn [mbind option_bind mret option_ret forallb].
      * rewrite Hacc. cbn [andb]. destruct (forallb acc boxes).
        -- by rewrite IH.
        -- destruct IH as (e & He & ->). eauto.
      * destruct IH as (e & He & ->). eauto.
  - destruct Hr as (e & ? & ->). eauto.
Qed.

Section Fallback.

Variables (E : env) (pil_img : nat) (stroke : pystr) (stroke_width : Z).
Variables (scale_x scale_y : float).

Local Abbreviation body :=
  (fallback_body E pil_img stroke stroke_width scale_x scale_y).

Lemma fallback_body_run r w :
  match pixel_rect E stroke stroke_width scale_x scale_y r with
  | Ok box =>
      body r w = (Ok tt, update_image pil_img
                           (paint_all (box_outlines stroke stroke_width box)) w)
  | Raise e =>
      exists ss, body r w = (Raise e, update_image pil_img (paint_all ss) w)
  end.
Proof.
  unfold fallback_body, pixel_rect, bind, lift, rbind.
  destruct (py_int (fmul (m_x0 r) scale_x)) as [x0 |];
    [| exists []; by rewrite update_image_id].
  destruct (py_int (fmul (m_x1 r) scale_x)) as [x1 |];
    [| exists []; by rewrite update_image_id].
  destruct (py_int (fmul (m_top r) scale_y)) as [y0 |];
    [| exists []; by rewrite update_image_id].
  destruct (py_int (fmul (m_bottom r) scale_y)) as [y1 |];
    [| exists []; by rewrite update_image_id].
  pose proof (outline_passes_run E pil_img (x0, y0, x1, y1) stroke stroke_width w)
    as Hrun.
  by destruct (first_refusal E stroke (stroke_passes stroke_width (x0, y0, x1, y1))).
Qed.

Lemma fallback_loop_run rects : forall w,
  match result_mapM (pixel_rect E stroke stroke_width scale_x scale_y) rects with
  | Ok boxes =>
      for_each rects body w
      = (Ok tt, update_image pil_img
                  (paint_all (flat_map (box_outlines stroke stroke_width) boxes)) w)
  | Raise e =>
      exists ss, for_each rects body w
                 = (Raise e, update_image pil_img (paint_all ss) w)
  end.
Proof.
  induction rects as [| r rects IH]; intros w.
  - simpl. unfold ret. by rewrite update_image_id.
  - assert (Hstep : for_each (r :: rects) body w
                    = match body r w with
                      | (Ok _, w') => for_each rects body w'
                      | (Raise e, w') => (Raise e, w')
                      end) by reflexivity.
    pose proof (fallback_body_run r w) as Hbody. cbn [result_mapM].
    destruct (pixel_rect E stroke stroke_width scale_x scale_y r) as [box | e].
    + rewrite Hbody in Hstep.
      specialize (IH (update_image pil_img
                        (paint_all (box_outlines stroke stroke_width box)) w)).
      destruct (result_mapM (pixel_rect E stroke stroke_width scale_x scale_y) rects)
        as [boxes | e].
      * rewrite Hstep, IH. by rewrite update_image_twice.
      * destruct IH as [ss IH].
        exists (box_outlines stroke stroke_width box ++ ss).
        rewrite Hstep, IH. by rewrite update_image_twice.
    + destruct Hbody as [ss Hbody]. exists ss. by rewrite Hstep, Hbody.
Qed.

End Fallback.

(** What [draw_fallback] does on an image of the store. *)
Lemma draw_fallback_run E pil_img i page_pts rects out_path stroke stroke_width w :
  heap w !! pil_img = Some i ->
  match fallback_boxes E stroke stroke_width (im_size i) page_pts rects with
  | Ok boxes =>
      draw_fallback E pil_img page_pts rects out_path stroke stroke_width w
      = (Ok true,
         fallback_saved pil_img
           (flat_map (box_outlines stroke stroke_width) boxes) out_path w)
  | Raise e =>
      exists ss,
        draw_fallback E pil_img page_pts rects out_path stroke stroke_width w
        = (Raise e, update_image pil_img (paint_all ss) w)
  end.
Proof.
  intros Hi.
  assert (Hrun : draw_fallback E pil_img page_pts rects out_path stroke stroke_width w
    = match truediv (im_size i).1 page_pts.1 with
      | Raise e => (Raise e, w)
      | Ok scale_x =>
        match truediv (im_size i).2 page_pts.2 with
        | Raise e => (Raise e, w)
        | Ok scale_y =>
          match for_each rects
                  (fallback_body E pil_img stroke stroke_width scale_x scale_y) w with
          | (Raise e, w') => (Raise e, w')
          | (Ok _, w') => (Ok true, snd (image_save pil_img out_path w'))
          end
        end
      end).
  { unfold draw_fallback, fallback_body, image_size, deref, bind, ret, lift.
    rewrite (nth_lookup_blank _ _ _ Hi).
    destruct (im_size i) as [img_w img_h], page_pts as [page_w page_h]. simpl.
    destruct (truediv img_w page_w); [| reflexivity].
    destruct (truediv img_h page_h); [| reflexivity].
    match goal with |- match ?c with _ => _ end = _ => destruct c as [[[] | ] ?] end;
      reflexivity. }
  rewrite Hrun. clear Hrun. unfold fallback_boxes, rbind.
  destruct (truediv (im_size i).1 page_pts.1) as [scale_x | e];
    [| exists []; by rewrite update_image_id].
  destruct (truediv (im_size i).2 page_pts.2) as [scale_y | e];
    [| exists []; by rewrite update_image_id].
  pose proof (fallback_loop_run E pil_img stroke stroke_width scale_x scale_y rects w)
    as Hloop.
  destruct (result_mapM (pixel_rect E stroke stroke_width scale_x scale_y) rects)
    as [boxes | e].
  - rewrite Hloop. unfold image_save, fallback_saved.
    simpl. rewrite (nth_alter_blank _ _ _ _ Hi), (nth_lookup_blank _ _ _ Hi).
    reflexivity.
  - destruct Hloop as [ss Hloop]. rewrite Hloop. eauto.
Qed.

(** [draw_fallback] on a page whose sides are not zero: it outlines the
    rectangles of [map_rect], unless a conversion raises or the drawing
    refuses an outline. *)
Lemma draw_fallback_nonzero E pil_img i native_w native_h rects out_path stroke
    stroke_width w :
  heap w !! pil_img = Some i ->
  is_zero native_w = false -> is_zero native_h = false ->
  match mapM (map_rect (im_size i).1 (im_size i).2 native_w native_h) rects with
  | Some boxes =>
      if forallb (accepted E stroke stroke_width) boxes
      then draw_fallback E pil_img (native_w, native_h) rects out_path stroke
                         stroke_width w
           = (Ok true,
              fallback_saved pil_img
                (flat_map (box_outlines stroke stroke_width) boxes) out_path w)
      else exists e ss,
             drawing_error E stroke e /\
             draw_fallback E pil_img (native_w, native_h) rects out_path stroke
                           stroke_width w
             = (Raise e, update_image pil_img (paint_all ss) w)
  | None =>
      exists e ss,
        (conversion_error e \/ drawing_error E stroke e) /\
        draw_fallback E pil_img (native_w, native_h) rects out_path stroke
                      stroke_width w
        = (Raise e, update_image pil_img (paint_all ss) w)
  end.
Proof.
  intros Hi Hw Hh.
  pose proof (draw_fallback_run E pil_img i (native_w, native_h) rects out_path
                stroke stroke_width w Hi) as Hrun.
  pose proof (fallback_boxes_map_rect E stroke stroke_width (im_size i).1
                (im_size i).2 native_w native_h rects Hw Hh) as Hmap.
  rewrite <- surjective_pairing in Hmap.
  destruct (mapM (map_rect (im_size i).1 (im_size i).2 native_w native_h) rects)
    as [boxes |].
  - destruct (forallb (accepted E stroke stroke_width) boxes).
    + by rewrite Hmap in Hrun.
    + destruct Hmap as (e & He & Hmap). rewrite Hmap in Hrun.
      destruct Hrun as [ss Hrun]. eauto.
  - destruct Hmap as (e & He & Hmap). rewrite Hmap in Hrun.
    destruct Hrun as [ss Hrun]. eauto.
Qed.



(** C9 (amended): a zero page width or height makes the scale computation
    of [draw_fallback] raise [ZeroDivisionError] before anything is painted
    or saved. No other dimension is rejected: a negative one is mapped like
    any non-zero one, with the rectangles of [map_rect], and the only
    failures left are those of the conversions and of the drawing. *)
Theorem degenerate_page_dimensions (E : env) (pil_img : nat) (i : image)
    (native_w native_h : float) (rects : list pdf_match)
    (out_path stroke : pystr) (stroke_width : Z) (w : world) :
  heap w !! pil_img = Some i ->
  (is_zero native_w || is_zero native_h = true ->
   draw_fallback E pil_img (native_w, native_h) rects out_path stroke
                 stroke_width w
   = (Raise ZeroDivisionError, w)) /\
  (is_zero native_w || is_zero native_h = false ->
   match mapM (map_rect (im_size i).1 (im_size i).2 native_w native_h) rects with
   | Some boxes =>
       if forallb (accepted E stroke stroke_width) boxes
       then draw_fallback E pil_img (native_w, native_h) rects out_path stroke
                          stroke_width w
            = (Ok true,
               fallback_saved pil_img
                 (flat_map (box_outlines stroke stroke_width) boxes) out_path w)
       else exists e ss,
              drawing_error E stroke e /\
              draw_fallback E pil_img (native_w, native_h) rects out_path stroke
                            stroke_width w
              = (Raise e, update_image pil_img (paint_all ss) w)
   | None =>
       exists e ss,
         (conversion_error e \/ drawing_error E stroke e) /\
         draw_fallback E pil_img (native_w, native_h) rects out_path stroke
                       stroke_width w
         = (Raise e, update_image pil_img (paint_all ss) w)
   end).
Proof.
  intros Hi. split.
  - intros Hz.
    unfold draw_fallback, image_size, deref, bind, ret, lift, truediv, fdiv.
    destruct (im_size (nth pil_img (heap w) blank)) as [img_w img_h].
    destruct (is_zero native_w); [reflexivity |].
    simpl in Hz. rewrite Hz. reflexivity.
  - intros Hz. apply orb_false_iff in Hz as [Hw Hh].
    by apply draw_fallback_nonzero.
Qed.

Lemma degenerate_page_dimensions_witness :
  let plain := {| im_size := (900, 1200)%Z; im_mode := RGB; im_pixels := 0;
                  im_strokes := [] |} in
  let w := {| heap := [plain]; fs := ∅; stdout := [] |} in
  let r := {| m_page := 0; m_text := py "Report";
              m_x0 := float_of_int 100; m_top := float_of_int 200;
              m_x1 := float_of_int 160; m_bottom := float_of_int 220 |} in
  draw_fallback (scenario_env false) 0 (S754_zero false, float_of_int 800) [r]
                (py "p.png") (py "red") 3 w
  = (Raise ZeroDivisionError, w).
Proof.
  intros plain w r.
  exact (proj1 (degenerate_page_dimensions (scenario_env false) 0 plain
                  (S754_zero false) (float_of_int 800) [r] (py "p.png") (py "red")
                  3 w eq_refl)
               eq_refl).
Defined.

(** C9 as stated fails: a page of negative width and height passes the
    mapping without any failure. Its match is mapped to mirrored pixel
    coordinates, and with nothing to outline the picture is saved. *)
Lemma negative_page_dimensions_accepted :
  let plain := {| im_size := (900, 1200)%Z; im_mode := RGB; im_pixels := 0;
                  im_strokes := [] |} in
  let w := {| heap := [plain]; fs := ∅; stdout := [] |} in
  let r := {| m_page := 0; m_text := py "Report";
              m_x0 := float_of_int 100; m_top := float_of_int 200;
              m_x1 := float_of_int 160; m_bottom := float_of_int 220 |} in
  is_positive (float_of_int (-600)) = false /\
  map_rect 900 1200 (float_of_int (-600)) (float_of_int (-800)) r
  = Some (-150, -300, -240, -330)%Z /\
  draw_fallback (scenario_env false) 0 (float_of_int (-600), float_of_int (-800))
                [r] (py "p.png") (py "red") 0 w
  = (Ok true, fallback_saved 0 [] (py "p.png") w) /\
  draw_fallback (scenario_env false) 0 (float_of_int (-600), float_of_int (-800))
                [] (py "p.png") (py "red") 3 w
  = (Ok true, fallback_saved 0 [] (py "p.png") w).
Proof. vm_compute. repeat split; reflexivity. Qed.

(** ** Dictionaries *)

Lemma dict_set_fresh {V} (d : list (nat * V)) k v :
  k ∉ d.*1 -> dict_set d k v = d ++ [(k, v)].
Proof.
  induction d as [| [k' v'] d IH]; intros Hk; [reflexivity |].
  simpl in *. apply not_elem_of_cons in Hk as [Hne Hk].
  destruct (Nat.eqb_spec k' k); [congruence |]. by rewrite IH.
Qed.

Lemma dict_of_fresh (units d : list (nat * pystr)) :
  NoDup ((d ++ units).*1) ->
  fold_left (fun d u => dict_set d u.1 u.2) units d = d ++ units.
Proof.
  revert d. induction units as [| [k v] units IH]; intros d Hnd.
  - by rewrite app_nil_r.
  - simpl. rewrite dict_set_fresh.
    + rewrite IH; rewrite <- app_assoc; [reflexivity | exact Hnd].
    + rewrite fmap_app in Hnd. apply NoDup_app in Hnd as (_ & Hd & _).
      intros Hin. apply (Hd k Hin). simpl. left.
Qed.

Lemma dict_of_nodup units : NoDup (units.*1) -> dict_of units = units.
Proof. intros H. unfold dict_of. by rewrite dict_of_fresh. Qed.

Lemma dict_get_elem_of {V} (d : list (nat * V)) k v :
  NoDup (d.*1) -> (k, v) ∈ d -> dict_get d k = Some v.
Proof.
  induction d as [| [k' v'] d IH]; intros Hnd Hin; [by apply elem_of_nil in Hin |].
  simpl in *. apply NoDup_cons in Hnd as [Hk' Hnd].
  apply elem_of_cons in Hin as [Heq | Hin].
  - inversion Heq; subst. by rewrite Nat.eqb_refl.
  - destruct (Nat.eqb_spec k' k) as [-> |]; [| by apply IH].
    exfalso. apply Hk'. apply list_elem_of_fmap. by exists (k, v).
Qed.

Lemma dict_get_perm {V} (d d' : list (nat * V)) k :
  NoDup (d.*1) -> d ≡ₚ d' -> dict_get d' k = dict_get d k.
Proof.
  intros Hnd Hp.
  assert (Hnd' : NoDup (d'.*1)) by (by rewrite <- Hp).
  destruct (dict_get d k) as [v |] eqn:E.
  - apply dict_get_elem_of; [exact Hnd' |]. rewrite <- Hp.
    clear -E. induction d as [| [k' v'] d IH]; [discriminate |].
    simpl in E. destruct (Nat.eqb_spec k' k) as [-> |].
    + inversion E; subst. left.
    + right. by apply IH.
  - destruct (dict_get d' k) as [v |] eqn:E'; [| reflexivity].
    exfalso.
    assert (Hin : (k, v) ∈ d).
    { rewrite Hp. clear -E'. induction d' as [| [k' v'] d' IH]; [discriminate |].
      simpl in E'. destruct (Nat.eqb_spec k' k) as [-> |].
      - inversion E'; subst. left.
      - right. by apply IH. }
    by rewrite (dict_get_elem_of d k v Hnd Hin) in E.
Qed.

Lemma sorted_keys_perm {V} (d d' : list (nat * V)) :
  d ≡ₚ d' -> sorted_keys d' = sorted_keys d.
Proof.
  intros Hp. unfold sorted_keys.
  apply (Sorted_unique Nat.le).
  - apply Sorted_merge_sort; apply _.
  - apply Sorted_merge_sort; apply _.
  - rewrite !merge_sort_Permutation. by rewrite Hp.
Qed.

Lemma ascending_strict (l : list nat) :
  StronglySorted Nat.le l -> NoDup l -> StronglySorted lt l.
Proof.
  induction 1 as [| x l Hs IH Hx]; intros Hnd; [constructor |].
  apply NoDup_cons in Hnd as [Hx' Hnd]. constructor; [by apply IH |].
  rewrite Forall_forall in *. intros y Hy.
  specialize (Hx y Hy). assert (x <> y) by (intros ->; by apply Hx').
  unfold Nat.le in *. lia.
Qed.

Lemma dict_get_is_Some {V} (d : list (nat * V)) k :
  k ∈ d.*1 -> is_Some (dict_get d k).
Proof.
  induction d as [| [k' v'] d IH]; intros Hin; [by apply elem_of_nil in Hin |].
  simpl in *. destruct (Nat.eqb_spec k' k); [eauto |].
  apply elem_of_cons in Hin as [-> | Hin]; [congruence | by apply IH].
Qed.

Lemma getitem_all (d : list (nat * pystr)) keys :
  keys ⊆ d.*1 ->
  result_mapM (dict_getitem d) keys
  = Ok ((fun k => default [] (dict_get d k)) <$> keys).
Proof.
  induction keys as [| k keys IH]; intros Hsub; [reflexivity |].
  simpl. unfold dict_getitem at 1.
  destruct (dict_get_is_Some d k) as [v ->]; [apply Hsub; left |].
  rewrite IH; [reflexivity |]. intros x Hx. apply Hsub. by right.
Qed.

Lemma result_mapM_ext {A B} (f g : A -> result B) l :
  (forall x, f x = g x) -> result_mapM f l = result_mapM g l.
Proof. intros H. induction l as [| x l IH]; simpl; [done |]. by rewrite H, IH. Qed.

(** ** PageAggregator *)

Lemma list_comp_open_run paths : forall w,
  Forall (fun p => exists i, fs w !! p = Some (PngFile i)) paths ->
  exists locs h',
    list_comp (fun p => i <- image_open p ;; convert_rgb i) paths w
    = (Ok locs, {| heap := heap w ++ h'; fs := fs w; stdout := stdout w |}) /\
    (fun l => nth l (heap w ++ h') blank) <$> locs
    = (fun p => as_rgb (png_at w p)) <$> paths.
Proof.
  induction paths as [| p paths IH]; intros w Hall.
  - exists [], []. destruct w. simpl. unfold ret. by rewrite app_nil_r.
  - apply Forall_cons in Hall as [[i Hi] Hall].
    set (w1 := {| heap := (heap w ++ [i]) ++ [as_rgb i]; fs := fs w;
                  stdout := stdout w |}).
    assert (Hfirst : (i <- image_open p ;; convert_rgb i) w
                     = (Ok (length (heap w ++ [i])), w1)).
    { unfold bind, image_open. rewrite Hi. unfold alloc, convert_rgb, bind, deref.
      simpl. by rewrite nth_middle. }
    destruct (IH w1 Hall) as (locs & h' & Hrest & Hnth).
    exists (length (heap w ++ [i]) :: locs), ([i; as_rgb i] ++ h').
    assert (Hheap : heap w ++ [i; as_rgb i] ++ h' = heap w1 ++ h').
    { simpl. by rewrite <- !app_assoc. }
    split.
    + cbn [list_comp]. unfold bind at 1. rewrite Hfirst.
      unfold bind at 1. rewrite Hrest. unfold ret. by rewrite Hheap.
    + rewrite Hheap. cbn [fmap list_fmap]. f_equal.
      * unfold png_at. rewrite Hi. simpl.
        rewrite <- (app_assoc (heap w ++ [i])). simpl. by rewrite nth_middle.
      * exact Hnth.
Qed.

Lemma images_to_pdf_run paths out_pdf w :
  Forall (fun p => exists i, fs w !! p = Some (PngFile i)) paths ->
  paths <> [] ->
  exists h',
    images_to_pdf paths out_pdf w
    = (Ok tt, {| heap := heap w ++ h';
                 fs := <[out_pdf := PdfFile ((fun p => as_rgb (png_at w p)) <$> paths)]>
                         (fs w);
                 stdout := stdout w |}).
Proof.
  intros Hall Hne.
  destruct (list_comp_open_run paths w Hall) as (locs & h' & Hrun & Hnth).
  exists h'. unfold images_to_pdf. unfold bind at 1. rewrite Hrun.
  destruct locs as [| first rest].
  - destruct paths; [done | discriminate].
  - simpl. by rewrite <- Hnth.
Qed.

(** The units of a dictionary in ascending order of their index. *)
Lemma ascending_units (d : list (nat * pystr)) :
  NoDup (d.*1) ->
  ascending d ≡ₚ d /\ StronglySorted lt ((ascending d).*1) /\
  result_mapM (dict_getitem d) (sorted_keys d) = Ok ((ascending d).*2).
Proof.
  intros Hnd.
  assert (Hkeys : sorted_keys d ≡ₚ d.*1) by apply merge_sort_Permutation.
  assert (Hfst : (ascending d).*1 = sorted_keys d).
  { unfold ascending. rewrite <- list_fmap_compose. apply list_fmap_id. }
  split; [| split].
  - unfold ascending. rewrite Hkeys, <- list_fmap_compose.
    rewrite <- (list_fmap_id d) at 2. apply reflexive_eq.
    apply Forall_fmap_ext, Forall_forall. intros [k v] Hin. simpl.
    by rewrite (dict_get_elem_of d k v Hnd Hin).
  - rewrite Hfst. apply ascending_strict.
    + apply StronglySorted_merge_sort; apply _.
    + unfold sorted_keys. by rewrite merge_sort_Permutation.
  - rewrite getitem_all.
    + unfold ascending. by rewrite <- list_fmap_compose.
    + intros k. by rewrite Hkeys.
Qed.

(** What the end of [annotate_pdf_and_build_combined] does with the
    recorded pictures. *)
Lemma build_combined_run out_dir (d : list (nat * pystr)) w :
  NoDup (d.*1) ->
  Forall (fun u => exists i, fs w !! u.2 = Some (PngFile i)) d ->
  exists h',
    build_combined out_dir d w
    = (Ok ((ascending d).*2, combined_path out_dir),
       if is_nil d then w
       else {| heap := heap w ++ h';
               fs := <[combined_path out_dir :=
                         PdfFile ((fun u => as_rgb (png_at w u.2)) <$> ascending d)]>
                       (fs w);
               stdout := stdout w ++ [PdfCombinedSaved (combined_path out_dir)] |}).
Proof.
  intros Hnd Hfiles.
  destruct (ascending_units d Hnd) as (Hp & _ & Hget).
  assert (Hall : Forall (fun p => exists i, fs w !! p = Some (PngFile i))
                        ((ascending d).*2)).
  { apply Forall_fmap. rewrite Hp. exact Hfiles. }
  unfold build_combined. unfold bind at 1. unfold lift. rewrite Hget.
  destruct d as [| u d'].
  - apply Permutation_nil_r in Hp. rewrite Hp. exists []. reflexivity.
  - assert (Hne : (ascending (u :: d')).*2 <> []).
    { intros Hnil. apply fmap_nil_inv in Hnil. rewrite Hnil in Hp.
      by apply Permutation_nil_cons in Hp. }
    destruct (images_to_pdf_run _ (combined_path out_dir) w Hall Hne) as [h' Hpdf].
    exists h'. cbn [is_nil].
    destruct ((ascending (u :: d')).*2) as [| p0 ps] eqn:E; [done |]. cbn [is_nil].
    unfold bind at 1. unfold bind at 1. rewrite Hpdf. unfold print, ret.
    cbn [heap fs stdout]. rewrite <- E. by rewrite <- list_fmap_compose.
Qed.

(** C7: whatever the order in which the rendered units were recorded, the
    ordered list and the pages of the combined file are their rasters in
    ascending unit index: the first picture followed by the others. *)
Theorem combined_pages_ascending (out_dir : pystr)
    (units units' : list (nat * pystr)) (w : world) :
  NoDup (units.*1) ->
  units' ≡ₚ units ->
  Forall (fun u => exists i, fs w !! u.2 = Some (PngFile i)) units ->
  exists sorted w',
    build_combined out_dir (dict_of units') w
      = (Ok (sorted.*2, combined_path out_dir), w') /\
    sorted ≡ₚ units /\
    StronglySorted lt (sorted.*1) /\
    (units <> [] ->
     fs w' !! combined_path out_dir
     = Some (PdfFile ((fun u => as_rgb (png_at w u.2)) <$> sorted))) /\
    (units = [] -> w' = w) /\
    build_combined out_dir (dict_of units') w
      = build_combined out_dir (dict_of units) w.
Proof.
  intros Hnd Hperm Hfiles.
  assert (Hnd' : NoDup (units'.*1)) by (by rewrite Hperm).
  rewrite (dict_of_nodup units Hnd), (dict_of_nodup units' Hnd').
  assert (Hsame : build_combined out_dir units' w = build_combined out_dir units w).
  { unfold build_combined.
    rewrite (sorted_keys_perm units units') by done.
    rewrite (result_mapM_ext (dict_getitem units') (dict_getitem units)); [done |].
    intros k. unfold dict_getitem. by rewrite (dict_get_perm units units'). }
  rewrite Hsame.
  destruct (ascending_units units Hnd) as (Hp & Hsorted & _).
  destruct (build_combined_run out_dir units w Hnd Hfiles) as [h' Hrun].
  eexists (ascending units), _. split; [exact Hrun |].
  split; [exact Hp |]. split; [exact Hsorted |].
  split; [| split; [| reflexivity]].
  - intros Hne. destruct units; [done |]. cbn [is_nil fs]. apply lookup_insert_eq.
  - by intros ->.
Qed.

Lemma combined_pages_ascending_witness :
  let a := {| im_size := (1, 1)%Z; im_mode := RGB; im_pixels := 1; im_strokes := [] |} in
  let b := {| im_size := (1, 1)%Z; im_mode := RGB; im_pixels := 2; im_strokes := [] |} in
  let w := {| heap := [];
              fs := <[py "b.png" := PngFile b]> (<[py "a.png" := PngFile a]> ∅);
              stdout := [] |} in
  exists sorted w',
    build_combined (py "out") (dict_of [(2, py "b.png"); (0, py "a.png")]%nat) w
      = (Ok (sorted.*2, combined_path (py "out")), w') /\
    sorted ≡ₚ [(0, py "a.png"); (2, py "b.png")]%nat /\
    StronglySorted lt (sorted.*1).
Proof.
  intros a b w.
  assert (Hnd : NoDup ([(0, py "a.png"); (2, py "b.png")]%nat.*1)).
  { simpl. apply NoDup_cons. split; [| apply NoDup_singleton].
    rewrite list_elem_of_singleton. discriminate. }
  assert (Hp : [(2, py "b.png"); (0, py "a.png")]%nat
               ≡ₚ [(0, py "a.png"); (2, py "b.png")]%nat) by apply perm_swap.
  assert (Hf : Forall (fun u => exists i, fs w !! u.2 = Some (PngFile i))
                      [(0, py "a.png"); (2, py "b.png")]%nat).
  { repeat constructor; simpl; eexists; reflexivity. }
  destruct (combined_pages_ascending (py "out") _ _ w Hnd Hp Hf)
    as (sorted & w' & Hrun & Hperm & Hsorted & _).
  exists sorted, w'. auto.
Defined.

(** ** UnitRenderer *)

Lemma as_rgb_rgb i : im_mode i = RGB -> as_rgb i = i.
Proof. destruct i. simpl. by intros ->. Qed.

Lemma render_page_run E pg resolution w :
  match to_image E pg resolution with
  | Raise e => render_page E pg resolution w = (Raise e, w)
  | Ok raw =>
      exists pil pobj h',
        render_page E pg resolution w
        = (Ok (pil, pobj),
           {| heap := heap w ++ h'; fs := fs w; stdout := stdout w |}) /\
        (heap w ++ h') !! pil = Some (as_rgb (image_of_raster raw))
  end.
Proof.
  unfold render_page. unfold bind at 1. unfold lift.
  destruct (to_image E pg resolution) as [raw | e]; [| reflexivity].
  set (img := image_of_raster raw).
  assert (Hnth : forall l', nth (length (heap w)) ((heap w ++ [img]) ++ l') blank = img).
  { intros l'. rewrite <- app_assoc. apply nth_middle. }
  unfold alloc, deref, convert_rgb, bind, ret. simpl.
  rewrite Hnth.
  destruct (im_mode img) eqn:Emode.
  - eexists _, _, [img; img]. split.
    + by rewrite <- app_assoc.
    + rewrite (as_rgb_rgb img Emode).
      by rewrite lookup_app_r, Nat.sub_diag.
  - unfold alloc. simpl. rewrite Hnth.
    eexists _, _, [img; img; as_rgb img]. split.
    + by rewrite <- !app_assoc.
    + change [img; img; as_rgb img] with ([img; img] ++ [as_rgb img]).
      rewrite (app_assoc (heap w) [img; img] [as_rgb img]).
      change [img; img] with ([img] ++ [img]).
      rewrite (app_assoc (heap w) [img] [img]).
      rewrite lookup_app_r by done. by rewrite Nat.sub_diag.
Qed.

Lemma native_loop_run E pobj stroke stroke_width rects : forall w,
  exists h',
    for_each rects (fun r => native_draw_rect E pobj r stroke stroke_width) w
    = (match first_native_failure E rects with
       | Some e => Raise e
       | None => Ok tt
       end,
       {| heap := h'; fs := fs w; stdout := stdout w |}).
Proof.
  induction rects as [| r rects IH]; intros w.
  - exists (heap w). by destruct w.
  - assert (Hstep :
      for_each (r :: rects)
        (fun r => native_draw_rect E pobj r stroke stroke_width) w
      = match native_draw_rect E pobj r stroke stroke_width w with
        | (Ok _, w') =>
            for_each rects
              (fun r => native_draw_rect E pobj r stroke stroke_width) w'
        | (Raise e, w') => (Raise e, w')
        end) by reflexivity.
    rewrite Hstep. cbn [first_native_failure]. unfold native_draw_rect.
    destruct (draw_rect_raises E r) as [e |].
    + exists (heap w). by destruct w.
    + match goal with |- context [for_each rects _ ?w1] =>
        destruct (IH w1) as [h' IH'] end.
      exists h'. exact IH'.
Qed.

Lemma draw_with_drawrect_run E pobj rects out_path stroke stroke_width w :
  match first_native_failure E rects with
  | Some e =>
      exists h',
        draw_with_drawrect E pobj rects out_path stroke stroke_width w
        = (Ok false, {| heap := h'; fs := fs w;
                        stdout := stdout w ++ [DrawRectFailed e] |})
  | None =>
      exists h' img,
        draw_with_drawrect E pobj rects out_path stroke stroke_width w
        = (Ok true, {| heap := h'; fs := <[out_path := PngFile img]> (fs w);
                       stdout := stdout w |})
  end.
Proof.
  destruct (native_loop_run E pobj stroke stroke_width rects w) as [h' Hloop].
  assert (Hrun : draw_with_drawrect E pobj rects out_path stroke stroke_width w
    = match for_each rects
              (fun r => native_draw_rect E pobj r stroke stroke_width) w with
      | (Ok _, w') =>
          (Ok true, snd (image_save (length (heap w')) out_path
                           (snd (convert_rgb (original pobj) w'))))
      | (Raise e, w') => (Ok false, snd (print (DrawRectFailed e) w'))
      end).
  { unfold draw_with_drawrect, try_except, bind.
    destruct (for_each rects _ w) as [[[] | e] w']; reflexivity. }
  rewrite Hrun, Hloop.
  destruct (first_native_failure E rects) as [e |].
  - exists h'. reflexivity.
  - eexists _, _. reflexivity.
Qed.

(** One pass of the page loop on a page that is not skipped: its outcome
    and the files it leaves are those of [fallback_image], whatever the
    native attempt does. *)
Lemma annotate_page_run E out_dir resolution outline_width stroke_color
    force_render matches_by_page chosen_images pnum pg w :
  let rects := default [] (dict_get matches_by_page pnum) in
  is_nil rects && negb force_render = false ->
  exists h' native,
    annotate_page E out_dir resolution outline_width stroke_color force_render
                  matches_by_page chosen_images (pnum, pg) w
    = match fallback_image E pg resolution rects stroke_color outline_width with
      | Raise e => (Raise e, {| heap := h'; fs := fs w; stdout := stdout w |})
      | Ok img =>
          (Ok (dict_set chosen_images pnum (fallback_path out_dir pnum)),
           {| heap := h';
              fs := match first_native_failure E rects with
                    | Some _ => <[fallback_path out_dir pnum := PngFile img]> (fs w)
                    | None => <[drawrect_path out_dir pnum := PngFile native]>
                                (<[fallback_path out_dir pnum := PngFile img]> (fs w))
                    end;
              stdout := stdout w ++ match first_native_failure E rects with
                                    | Some e => [DrawRectFailed e]
                                    | None => []
                                    end |})
      end.
Proof.
  intros rects Hskip. unfold annotate_page. fold rects. rewrite Hskip.
  pose proof (render_page_run E pg resolution w) as Hr. unfold fallback_image.
  destruct (to_image E pg resolution) as [raw | e]; cbn [rbind].
  2: { exists (heap w), blank. rewrite (bind_raise _ _ _ _ _ Hr). by destruct w. }
  destruct Hr as (pil & pobj & h1 & Hr & Hpil).
  set (plain := as_rgb (image_of_raster raw)) in *.
  rewrite (bind_ok _ _ _ _ _ Hr). cbv beta iota.
  set (w1 := {| heap := heap w ++ h1; fs := fs w; stdout := stdout w |}).
  assert (Hcopy : image_copy pil w1
                  = (Ok (length (heap w1)),
                     {| heap := heap w1 ++ [plain]; fs := fs w; stdout := stdout w |})).
  { unfold image_copy, bind, deref, alloc. simpl.
    by rewrite (nth_lookup_blank _ _ _ Hpil). }
  rewrite (bind_ok _ _ _ _ _ Hcopy).
  set (w2 := {| heap := heap w1 ++ [plain]; fs := fs w; stdout := stdout w |}).
  assert (Hi : heap w2 !! length (heap w1) = Some plain).
  { simpl. by rewrite lookup_app_r, Nat.sub_diag. }
  pose proof (draw_fallback_run E (length (heap w1)) plain
                (page_width pg, page_height pg) rects (fallback_path out_dir pnum)
                stroke_color outline_width w2 Hi) as Hdf.
  destruct (fallback_boxes E stroke_color outline_width (im_size plain)
              (page_width pg, page_height pg) rects)
    as [boxes | e]; cbn [rbind].
  2: { destruct Hdf as [ss Hdf]. rewrite (bind_raise _ _ _ _ _ Hdf).
       eexists _, blank. reflexivity. }
  rewrite (bind_ok _ _ _ _ _ Hdf).
  set (img := paint_all (flat_map (box_outlines stroke_color outline_width) boxes) plain).
  match goal with |- context [draw_with_drawrect ?E ?o ?r ?p ?s ?k] =>
    pose proof (draw_with_drawrect_run E o r p s k
                  (fallback_saved (length (heap w1))
                     (flat_map (box_outlines stroke_color outline_width) boxes)
                     (fallback_path out_dir pnum) w2)) as Hn
  end.
  assert (Hfs : fs (fallback_saved (length (heap w1))
                      (flat_map (box_outlines stroke_color outline_width) boxes)
                      (fallback_path out_dir pnum) w2)
                = <[fallback_path out_dir pnum := PngFile img]> (fs w)).
  { unfold fallback_saved. cbn [fs]. subst w2. cbn [fs].
    by rewrite (nth_lookup_blank _ _ _ Hi). }
  destruct (first_native_failure E rects) as [e |].
  - destruct Hn as [h' Hn]. rewrite (bind_ok _ _ _ _ _ Hn). unfold ret.
    rewrite Hfs. exists h', blank. reflexivity.
  - destruct Hn as (h' & native & Hn). rewrite (bind_ok _ _ _ _ _ Hn). unfold ret.
    rewrite Hfs. exists h', native. by rewrite app_nil_r.
Qed.

Lemma annotate_page_skip E out_dir resolution outline_width stroke_color
    force_render matches_by_page chosen_images pnum pg w :
  is_nil (default [] (dict_get matches_by_page pnum)) && negb force_render = true ->
  annotate_page E out_dir resolution outline_width stroke_color force_render
                matches_by_page chosen_images (pnum, pg) w
  = (Ok chosen_images, w).
Proof. intros H. unfold annotate_page. by rewrite H. Qed.

(** ** Output paths *)

Lemma py_inj s t : py s = py t -> s = t.
Proof.
  unfold py. intros H.
  rewrite <- (String.string_of_list_ascii_of_string s),
          <- (String.string_of_list_ascii_of_string t).
  f_equal. revert H.
  generalize (String.list_ascii_of_string s), (String.list_ascii_of_string t).
  induction l as [| a l IH]; intros [| b l'] H; try discriminate; [done |].
  simpl in H. inversion H as [[Hab Hl]]. f_equal; [| by apply IH].
  rewrite <- (ascii_N_embedding a), <- (ascii_N_embedding b). by rewrite Hab.
Qed.

Lemma fallback_path_inj out_dir n m :
  fallback_path out_dir n = fallback_path out_dir m -> n = m.
Proof.
  unfold fallback_path, path_join. intros H.
  do 3 apply app_inv_head in H. apply app_inv_tail in H.
  apply py_inj in H. by apply (inj pretty) in H.
Qed.

Lemma fallback_ne_drawrect out_dir n m :
  fallback_path out_dir n <> drawrect_path out_dir m.
Proof.
  unfold fallback_path, drawrect_path, path_join. intros H.
  do 3 apply app_inv_head in H.
  apply app_inj_2 in H as [_ H]; [| reflexivity].
  vm_compute in H. discriminate.
Qed.

Lemma combined_ne_fallback out_dir n :
  combined_path out_dir <> fallback_path out_dir n.
Proof.
  unfold fallback_path, combined_path, path_join. intros H.
  do 2 apply app_inv_head in H. vm_compute in H. discriminate.
Qed.

(** ** The sheet pipeline *)

(** The box of a cell has its corners in order: the sizes of columns and
    rows are not negative. *)
Lemma valid_cell_box (cells : gmap (nat * nat) cell_px) rc box :
  (cell_box <$> cells) !! rc = Some box -> valid_box box = true.
Proof.
  rewrite lookup_fmap. destruct (cells !! rc) as [g |]; [| discriminate].
  intros [= <-]. unfold cell_box, valid_box.
  rewrite andb_true_iff, !Z.leb_le. lia.
Qed.

Lemma cells_loop_run E img cell_boxes stroke stroke_width cells :
  Forall (fun rc => match cell_boxes !! rc with
                    | Some box => accepted E stroke stroke_width box = true
                    | None => True
                    end) cells ->
  forall w,
  for_each cells (fun rc =>
    match cell_boxes !! rc with
    | None => ret tt
    | Some box => outline_passes E img box stroke stroke_width
    end) w
  = (Ok tt, update_image img
              (paint_all (cell_outlines cell_boxes stroke stroke_width cells)) w).
Proof.
  induction 1 as [| rc cells Hrc _ IH]; intros w.
  - simpl. unfold ret. by rewrite update_image_id.
  - cbn [for_each]. unfold cell_outlines. cbn [flat_map].
    fold (cell_outlines cell_boxes stroke stroke_width cells).
    destruct (cell_boxes !! rc) as [box |] eqn:Ebox.
    + rewrite (bind_ok _ _ _ _ _
                 (outline_passes_accepted E img box stroke stroke_width w Hrc)).
      rewrite IH. by rewrite update_image_twice.
    + unfold bind, ret. by rewrite IH.
Qed.

Lemma draw_matches_on_image_run E img i cell_boxes cells out_path stroke
    stroke_width w :
  Forall (fun rc => match cell_boxes !! rc with
                    | Some box => accepted E stroke stroke_width box = true
                    | None => True
                    end) cells ->
  heap w !! img = Some i ->
  draw_matches_on_image E img cell_boxes cells out_path stroke stroke_width w
  = (Ok true,
     fallback_saved img (cell_outlines cell_boxes stroke stroke_width cells)
                    out_path w).
Proof.
  intros Hcells Hi. unfold draw_matches_on_image.
  rewrite (bind_ok _ _ _ _ _
             (cells_loop_run E img cell_boxes stroke stroke_width cells Hcells w)).
  unfold bind, image_save, ret, fallback_saved, update_image. simpl.
  by rewrite (nth_alter_blank _ _ _ _ Hi), (nth_lookup_blank _ _ _ Hi).
Qed.

(** What makes a sheet passable, spelled out. *)
Lemma passable_inv E query color stroke_width font_size sh :
  passable E query color stroke_width font_size sh = true ->
  exists ws widths dws dwidths,
    autosize_annotated (annotated_sheet sh) = Ok (ws, widths) /\
    data_sheet sh = Worksheet dws dwidths /\
    row_heights_raise E ws widths font_size = None /\
    sheet_layout E font_size sh = layout_sheet E ws widths font_size /\
    sheet_matches sh query = find_matches_in_sheet dws query /\
    (forall plain cells,
       layout_sheet E ws widths font_size = Ok (plain, cells) ->
       Forall (fun rc => match (cell_box <$> cells) !! rc with
                         | Some box => accepted E color stroke_width box = true
                         | None => True
                         end) (find_matches_in_sheet dws query)).
Proof.
  unfold passable, prepared, drawable, sheet_layout, sheet_matches.
  intros [Hprep Hdraw]%andb_true_iff.
  destruct (autosize_annotated (annotated_sheet sh)) as [[ws widths] |];
    [| discriminate].
  destruct (data_sheet sh) as [dws dwidths |]; [| discriminate].
  destruct (row_heights_raise E ws widths font_size) eqn:Hrows; [discriminate |].
  exists ws, widths, dws, dwidths. cbn [rbind find_matches_in] in *.
  repeat split; try reflexivity; try exact Hrows.
  intros plain cells Hlayout. rewrite Hlayout in Hdraw.
  apply Forall_forall. intros rc Hrc.
  rewrite forallb_forall in Hdraw. specialize (Hdraw rc).
  destruct ((cell_box <$> cells) !! rc); [| done].
  by apply Hdraw, list_elem_of_In.
Qed.

(** One pass of the sheet loop on a sheet that is passable: a sheet whose
    layout raises is reported and left out, any other sheet is saved and
    appended; its matching cells are given a border in both cases. *)
Lemma process_sheet_run E query out_dir stroke_color outline_width font_size
    generated_images borders sh w :
  passable E query stroke_color outline_width font_size sh = true ->
  exists h' log,
    process_sheet E query out_dir stroke_color outline_width font_size
                  (generated_images, borders) sh w
    = (Ok (if lays_out E font_size sh
           then generated_images ++ [sheet_image_path out_dir (sheet_name sh)]
           else generated_images,
           borders ++ [(sheet_name sh, sheet_matches sh query)]),
       {| heap := h';
          fs := sheet_files E query out_dir stroke_color outline_width font_size
                            [sh] (fs w);
          stdout := stdout w ++ log |}).
Proof.
  intros (ws & widths & dws & dwidths & Hsize & Hdata & Hrows & Hlay & Hm & Hdraw)
    %passable_inv.
  unfold sheet_files, sheet_picture, lays_out. cbn [fold_left].
  rewrite Hlay, Hm.
  set (cells := find_matches_in_sheet dws query) in *.
  set (w1 := {| heap := heap w; fs := fs w;
                stdout := (stdout w ++ [XlsProcessingSheet (sheet_name sh)])
                          ++ [XlsMatchesFound (length cells)] |}).
  assert (Hrun : process_sheet E query out_dir stroke_color outline_width font_size
                   (generated_images, borders) sh w
    = match layout_sheet E ws widths font_size with
      | Raise e =>
          (Ok (generated_images, borders ++ [(sheet_name sh, cells)]),
           snd (print (XlsRenderError (sheet_name sh) e) w1))
      | Ok (plain, places) =>
          match draw_matches_on_image E (length (heap w)) (cell_box <$> places) cells
                  (sheet_image_path out_dir (sheet_name sh)) stroke_color
                  outline_width (snd (alloc (image_of_raster plain) w1)) with
          | (Ok _, w') =>
              (Ok (generated_images ++ [sheet_image_path out_dir (sheet_name sh)],
                   borders ++ [(sheet_name sh, cells)]),
               snd (print (XlsSavedImage (sheet_image_path out_dir (sheet_name sh))) w'))
          | (Raise e, w') => (Raise e, w')
          end
      end).
  { unfold process_sheet, set_row_heights_for_wrapped_cells, render_sheet_to_image,
      try_except, bind, print, lift, alloc, ret.
    rewrite Hsize, Hrows, Hdata. cbn [find_matches_in heap fs stdout]. fold cells.
    destruct (layout_sheet E ws widths font_size) as [[plain places] | e];
      [| reflexivity].
    cbn [snd heap].
    destruct (draw_matches_on_image _ _ _ _ _ _ _ _) as [[? | ?] ?]; reflexivity. }
  rewrite Hrun. clear Hrun.
  destruct (layout_sheet E ws widths font_size) as [[plain places] | e] eqn:Hlayout.
  - assert (Hi : heap (snd (alloc (image_of_raster plain) w1)) !! length (heap w)
                 = Some (image_of_raster plain)).
    { simpl. by rewrite lookup_app_r, Nat.sub_diag. }
    rewrite (draw_matches_on_image_run _ _ _ _ _ _ _ _ _
               (Hdraw plain places eq_refl) Hi).
    unfold print, fallback_saved, alloc. subst w1. cbn [snd heap fs stdout].
    rewrite nth_middle. eexists _, _. f_equal. f_equal.
    rewrite <- !app_assoc. reflexivity.
  - unfold print. subst w1. cbn [snd heap fs stdout].
    eexists _, _. f_equal. f_equal. rewrite <- !app_assoc. reflexivity.
Qed.

Lemma process_sheets_run E query out_dir stroke_color outline_width font_size wb :
  Forall (fun sh => passable E query stroke_color outline_width font_size sh = true)
         wb ->
  forall generated_images borders w,
  exists h' log,
    for_fold wb (process_sheet E query out_dir stroke_color outline_width font_size)
             (generated_images, borders) w
    = (Ok (generated_images ++ rendered_sheet_paths E out_dir font_size wb,
           borders ++ workbook_borders wb query),
       {| heap := h';
          fs := sheet_files E query out_dir stroke_color outline_width font_size
                            wb (fs w);
          stdout := stdout w ++ log |}).
Proof.
  induction 1 as [| sh wb Hsh _ IH]; intros generated_images borders w.
  - exists (heap w), []. unfold rendered_sheet_paths, workbook_borders. simpl.
    unfold ret. rewrite !app_nil_r. by destruct w.
  - destruct (process_sheet_run E query out_dir stroke_color outline_width
                font_size generated_images borders sh w Hsh) as (h1 & log1 & Hrun).
    cbn [for_fold]. rewrite (bind_ok _ _ _ _ _ Hrun).
    match goal with |- context [for_fold wb _ (?g, ?b) ?w1] =>
      destruct (IH g b w1) as (h' & log & Hrest) end.
    rewrite Hrest. exists h', (log1 ++ log). cbn [fs stdout].
    unfold rendered_sheet_paths, sheet_files, workbook_borders.
    cbn [List.filter fold_left fmap list_fmap].
    rewrite <- !app_assoc.
    destruct (lays_out E font_size sh); cbn [fmap list_fmap];
      by rewrite <- ?app_assoc.
Qed.

Lemma sheet_files_none E query out_dir stroke_color outline_width font_size wb files :
  List.filter (lays_out E font_size) wb = [] ->
  sheet_files E query out_dir stroke_color outline_width font_size wb files = files.
Proof.
  unfold sheet_files. revert files.
  induction wb as [| sh wb IH]; intros files Hnone; [reflexivity |].
  cbn [List.filter fold_left] in *. unfold sheet_picture, lays_out in *.
  destruct (sheet_layout E font_size sh) as [[] |];
    [discriminate | by apply IH].
Qed.

(** [process_excel_file] on a workbook whose sheets are passable: it
    returns the pictures of the sheets that lay out. When there is none it
    writes no combined file. *)
Lemma process_excel_file_run E xlsx_path wb query out_dir stroke_color
    outline_width font_size w :
  Forall (fun sh => passable E query stroke_color outline_width font_size sh = true)
         wb ->
  let annotated_name := path_join out_dir (py "annotated_" ++ path_name xlsx_path) in
  exists w',
    process_excel_file E xlsx_path wb query out_dir stroke_color outline_width
                       font_size w
    = (Ok (rendered_sheet_paths E out_dir font_size wb, combined_path out_dir,
           annotated_name), w') /\
    (rendered_sheet_paths E out_dir font_size wb = [] ->
     fs w' = workbook_saved E annotated_name (workbook_borders wb query) (fs w) /\
     last (stdout w') = Some XlsNoImages).
Proof.
  intros Hwb annotated_name. unfold process_excel_file.
  do 3 (unfold print at 1; unfold bind at 1).
  match goal with |- context [bind (for_fold wb ?f (?g, ?b)) ?k ?w1] =>
    destruct (process_sheets_run E query out_dir stroke_color outline_width
                font_size wb Hwb g b w1) as (h1 & log1 & Hloop) end.
  rewrite (bind_ok _ _ _ _ _ Hloop). cbn [app fs stdout]. fold annotated_name.
  set (imgs := rendered_sheet_paths E out_dir font_size wb).
  set (files := sheet_files E query out_dir stroke_color outline_width font_size
                            wb (fs w)).
  match goal with |- context [bind (try_except ?c ?h) ?k ?w2] =>
    assert (Hsave : exists log2,
              try_except c h w2
              = (Ok tt, {| heap := h1;
                           fs := workbook_saved E annotated_name
                                   (workbook_borders wb query) files;
                           stdout := stdout w ++ log2 |}))
  end.
  { unfold try_except, save_workbook, workbook_saved, bind, print, raise.
    destruct (workbook_save_raises E); cbn [heap fs stdout];
      eexists; f_equal; f_equal; rewrite <- !app_assoc; reflexivity. }
  destruct Hsave as [log2 Hsave]. rewrite (bind_ok _ _ _ _ _ Hsave).
  destruct imgs as [| p0 ps] eqn:Eimgs; cbn [is_nil].
  - unfold bind, print, ret. cbn [heap fs stdout]. eexists. split; [reflexivity |].
    intros _. cbn [fs stdout]. split.
    + unfold files. rewrite sheet_files_none; [reflexivity |].
      unfold imgs, rendered_sheet_paths in Eimgs.
      by apply fmap_nil_inv in Eimgs.
    + by rewrite last_snoc.
  - match goal with |- context [bind (try_except ?c ?h) ?k ?w3] =>
      assert (Hpdf : exists w', try_except c h w3 = (Ok tt, w'))
    end.
    { unfold try_except.
      match goal with |- context [bind ?c ?k ?w3] =>
        destruct (bind c k w3) as [[[] | e] w'] end; unfold print; eauto. }
    destruct Hpdf as [w' Hpdf]. rewrite (bind_ok _ _ _ _ _ Hpdf).
    exists w'. split; [reflexivity | discriminate].
Qed.

(** ** FormatPipeline *)

Lemma annotate_pages_all_skip E out_dir resolution outline_width stroke_color items :
  forall chosen_images w,
  for_fold items
    (annotate_page E out_dir resolution outline_width stroke_color false [])
    chosen_images w
  = (Ok chosen_images, w).
Proof.
  induction items as [| [pnum pg] items IH]; intros chosen_images w; [reflexivity |].
  cbn [for_fold].
  rewrite (bind_ok _ _ _ _ _
             (annotate_page_skip E out_dir resolution outline_width stroke_color
                false [] chosen_images pnum pg w eq_refl)).
  apply IH.
Qed.

Lemma build_combined_empty out_dir w :
  build_combined out_dir [] w = (Ok ([], combined_path out_dir), w).
Proof. reflexivity. Qed.

Lemma unrendered_sheets_passable E query color stroke_width font_size wb :
  List.filter (lays_out E font_size) wb = [] ->
  Forall (fun sh => prepared E font_size sh = true) wb ->
  Forall (fun sh => passable E query color stroke_width font_size sh = true) wb.
Proof.
  intros Hnone Hprep. apply Forall_forall. intros sh Hsh.
  rewrite Forall_forall in Hprep. unfold passable. rewrite (Hprep sh Hsh).
  assert (Hlay : lays_out E font_size sh = false).
  { destruct (lays_out E font_size sh) eqn:Hlay; [| reflexivity].
    assert (Hin : In sh (List.filter (lays_out E font_size) wb)).
    { apply List.filter_In. split; [by apply list_elem_of_In | exact Hlay]. }
    rewrite Hnone in Hin. destruct Hin. }
  unfold lays_out in Hlay. unfold drawable.
  by destruct (sheet_layout E font_size sh).
Qed.

(** X24: when no unit produced a picture, no combined file is written and
    nothing is raised, but the path of the combined file is returned all
    the same, by both pipelines and by their runners: by [run_pdf] on every
    document without a match when [force_render] is off, and by [run_excel]
    on every workbook none of whose sheets lays out, when its sheets are
    worksheets that are sized and measured. *)
Theorem no_picture_no_combined_file_run :
  (forall out_dir w,
     build_combined out_dir [] w = (Ok ([], combined_path out_dir), w)) /\
  (forall E pdf query out_dir resolution outline color w,
     find_matches_in_pdf pdf query = [] ->
     run_pdf E pdf query out_dir resolution outline color false w
     = (Ok {| pages := []; combined := Some (combined_path out_dir);
              annotated_xlsx := None |},
        {| heap := heap w; fs := fs w;
           stdout := stdout w ++ [PdfMatchesFound 0] |})) /\
  (forall E xlsx_path wb query out_dir outline color font_size w,
     rendered_sheet_paths E out_dir font_size wb = [] ->
     Forall (fun sh => prepared E font_size sh = true) wb ->
     let annotated_name := path_join out_dir (py "annotated_" ++ path_name xlsx_path) in
     exists w',
       run_excel E xlsx_path wb query out_dir outline color font_size w
       = (Ok {| pages := []; combined := Some (combined_path out_dir);
                annotated_xlsx := Some annotated_name |}, w') /\
       fs w' = workbook_saved E annotated_name (workbook_borders wb query) (fs w) /\
       last (stdout w') = Some XlsNoImages).
Proof.
  split; [exact build_combined_empty |]. split.
  - intros E pdf query out_dir resolution outline color w Hnone.
    unfold run_pdf, annotate_pdf_and_build_combined. rewrite Hnone.
    unfold print at 1. unfold bind at 1. unfold bind at 1. unfold bind at 1.
    cbn [group_by_page fold_left length].
    rewrite annotate_pages_all_skip, build_combined_empty. reflexivity.
  - intros E xlsx_path wb query out_dir outline color font_size w Hnone Hprep
           annotated_name.
    assert (Hpass : Forall (fun sh => passable E query color outline font_size sh
                                      = true) wb).
    { apply unrendered_sheets_passable; [| exact Hprep].
      unfold rendered_sheet_paths in Hnone. by apply fmap_nil_inv in Hnone. }
    destruct (process_excel_file_run E xlsx_path wb query out_dir color outline
                font_size w Hpass) as (w' & Hrun & Hfs).
    exists w'. unfold run_excel. rewrite (bind_ok _ _ _ _ _ Hrun).
    rewrite Hnone. split; [reflexivity |]. by apply Hfs.
Qed.

(** A document of one page without a match, and a workbook of one sheet
    without a row, which the scenario does not lay out. *)
Lemma no_picture_no_combined_file_run_witness :
  let empty := Worksheet {| max_row := 0; max_column := 0;
                            cell_value := fun _ _ => None |} (fun _ => None) in
  let wb := [ {| sheet_name := py "Empty"; data_sheet := empty;
                 annotated_sheet := empty |} ] in
  fst (run_pdf (scenario_env false) [scenario_page "nothing" 800] (py "report")
               (py "out") 150 3 (py "red") false empty_world)
  = Ok {| pages := []; combined := Some (py "out/annotated_combined.pdf");
          annotated_xlsx := None |} /\
  exists w',
    run_excel (scenario_env false) (py "in/book.xlsx") wb (py "report") (py "out")
              4 (py "red") 14 empty_world
    = (Ok {| pages := []; combined := Some (py "out/annotated_combined.pdf");
             annotated_xlsx := Some (py "out/annotated_book.xlsx") |}, w') /\
    fs w' !! py "out/annotated_combined.pdf" = None.
Proof.
  intros empty wb.
  destruct no_picture_no_combined_file_run as (_ & Hpdf & Hexcel).
  split.
  - rewrite (Hpdf (scenario_env false) [scenario_page "nothing" 800] (py "report")
               (py "out") 150%Z 3%Z (py "red") empty_world eq_refl).
    reflexivity.
  - destruct (Hexcel (scenario_env false) (py "in/book.xlsx") wb (py "report")
                (py "out") 4%Z (py "red") 14%Z empty_world eq_refl)
      as (w' & Hrun & Hfs & _).
    + repeat constructor.
    + exists w'. split; [exact Hrun |]. rewrite Hfs. reflexivity.
Defined.

(** C3 on the page pipeline: a document whose one page has no match. No
    picture is produced and no combined file is written, yet
    [annotate_pdf_and_build_combined] returns the path of the combined file
    and [run_pdf], whose [str(combined) if combined else None] provides for
    the value none, hands that path on. *)
Theorem combined_path_returned_without_file :
  let pdf := [scenario_page "nothing" 800] in
  let run := run_pdf (scenario_env false) pdf (py "report") (py "out") 150 3
               (py "red") false empty_world in
  find_matches_in_pdf pdf (py "report") = [] /\
  fst run = Ok {| pages := []; combined := Some (py "out/annotated_combined.pdf");
                  annotated_xlsx := None |} /\
  fs (snd run) !! py "out/annotated_combined.pdf" = None /\
  fs (snd run) = ∅.
Proof. vm_compute. repeat split; reflexivity. Qed.

(** ** Matches of a page *)

Lemma dict_get_set {V} (d : list (nat * V)) k k' v :
  dict_get (dict_set d k' v) k = if (k' =? k)%nat then Some v else dict_get d k.
Proof.
  induction d as [| [k0 v0] d IH]; simpl.
  - reflexivity.
  - destruct (Nat.eqb_spec k0 k') as [-> |]; simpl.
    + by destruct (Nat.eqb_spec k' k).
    + rewrite IH. destruct (Nat.eqb_spec k0 k) as [-> |]; [| done].
      by destruct (Nat.eqb_spec k' k) as [-> |].
Qed.

Lemma group_by_page_get_from ms : forall d k,
  default [] (dict_get (fold_left (fun d m => setdefault_append d (m_page m) m) ms d) k)
  = default [] (dict_get d k) ++ List.filter (fun m => (m_page m =? k)%nat) ms.
Proof.
  induction ms as [| m ms IH]; intros d k; simpl.
  - by rewrite app_nil_r.
  - rewrite IH. unfold setdefault_append.
    destruct (dict_get d (m_page m)) as [l |] eqn:E; rewrite dict_get_set;
      destruct (Nat.eqb_spec (m_page m) k) as [<- |]; simpl; rewrite ?E; simpl;
      by rewrite <- ?app_assoc.
Qed.

Lemma word_matches_page q n k ws :
  List.filter (fun m => (m_page m =? k)%nat) (flat_map (word_match q n) ws)
  = if (n =? k)%nat then flat_map (word_match q n) ws else [].
Proof.
  induction ws as [| w ws IH]; simpl; [by destruct (n =? k)%nat |].
  rewrite List.filter_app, IH.
  assert (Hw : List.filter (fun m => (m_page m =? k)%nat) (word_match q n w)
               = if (n =? k)%nat then word_match q n w else []).
  { unfold word_match. destruct (py_in q _); simpl; by destruct (n =? k)%nat. }
  rewrite Hw. by destruct (n =? k)%nat.
Qed.

Lemma matches_of_page_from q k pdf : forall s,
  List.filter (fun m => (m_page m =? k)%nat)
    (flat_map (fun '(pnum, pg) => flat_map (word_match q pnum) (extract_words pg))
              (enumerate s pdf))
  = if (s <=? k)%nat
    then match pdf !! (k - s)%nat with
         | Some pg => flat_map (word_match q k) (extract_words pg)
         | None => []
         end
    else [].
Proof.
  induction pdf as [| pg pdf IH]; intros s.
  - simpl. by destruct (s <=? k)%nat.
  - cbn [enumerate flat_map]. rewrite List.filter_app, word_matches_page, IH.
    destruct (Nat.eqb_spec s k) as [-> |].
    + rewrite Nat.leb_refl, Nat.sub_diag.
      replace (S k <=? k)%nat with false by (symmetry; apply Nat.leb_gt; lia).
      apply app_nil_r.
    + destruct (Nat.leb_spec s k).
      * replace (S s <=? k)%nat with true by (symmetry; apply Nat.leb_le; lia).
        replace (k - s)%nat with (S (k - S s)) by lia. reflexivity.
      * by replace (S s <=? k)%nat with false by (symmetry; apply Nat.leb_gt; lia).
Qed.


(** ** The page pipeline *)

Lemma canonical_files_cons out_dir u rendered m :
  canonical_files out_dir (u :: rendered) m
  = canonical_files out_dir rendered (<[fallback_path out_dir u.1 := PngFile u.2]> m).
Proof. reflexivity. Qed.

Lemma canonical_files_ext out_dir rendered p : forall m1 m2,
  m1 !! p = m2 !! p ->
  canonical_files out_dir rendered m1 !! p = canonical_files out_dir rendered m2 !! p.
Proof.
  induction rendered as [| u rendered IH]; intros m1 m2 H; [exact H |].
  rewrite !canonical_files_cons. apply IH. rewrite !lookup_insert. by case_decide.
Qed.

Lemma canonical_files_other out_dir rendered p : forall m,
  (forall u, u ∈ rendered -> p <> fallback_path out_dir u.1) ->
  canonical_files out_dir rendered m !! p = m !! p.
Proof.
  induction rendered as [| u rendered IH]; intros m H; [reflexivity |].
  rewrite canonical_files_cons, IH.
  - apply lookup_insert_ne, not_eq_sym, H. left.
  - intros u' Hu'. apply H. by right.
Qed.

Lemma canonical_files_lookup out_dir rendered k img : forall m,
  NoDup (rendered.*1) -> (k, img) ∈ rendered ->
  canonical_files out_dir rendered m !! fallback_path out_dir k = Some (PngFile img).
Proof.
  induction rendered as [| u rendered IH]; intros m Hnd Hin;
    [by apply elem_of_nil in Hin |].
  rewrite canonical_files_cons. simpl in Hnd. apply NoDup_cons in Hnd as [Hu Hnd].
  apply elem_of_cons in Hin as [<- | Hin].
  - rewrite canonical_files_other; [apply lookup_insert_eq |].
    intros u' Hu' Heq. apply fallback_path_inj in Heq. apply Hu. simpl.
    rewrite Heq. apply list_elem_of_fmap. by exists u'.
  - by apply IH.
Qed.

Lemma chosen_after_fresh out_dir rendered : forall chosen,
  NoDup ((chosen.*1) ++ (rendered.*1)) ->
  chosen_after out_dir rendered chosen
  = chosen ++ ((fun u => (u.1, fallback_path out_dir u.1)) <$> rendered).
Proof.
  unfold chosen_after.
  induction rendered as [| u rendered IH]; intros chosen Hnd.
  - by rewrite app_nil_r.
  - simpl. rewrite dict_set_fresh.
    + rewrite IH.
      * by rewrite <- app_assoc.
      * rewrite fmap_app. simpl. by rewrite <- app_assoc.
    + apply NoDup_app in Hnd as (_ & Hd & _).
      intros Hin. apply (Hd _ Hin). left.
Qed.

Section PagePipeline.

Variables (E : env) (out_dir : pystr) (resolution outline_width : Z).
Variables (stroke_color : pystr) (force_render : bool).
Variable matches_by_page : list (nat * list pdf_match).

Local Abbreviation step :=
  (annotate_page E out_dir resolution outline_width stroke_color force_render
                 matches_by_page).
Local Abbreviation rendered_of :=
  (canonical_pages E resolution outline_width stroke_color force_render
                   matches_by_page).

(** The page loop: its outcome and the files it leaves, apart from the
    [drawrect] pictures, are those of [canonical_pages]. *)
Lemma annotate_pages_run items : forall chosen_images w,
  exists w',
    for_fold items step chosen_images w
    = (match (rendered_of items).2 with
       | None => Ok (chosen_after out_dir (rendered_of items).1 chosen_images)
       | Some e => Raise e
       end, w') /\
    forall p, (forall n, p <> drawrect_path out_dir n) ->
              fs w' !! p = canonical_files out_dir (rendered_of items).1 (fs w) !! p.
Proof.
  induction items as [| [pnum pg] items IH]; intros chosen_images w.
  - exists w. split; reflexivity.
  - cbn [for_fold canonical_pages].
    destruct (skipped force_render matches_by_page pnum) eqn:Hskip.
    + rewrite (bind_ok _ _ _ _ _
                 (annotate_page_skip E out_dir resolution outline_width
                    stroke_color force_render matches_by_page chosen_images
                    pnum pg w Hskip)).
      apply IH.
    + destruct (annotate_page_run E out_dir resolution outline_width stroke_color
                  force_render matches_by_page chosen_images pnum pg w Hskip)
        as (h & native & Hrun).
      destruct (fallback_image E pg resolution
                  (default [] (dict_get matches_by_page pnum)) stroke_color
                  outline_width) as [img | e].
      * rewrite (bind_ok _ _ _ _ _ Hrun).
        match goal with |- context [for_fold items _ ?c ?w1] =>
          destruct (IH c w1) as (w' & Hrest & Hfs) end.
        exists w'. rewrite Hrest. split; [reflexivity |].
        intros p Hp. rewrite (Hfs p Hp). cbn [fst].
        rewrite canonical_files_cons. apply canonical_files_ext. cbn [fs fst snd].
        destruct (first_native_failure E _); [reflexivity |].
        by apply lookup_insert_ne.
      * rewrite (bind_raise _ _ _ _ _ Hrun). eexists. split; reflexivity.
Qed.

Lemma rendered_keys_from pdf : forall s,
  Forall (fun k => (s <= k)%nat) ((rendered_of (enumerate s pdf)).1.*1) /\
  StronglySorted lt ((rendered_of (enumerate s pdf)).1.*1).
Proof.
  induction pdf as [| pg pdf IH]; intros s; cbn [enumerate canonical_pages].
  - split; constructor.
  - destruct (IH (S s)) as [Hge Hsorted].
    assert (Hge' : Forall (fun k => (s <= k)%nat)
                     ((rendered_of (enumerate (S s) pdf)).1.*1)).
    { eapply Forall_impl; [exact Hge |]. simpl. lia. }
    destruct (skipped force_render matches_by_page s); [done |].
    destruct (fallback_image E pg resolution _ stroke_color outline_width).
    + cbn [fst fmap list_fmap]. split.
      * constructor; [simpl; lia | exact Hge'].
      * constructor; [exact Hsorted |].
        eapply Forall_impl; [exact Hge |]. simpl. lia.
    + split; constructor.
Qed.

(** A page that is not skipped is rendered by a run that completes, and
    only such pages are. *)
Lemma rendered_elem_of pdf k img : forall s,
  (k, img) ∈ (rendered_of (enumerate s pdf)).1 ->
  skipped force_render matches_by_page k = false /\
  exists pg, pdf !! (k - s)%nat = Some pg /\ (s <= k)%nat /\
             fallback_image E pg resolution
               (default [] (dict_get matches_by_page k)) stroke_color outline_width
             = Ok img.
Proof.
  induction pdf as [| pg pdf IH]; intros s; cbn [enumerate canonical_pages].
  - intros H. by apply elem_of_nil in H.
  - assert (Hlater : (k, img) ∈ (rendered_of (enumerate (S s) pdf)).1 ->
              skipped force_render matches_by_page k = false /\
              exists pg', (pg :: pdf) !! (k - s)%nat = Some pg' /\ (s <= k)%nat /\
                fallback_image E pg' resolution
                  (default [] (dict_get matches_by_page k)) stroke_color
                  outline_width = Ok img).
    { intros H. destruct (IH (S s) H) as (Hs & pg' & Hpg' & Hle & Hfi).
      split; [exact Hs |]. exists pg'.
      replace (k - s)%nat with (S (k - S s)) by lia. repeat split; [done | lia | done]. }
    destruct (skipped force_render matches_by_page s) eqn:Hskip; [exact Hlater |].
    destruct (fallback_image E pg resolution _ stroke_color outline_width)
      as [img0 |] eqn:Hfi; cbn [fst].
    + intros [[= -> ->] | H]%elem_of_cons; [| by apply Hlater].
      split; [exact Hskip |]. exists pg. rewrite Nat.sub_diag. by repeat split.
    + intros H. by apply elem_of_nil in H.
Qed.


End PagePipeline.

Lemma strictly_sorted_nodup (l : list nat) : StronglySorted lt l -> NoDup l.
Proof.
  induction 1 as [| x l _ IH Hx]; constructor; [| exact IH].
  intros Hin. rewrite Forall_forall in Hx. specialize (Hx x Hin). lia.
Qed.

Lemma strictly_sorted_le (l : list nat) :
  StronglySorted lt l -> StronglySorted Nat.le l.
Proof.
  induction 1 as [| x l _ IH Hx]; constructor; [exact IH |].
  eapply Forall_impl; [exact Hx |]. unfold Nat.le. simpl. lia.
Qed.

Lemma ascending_sorted (d : list (nat * pystr)) :
  StronglySorted lt (d.*1) -> ascending d = d.
Proof.
  intros Hs. pose proof (strictly_sorted_nodup _ Hs) as Hnd.
  assert (Hkeys : sorted_keys d = d.*1).
  { unfold sorted_keys. apply (Sorted_unique Nat.le).
    - apply Sorted_merge_sort; apply _.
    - by apply StronglySorted_Sorted, strictly_sorted_le.
    - apply merge_sort_Permutation. }
  unfold ascending. rewrite Hkeys, <- list_fmap_compose.
  rewrite <- (list_fmap_id d) at 2.
  apply Forall_fmap_ext, Forall_forall. intros [k v] Hin. simpl.
  by rewrite (dict_get_elem_of d k v Hnd Hin).
Qed.

Lemma fallback_image_rgb E pg resolution rects color stroke_width img :
  fallback_image E pg resolution rects color stroke_width = Ok img ->
  as_rgb img = img.
Proof.
  unfold fallback_image, rbind.
  destruct (to_image E pg resolution); [| discriminate].
  destruct (fallback_boxes _ _ _); [| discriminate].
  intros [= <-]. reflexivity.
Qed.

(** The whole page pipeline: it raises as soon as the fallback rendering
    of a page raises; otherwise it returns the canonical pictures of the
    pages it rendered, in page order, and the path of the combined file. *)
Lemma annotate_pdf_run E pdf query out_dir resolution outline_width stroke_color
    prefer_fallback force_render w :
  let run := canonical_pages E resolution outline_width stroke_color force_render
               (group_by_page (find_matches_in_pdf pdf query)) (enumerate 0 pdf) in
  exists w',
    annotate_pdf_and_build_combined E pdf query out_dir resolution outline_width
      stroke_color prefer_fallback force_render w
    = (match run.2 with
       | None => Ok ((fun u => fallback_path out_dir u.1) <$> run.1,
                     combined_path out_dir)
       | Some e => Raise e
       end, w') /\
    forall p, (forall n, p <> drawrect_path out_dir n) ->
              fs w' !! p = pipeline_files out_dir run (fs w) !! p.
Proof.
  intros run. unfold annotate_pdf_and_build_combined.
  unfold print at 1. unfold bind at 1.
  set (mbp := group_by_page (find_matches_in_pdf pdf query)) in *.
  match goal with |- context [bind (for_fold ?items ?f ?c) ?k ?w1] =>
    destruct (annotate_pages_run E out_dir resolution outline_width stroke_color
                force_render mbp items c w1) as (w1' & Hloop & Hfs)
  end.
  fold run in Hloop, Hfs. cbn [fs] in Hfs. unfold pipeline_files.
  destruct (rendered_keys_from E resolution outline_width stroke_color force_render
              mbp pdf 0) as [_ Hsorted].
  fold run in Hsorted.
  assert (Hrgb : forall k img, (k, img) ∈ run.1 -> as_rgb img = img).
  { intros k img Hin.
    destruct (rendered_elem_of E resolution outline_width stroke_color force_render
                mbp pdf k img 0 Hin) as (_ & pg & _ & _ & Hfi).
    by apply fallback_image_rgb in Hfi. }
  clearbody run. destruct run as [rendered failure]. cbn [fst snd] in *.
  destruct failure as [e |].
  { rewrite (bind_raise _ _ _ _ _ Hloop). exists w1'. split; [reflexivity | exact Hfs]. }
  rewrite (bind_ok _ _ _ _ _ Hloop).
  pose proof (strictly_sorted_nodup _ Hsorted) as Hnd.
  rewrite chosen_after_fresh by exact Hnd. cbn [app].
  set (d := (fun u : nat * image => (u.1, fallback_path out_dir u.1)) <$> rendered).
  assert (Hd1 : d.*1 = rendered.*1).
  { unfold d. rewrite <- list_fmap_compose. reflexivity. }
  assert (Hd2 : d.*2 = (fun u => fallback_path out_dir u.1) <$> rendered).
  { unfold d. rewrite <- list_fmap_compose. reflexivity. }
  assert (Hpics : forall k img, (k, img) ∈ rendered ->
            fs w1' !! fallback_path out_dir k = Some (PngFile img)).
  { intros k img Hin. rewrite Hfs.
    - by apply canonical_files_lookup.
    - intros n. apply fallback_ne_drawrect. }
  assert (Hfiles : Forall (fun u => exists i, fs w1' !! u.2 = Some (PngFile i)) d).
  { unfold d. apply Forall_fmap, Forall_forall. intros [k img] Hin. simpl. eauto. }
  destruct (build_combined_run out_dir d w1' ltac:(by rewrite Hd1) Hfiles)
    as [h' Hcomb].
  rewrite ascending_sorted in Hcomb by (by rewrite Hd1).
  rewrite Hcomb, Hd2. eexists. split; [reflexivity |].
  intros p Hp.
  assert (Hnil : is_nil d = is_nil rendered) by (unfold d; by destruct rendered).
  rewrite Hnil. destruct (is_nil rendered); [by apply Hfs |].
  cbn [fs]. rewrite !lookup_insert. case_decide; [| by apply Hfs].
  f_equal. f_equal. unfold d. rewrite <- list_fmap_compose.
  apply Forall_fmap_ext, Forall_forall. intros [k img] Hin. simpl.
  unfold png_at. rewrite (Hpics k img Hin). by apply (Hrgb k).
Qed.


Lemma first_refusal_ext E E' color boxes :
  rectangle_raises E' = rectangle_raises E ->
  first_refusal E' color boxes = first_refusal E color boxes.
Proof.
  intros H. induction boxes as [| box boxes IH]; [reflexivity |].
  cbn [first_refusal]. by rewrite H, IH.
Qed.

Lemma fallback_boxes_ext E E' color stroke_width size page_pts rects :
  rectangle_raises E' = rectangle_raises E ->
  fallback_boxes E' color stroke_width size page_pts rects
  = fallback_boxes E color stroke_width size page_pts rects.
Proof.
  intros H. unfold fallback_boxes, rbind.
  destruct (truediv _ _) as [scale_x |]; [| reflexivity].
  destruct (truediv _ _) as [scale_y |]; [| reflexivity].
  apply result_mapM_ext. intros r. unfold pixel_rect, rbind.
  repeat (destruct (py_int _); [| reflexivity]).
  by rewrite (first_refusal_ext E E' _ _ H).
Qed.

Lemma fallback_image_ext E E' pg resolution rects color stroke_width :
  to_image E' = to_image E ->
  rectangle_raises E' = rectangle_raises E ->
  fallback_image E' pg resolution rects color stroke_width
  = fallback_image E pg resolution rects color stroke_width.
Proof.
  intros H Hr. unfold fallback_image. rewrite H.
  destruct (to_image E pg resolution); [| reflexivity]. cbn [rbind].
  by rewrite (fallback_boxes_ext E E' _ _ _ _ _ Hr).
Qed.

Lemma canonical_pages_ext E E' resolution outline_width stroke_color force_render
    matches_by_page items :
  to_image E' = to_image E ->
  rectangle_raises E' = rectangle_raises E ->
  canonical_pages E' resolution outline_width stroke_color force_render
                  matches_by_page items
  = canonical_pages E resolution outline_width stroke_color force_render
                    matches_by_page items.
Proof.
  intros H Hr. induction items as [| [pnum pg] items IH]; [reflexivity |].
  cbn [canonical_pages]. by rewrite IH, (fallback_image_ext E E' _ _ _ _ _ H Hr).
Qed.

(** C8: the outcome of a page and every file other than the diagnostic
    [drawrect] picture are the same for two environments that differ only in
    what the native drawing does; when the fallback rendering of the page
    goes through, the recorded picture is the fallback one, and a native
    failure is printed and swallowed. The same holds for a whole run of the
    page pipeline. *)
Theorem native_attempt_never_alters_fallback (E E' : env) (out_dir : pystr)
    (resolution outline_width : Z) (stroke_color : pystr) (force_render : bool)
    (matches_by_page : list (nat * list pdf_match))
    (chosen_images : list (nat * pystr)) (pnum : nat) (pg : page) (w : world)
    (pdf : list page) (query : pystr) (prefer_fallback : bool) :
  to_image E' = to_image E ->
  rectangle_raises E' = rectangle_raises E ->
  let rects := default [] (dict_get matches_by_page pnum) in
  let run := annotate_page E out_dir resolution outline_width stroke_color
               force_render matches_by_page chosen_images (pnum, pg) w in
  let run' := annotate_page E' out_dir resolution outline_width stroke_color
                force_render matches_by_page chosen_images (pnum, pg) w in
  fst run = fst run' /\
  (forall p, p <> drawrect_path out_dir pnum ->
             fs (snd run) !! p = fs (snd run') !! p) /\
  (forall img,
     is_nil rects && negb force_render = false ->
     fallback_image E pg resolution rects stroke_color outline_width = Ok img ->
     fst run = Ok (dict_set chosen_images pnum (fallback_path out_dir pnum)) /\
     fs (snd run) !! fallback_path out_dir pnum = Some (PngFile img) /\
     forall e, first_native_failure E rects = Some e ->
               stdout (snd run) = stdout w ++ [DrawRectFailed e] /\
               fs (snd run) = <[fallback_path out_dir pnum := PngFile img]> (fs w)) /\
  let whole := annotate_pdf_and_build_combined E pdf query out_dir resolution
                 outline_width stroke_color prefer_fallback force_render w in
  let whole' := annotate_pdf_and_build_combined E' pdf query out_dir resolution
                  outline_width stroke_color prefer_fallback force_render w in
  fst whole = fst whole' /\
  (forall p, (forall n, p <> drawrect_path out_dir n) ->
             fs (snd whole) !! p = fs (snd whole') !! p).
Proof.
  intros HE HR rects run run'.
  assert (Hwhole :
    fst (annotate_pdf_and_build_combined E pdf query out_dir resolution
           outline_width stroke_color prefer_fallback force_render w)
    = fst (annotate_pdf_and_build_combined E' pdf query out_dir resolution
             outline_width stroke_color prefer_fallback force_render w) /\
    (forall p, (forall n, p <> drawrect_path out_dir n) ->
       fs (snd (annotate_pdf_and_build_combined E pdf query out_dir resolution
                  outline_width stroke_color prefer_fallback force_render w)) !! p
       = fs (snd (annotate_pdf_and_build_combined E' pdf query out_dir resolution
                    outline_width stroke_color prefer_fallback force_render w)) !! p)).
  { destruct (annotate_pdf_run E pdf query out_dir resolution outline_width
                stroke_color prefer_fallback force_render w) as (w1 & -> & Hfs1).
    destruct (annotate_pdf_run E' pdf query out_dir resolution outline_width
                stroke_color prefer_fallback force_render w) as (w2 & -> & Hfs2).
    rewrite (canonical_pages_ext E E' _ _ _ _ _ _ HE HR) in *.
    split; [reflexivity |]. intros p Hp. cbn [snd].
    by rewrite (Hfs1 p Hp), (Hfs2 p Hp). }
  cut (fst run = fst run' /\
       (forall p, p <> drawrect_path out_dir pnum ->
                  fs (snd run) !! p = fs (snd run') !! p) /\
       (forall img,
          is_nil rects && negb force_render = false ->
          fallback_image E pg resolution rects stroke_color outline_width = Ok img ->
          fst run = Ok (dict_set chosen_images pnum (fallback_path out_dir pnum)) /\
          fs (snd run) !! fallback_path out_dir pnum = Some (PngFile img) /\
          forall e, first_native_failure E rects = Some e ->
                    stdout (snd run) = stdout w ++ [DrawRectFailed e] /\
                    fs (snd run)
                    = <[fallback_path out_dir pnum := PngFile img]> (fs w))).
  { intros (H1 & H2 & H3). split; [exact H1 |]. split; [exact H2 |].
    split; [exact H3 |]. exact Hwhole. }
  clear Hwhole.
  destruct (is_nil rects && negb force_render) eqn:Hskip.
  { unfold run, run'. rewrite !annotate_page_skip by exact Hskip.
    repeat split; try done. }
  assert (Hfi : fallback_image E' pg resolution rects stroke_color outline_width
                = fallback_image E pg resolution rects stroke_color outline_width).
  { by apply fallback_image_ext. }
  destruct (annotate_page_run E out_dir resolution outline_width stroke_color
              force_render matches_by_page chosen_images pnum pg w Hskip)
    as (h & native & Hrun).
  destruct (annotate_page_run E' out_dir resolution outline_width stroke_color
              force_render matches_by_page chosen_images pnum pg w Hskip)
    as (h' & native' & Hrun').
  fold rects in Hrun, Hrun'. rewrite Hfi in Hrun'.
  unfold run, run'. rewrite Hrun, Hrun'. clear Hrun Hrun' run run'.
  destruct (fallback_image E pg resolution rects stroke_color outline_width)
    as [img | e]; cbn [fst snd fs stdout].
  - split; [reflexivity |]. split.
    + intros p Hp.
      destruct (first_native_failure E rects), (first_native_failure E' rects);
        by rewrite ?(lookup_insert_ne _ (drawrect_path out_dir pnum)).
    + intros img' _ [= <-]. split; [reflexivity |]. split.
      * destruct (first_native_failure E rects).
        -- apply lookup_insert_eq.
        -- rewrite lookup_insert_ne by (apply not_eq_sym, fallback_ne_drawrect).
           apply lookup_insert_eq.
      * by intros e ->.
  - split; [reflexivity |]. split; [done |]. intros img _ [=].
Qed.


Lemma native_attempt_never_alters_fallback_witness :
  let pg := scenario_page "Report" 800 in
  let rects := find_matches_in_pdf [pg] (py "report") in
  let run := annotate_page (scenario_env true) (py "out") 150 3 (py "red") false
               (group_by_page rects) [] (0%nat, pg) empty_world in
  to_image (scenario_env false) = to_image (scenario_env true) /\
  fst run = Ok [(0%nat, fallback_path (py "out") 0)] /\
  stdout (snd run) = [DrawRectFailed (LibraryError 2)] /\
  fst (annotate_pdf_and_build_combined (scenario_env true) [pg] (py "report")
         (py "out") 150 3 (py "red") true false empty_world)
  = fst (annotate_pdf_and_build_combined (scenario_env false) [pg] (py "report")
           (py "out") 150 3 (py "red") true false empty_world).
Proof.
  intros pg rects run.
  destruct (native_attempt_never_alters_fallback (scenario_env true)
              (scenario_env false) (py "out") 150 3 (py "red") false
              (group_by_page rects) [] 0 pg empty_world [pg] (py "report") true
              eq_refl eq_refl) as (_ & _ & Hcanon & Hwhole & _).
  split; [reflexivity |].
  destruct (Hcanon
              (paint_all (box_outlines (py "red") 3 (150, 300, 240, 330)%Z)
                 {| im_size := (900, 1200)%Z; im_mode := RGB; im_pixels := 0;
                    im_strokes := [] |})
              eq_refl eq_refl) as (Hfst & _ & Hlog).
  split; [exact Hfst |].
  split; [exact (proj1 (Hlog (LibraryError 2) eq_refl)) | exact Hwhole].
Defined.



(** C4 on the page pipeline: three pages with a match each, the second of
    which cannot be rasterised. The loop of
    [annotate_pdf_and_build_combined] has no handler, so the run raises: the
    third page is never rendered and no combined file is written. *)
Theorem page_failure_aborts_run :
  let pdf := [scenario_page "Report" 800; scenario_page "Report" 801;
              scenario_page "Report" 800] in
  let run := annotate_pdf_and_build_combined (scenario_env false) pdf (py "report")
               (py "out") 150 3 (py "red") true false empty_world in
  length (find_matches_in_pdf pdf (py "report")) = 3%nat /\
  fst run = Raise (LibraryError 1) /\
  is_Some (fs (snd run) !! fallback_path (py "out") 0) /\
  fs (snd run) !! fallback_path (py "out") 2 = None /\
  fs (snd run) !! combined_path (py "out") = None.
Proof.
  intros pdf run.
  assert (H : length (find_matches_in_pdf pdf (py "report")) = 3%nat /\
              fst run = Raise (LibraryError 1) /\
              (exists f, fs (snd run) !! fallback_path (py "out") 0 = Some f) /\
              fs (snd run) !! fallback_path (py "out") 2 = None /\
              fs (snd run) !! combined_path (py "out") = None).
  { vm_compute. repeat split; try reflexivity. eexists. reflexivity. }
  exact H.
Qed.

(** The sheet pipeline does contain such a failure: a sheet whose layout
    raises is left out and the others are rendered and combined. *)
Lemma sheet_failure_contained :
  let empty := Worksheet {| max_row := 0; max_column := 0;
                            cell_value := fun _ _ => None |} (fun _ => None) in
  let broken := {| sheet_name := py "B"; data_sheet := empty;
                   annotated_sheet := empty |} in
  let wb := [scenario_sheet "A" "Report"; broken; scenario_sheet "C" "Report"] in
  let run := process_excel_file (scenario_env false) (py "book.xlsx") wb
               (py "report") (py "out") (py "red") 4 14 empty_world in
  fst run = Ok ([py "out/A_annot.png"; py "out/C_annot.png"],
                py "out/annotated_combined.pdf", py "out/annotated_book.xlsx") /\
  exists a c, fs (snd run) !! py "out/annotated_combined.pdf"
              = Some (PdfFile [a; c]).
Proof. vm_compute. split; [reflexivity |]. eexists _, _. reflexivity. Qed.

(** * Further properties of the handlers *)

(** ** pdf_handler.py: [images_to_pdf] *)

Lemma first_unreadable_none files paths :
  first_unreadable files paths = None ->
  Forall (fun p => exists i, files !! p = Some (PngFile i)) paths.
Proof.
  induction paths as [| p paths IH]; simpl; [constructor |].
  destruct (files !! p) as [[i | |] |] eqn:E; try discriminate.
  intros H. constructor; eauto.
Qed.

Lemma list_comp_open_fails paths : forall w p e,
  first_unreadable (fs w) paths = Some (p, e) ->
  exists h',
    list_comp (fun p => i <- image_open p ;; convert_rgb i) paths w
    = (Raise e, {| heap := heap w ++ h'; fs := fs w; stdout := stdout w |}).
Proof.
  induction paths as [| p0 paths IH]; intros w p e Hfirst; [discriminate |].
  cbn [first_unreadable] in Hfirst. cbn [list_comp].
  destruct (fs w !! p0) as [[i | |] |] eqn:E.
  - set (w1 := {| heap := (heap w ++ [i]) ++ [as_rgb i]; fs := fs w;
                  stdout := stdout w |}).
    assert (Hopen : (i <- image_open p0 ;; convert_rgb i) w
                    = (Ok (length (heap w ++ [i])), w1)).
    { unfold bind, image_open. rewrite E. unfold alloc, convert_rgb, bind, deref.
      simpl. by rewrite nth_middle. }
    destruct (IH w1 p e Hfirst) as [h' Hrest].
    exists ([i; as_rgb i] ++ h').
    rewrite (bind_ok _ _ _ _ _ Hopen), (bind_raise _ _ _ _ _ Hrest).
    simpl. by rewrite <- !app_assoc.
  - injection Hfirst as <- <-. exists [].
    unfold bind, image_open. rewrite E, app_nil_r. by destruct w.
  - injection Hfirst as <- <-. exists [].
    unfold bind, image_open. rewrite E, app_nil_r. by destruct w.
  - injection Hfirst as <- <-. exists [].
    unfold bind, image_open. rewrite E, app_nil_r. by destruct w.
Qed.

(** The three outcomes of [images_to_pdf]. *)
Lemma images_to_pdf_outcome (paths : list pystr) (out_pdf : pystr)
    (w : world) :
  exists h',
    images_to_pdf paths out_pdf w
    = match first_unreadable (fs w) paths with
      | Some (_, e) =>
          (Raise e, {| heap := heap w ++ h'; fs := fs w; stdout := stdout w |})
      | None =>
          if is_nil paths
          then (Raise IndexError,
                {| heap := heap w ++ h'; fs := fs w; stdout := stdout w |})
          else (Ok tt,
                {| heap := heap w ++ h';
                   fs := <[out_pdf := PdfFile ((fun p => as_rgb (png_at w p))
                                               <$> paths)]> (fs w);
                   stdout := stdout w |})
      end.
Proof.
  destruct (first_unreadable (fs w) paths) as [[p e] |] eqn:Hfirst.
  - destruct (list_comp_open_fails paths w p e Hfirst) as [h' Hrun].
    exists h'. unfold images_to_pdf. by rewrite (bind_raise _ _ _ _ _ Hrun).
  - destruct paths as [| p paths]; cbn [is_nil].
    + exists []. unfold images_to_pdf, bind, raise. simpl.
      rewrite app_nil_r. by destruct w.
    + apply first_unreadable_none in Hfirst.
      destruct (images_to_pdf_run (p :: paths) out_pdf w Hfirst ltac:(done))
        as [h' Hrun].
      by exists h'.
Qed.

(** X1: [images_to_pdf] writes all or nothing. On an empty list it raises
    [IndexError]; if a listed path is missing or is not a picture it raises
    the exception of [Image.open] for the first such path; in both cases no
    file is written or changed. Otherwise it writes one file whose pages are
    the listed pictures, converted to RGB, in the order of the list. *)
Theorem images_to_pdf_all_or_nothing (paths : list pystr) (out_pdf : pystr)
    (w : world) :
  exists h',
    images_to_pdf paths out_pdf w
    = match first_unreadable (fs w) paths with
      | Some (_, e) =>
          (Raise e, {| heap := heap w ++ h'; fs := fs w; stdout := stdout w |})
      | None =>
          if is_nil paths
          then (Raise IndexError,
                {| heap := heap w ++ h'; fs := fs w; stdout := stdout w |})
          else (Ok tt,
                {| heap := heap w ++ h';
                   fs := <[out_pdf := PdfFile ((fun p => as_rgb (png_at w p))
                                               <$> paths)]> (fs w);
                   stdout := stdout w |})
      end.
Proof. apply images_to_pdf_outcome. Qed.

(** ** pdf_handler.py: [find_matches_in_pdf] *)

Lemma startswith_prefix t q :
  startswith t q = true -> exists r, t = q ++ r.
Proof.
  revert t. induction q as [| a q IH]; intros t H; [by exists t |].
  destruct t as [| b t]; [discriminate |]. simpl in H.
  apply andb_true_iff in H as [Hab H]. apply N.eqb_eq in Hab as ->.
  destruct (IH t H) as [r ->]. by exists r.
Qed.

(** [q in t] holds only if [q] occurs in [t]. *)
Lemma py_in_occurs q t :
  py_in q t = true -> exists a b, t = a ++ q ++ b.
Proof.
  induction t as [| c t IH]; cbn [py_in]; intros H.
  - apply orb_true_iff in H as [H | H]; [| discriminate].
    apply startswith_prefix in H as [r Hr]. by exists [], r.
  - apply orb_true_iff in H as [H | H].
    + apply startswith_prefix in H as [r Hr]. by exists [], r.
    + destruct (IH H) as (a & b & ->). by exists (c :: a), b.
Qed.

(** [str.lower] turns no character into whitespace. *)
Lemma lower_cp_no_space c :
  is_space c = false -> Forall (fun d => is_space d = false) (lower_cp c).
Proof.
  destruct (N.lt_ge_cases c 256) as [Hc | Hc].
  - revert c Hc.
    assert (H : forall c, c < 256 ->
              (fun c => is_space c
                        || forallb (fun d => negb (is_space d)) (lower_cp c)) c = true).
    { apply below_256. vm_compute. reflexivity. }
    intros c Hc Hsp. specialize (H c Hc). cbv beta in H. rewrite Hsp in H.
    simpl in H. rewrite forallb_forall in H. apply Forall_forall.
    intros d Hd. apply negb_true_iff, H, list_elem_of_In, Hd.
  - intros Hsp. unfold lower_cp, is_ascii_upper, is_latin1_upper.
    replace (c <=? 90) with false by (symmetry; apply N.leb_gt; lia).
    replace (c <=? 222) with false by (symmetry; apply N.leb_gt; lia).
    rewrite !andb_false_r. simpl.
    destruct (c =? 376); [by repeat constructor |].
    destruct (c =? 924); by repeat constructor.
Qed.

Lemma py_lower_no_space s : no_space s -> no_space (py_lower s).
Proof.
  unfold no_space, py_lower. induction 1 as [| c s Hc _ IH]; simpl; [constructor |].
  apply Forall_app. split; [by apply lower_cp_no_space | exact IH].
Qed.

Lemma lstrip_suffix s : exists a, s = a ++ lstrip s.
Proof.
  induction s as [| c s [a IH]]; [by exists [] |]. simpl.
  destruct (is_space c); [| by exists []].
  exists (c :: a). simpl. by f_equal.
Qed.

Lemma lstrip_no_space s : no_space s -> no_space (lstrip s).
Proof.
  intros H. destruct (lstrip_suffix s) as [a Ha]. unfold no_space in *.
  rewrite Ha in H. by apply Forall_app in H as [_ H].
Qed.

Lemma py_strip_no_space s : no_space s -> no_space (py_strip s).
Proof.
  intros H. unfold py_strip, no_space.
  apply Forall_rev, lstrip_no_space, Forall_rev, lstrip_no_space, H.
Qed.

(** X2: the locator tests each extracted word on its own, so a query that
    still has whitespace inside after normalisation (a query of several
    words) finds nothing in a document whose words hold no whitespace, as
    the words of [page.extract_words()] do. *)
Theorem query_of_several_words_finds_nothing (pdf : list page) (query : pystr)
    (c : N) :
  c ∈ py_strip (py_lower query) ->
  is_space c = true ->
  Forall (fun pg => Forall (fun w => no_space (default [] (w_text w)))
                           (extract_words pg)) pdf ->
  find_matches_in_pdf pdf query = [].
Proof.
  intros Hc Hsp Hwords. unfold find_matches_in_pdf.
  set (q := py_strip (py_lower query)) in *.
  generalize 0%nat.
  induction Hwords as [| pg pdf Hpg _ IH]; intros s; [reflexivity |].
  cbn [enumerate flat_map]. rewrite IH, app_nil_r.
  induction Hpg as [| w ws Hw _ IHw]; [reflexivity |].
  cbn [flat_map]. rewrite IHw, app_nil_r. unfold word_match.
  destruct (py_in q (py_lower (py_strip (default [] (w_text w))))) eqn:Hin;
    [| reflexivity].
  exfalso. apply py_in_occurs in Hin as (a & b & Hin).
  pose proof (py_lower_no_space _ (py_strip_no_space _ Hw)) as Hns.
  unfold no_space in Hns. rewrite Hin, !Forall_app in Hns.
  destruct Hns as (_ & Hq & _). rewrite Forall_forall in Hq.
  specialize (Hq c Hc). congruence.
Qed.

Lemma query_of_several_words_finds_nothing_witness :
  find_matches_in_pdf
    [ {| page_width := float_of_int 600; page_height := float_of_int 800;
         extract_words := [scenario_word "annual"; scenario_word "report"] |} ]
    (py "Annual Report")
  = [].
Proof.
  apply (query_of_several_words_finds_nothing _ _ 32).
  - apply list_elem_of_In. vm_compute. tauto.
  - reflexivity.
  - repeat constructor; vm_compute; repeat constructor.
Defined.

(** X3: grouping the matches by page with [setdefault] loses nothing and
    reorders nothing. The list the page loop looks up for page [pnum] holds
    the matches of the words of that page, in word order (none for a page
    number outside the document), and the matches of the document are these
    lists one after the other in page order. *)
Theorem grouping_by_page_is_exact (pdf : list page) (query : pystr) :
  let q := py_strip (py_lower query) in
  (forall pnum,
     page_matches pdf query pnum
     = match pdf !! pnum with
       | Some pg => flat_map (word_match q pnum) (extract_words pg)
       | None => []
       end) /\
  find_matches_in_pdf pdf query
  = flat_map (page_matches pdf query) (seq 0 (length pdf)).
Proof.
  intros q.
  assert (Hpage : forall pnum,
     page_matches pdf query pnum
     = match pdf !! pnum with
       | Some pg => flat_map (word_match q pnum) (extract_words pg)
       | None => []
       end).
  { intros pnum. unfold page_matches, group_by_page.
    rewrite group_by_page_get_from. simpl. unfold find_matches_in_pdf.
    rewrite matches_of_page_from. simpl. by rewrite Nat.sub_0_r. }
  split; [exact Hpage |].
  unfold find_matches_in_pdf. rewrite matches_by_offset.
  apply flat_map_ext. intros k. by rewrite Hpage, Nat.sub_0_r.
Qed.

(** ** pdf_handler.py: the diagnostic picture of [draw_with_drawrect] *)

(** The objects [render_page] creates: the plain picture, the copy on
    which pdfplumber draws, and the RGB picture it returns. *)
Lemma render_page_objects E pg resolution raw w :
  to_image E pg resolution = Ok raw ->
  let img := image_of_raster raw in
  exists pil tail,
    render_page E pg resolution w
    = (Ok (pil, {| original := length (heap w);
                   annotated := S (length (heap w)) |}),
       {| heap := heap w ++ img :: img :: tail; fs := fs w;
          stdout := stdout w |}) /\
    (heap w ++ img :: img :: tail) !! pil = Some (as_rgb img).
Proof.
  intros Hraw img. unfold render_page. unfold bind at 1. unfold lift.
  rewrite Hraw. fold img.
  assert (Hnth : forall l', nth (length (heap w)) ((heap w ++ [img]) ++ l') blank = img).
  { intros l'. rewrite <- app_assoc. apply nth_middle. }
  unfold alloc, deref, convert_rgb, bind, ret. simpl.
  rewrite Hnth, length_app. simpl. rewrite Nat.add_1_r.
  destruct (r_mode raw) eqn:Emode.
  - exists (length (heap w)), []. split.
    + by rewrite <- app_assoc.
    + rewrite (as_rgb_rgb img Emode).
      by rewrite lookup_app_r, Nat.sub_diag.
  - unfold alloc. simpl. rewrite Hnth.
    exists (length ((heap w ++ [img]) ++ [img])), [as_rgb img]. split.
    + by rewrite <- !app_assoc.
    + change (img :: img :: [as_rgb img]) with ([img] ++ [img] ++ [as_rgb img]).
      rewrite !app_assoc. rewrite lookup_app_r by done. by rewrite Nat.sub_diag.
Qed.

(** The native drawing touches one object only, the picture on which
    pdfplumber draws. *)
Lemma native_loop_keeps E pobj stroke stroke_width rects l : forall w,
  l <> annotated pobj ->
  exists h',
    for_each rects (fun r => native_draw_rect E pobj r stroke stroke_width) w
    = (match first_native_failure E rects with
       | Some e => Raise e
       | None => Ok tt
       end,
       {| heap := h'; fs := fs w; stdout := stdout w |}) /\
    length h' = length (heap w) /\
    nth l h' blank = nth l (heap w) blank.
Proof.
  intros w Hl. revert w.
  induction rects as [| r rects IH]; intros w.
  - exists (heap w). by destruct w.
  - assert (Hstep :
      for_each (r :: rects)
        (fun r => native_draw_rect E pobj r stroke stroke_width) w
      = match native_draw_rect E pobj r stroke stroke_width w with
        | (Ok _, w') =>
            for_each rects
              (fun r => native_draw_rect E pobj r stroke stroke_width) w'
        | (Raise e, w') => (Raise e, w')
        end) by reflexivity.
    rewrite Hstep. cbn [first_native_failure]. unfold native_draw_rect.
    destruct (draw_rect_raises E r) as [e |].
    + exists (heap w). by destruct w.
    + match goal with |- context [for_each rects _ ?w1] =>
        destruct (IH w1) as (h' & Hrest & Hlen & Hnth) end.
      exists h'. split; [exact Hrest |]. cbn [heap] in Hlen, Hnth.
      rewrite Hlen, Hnth, length_alter. split; [reflexivity |].
      destruct (heap w !! l) as [i |] eqn:Hi.
      * rewrite (nth_lookup_blank _ _ i); [by rewrite (nth_lookup_blank _ _ _ Hi) |].
        by rewrite list_lookup_alter_ne.
      * rewrite !nth_overflow; [done | | ].
        -- by apply lookup_ge_None.
        -- rewrite length_alter. by apply lookup_ge_None.
Qed.

(** When the native drawing succeeds, the picture saved is the RGB
    conversion of [page_img_obj.original] as it was before the call. *)
Lemma draw_with_drawrect_saves_original E pobj rects out_path stroke stroke_width w :
  original pobj <> annotated pobj ->
  first_native_failure E rects = None ->
  exists h',
    draw_with_drawrect E pobj rects out_path stroke stroke_width w
    = (Ok true,
       {| heap := h';
          fs := <[out_path := PngFile (as_rgb (nth (original pobj) (heap w) blank))]>
                  (fs w);
          stdout := stdout w |}).
Proof.
  intros Hne Hnone.
  destruct (native_loop_keeps E pobj stroke stroke_width rects (original pobj) w Hne)
    as (h' & Hloop & Hlen & Hnth).
  rewrite Hnone in Hloop.
  exists (h' ++ [as_rgb (nth (original pobj) h' blank)]).
  unfold draw_with_drawrect, try_except.
  rewrite (bind_ok _ _ _ _ _ Hloop).
  unfold convert_rgb, deref, alloc, image_save, bind, ret. cbn [heap fs stdout].
  by rewrite nth_middle, Hnth.
Qed.

(** X4: the diagnostic picture [page_N_annot_drawrect.png] never shows a
    rectangle. pdfplumber draws on its own copy of the page picture, while
    [draw_with_drawrect] saves [page_img_obj.original]; and the canonical
    outlines are painted on [pil_img.copy()]. So on a page that is
    rasterised and whose rectangles [draw_fallback] maps and draws without
    an exception, when the native drawing succeeds the file holds the plain
    raster of the page, and when it fails the file is not written at all. *)
Theorem drawrect_picture_is_plain (E : env) (out_dir : pystr)
    (resolution outline_width : Z) (stroke_color : pystr) (force_render : bool)
    (matches_by_page : list (nat * list pdf_match))
    (chosen_images : list (nat * pystr)) (pnum : nat) (pg : page)
    (raw : raster) (boxes : list rect) (w : world) :
  let rects := default [] (dict_get matches_by_page pnum) in
  skipped force_render matches_by_page pnum = false ->
  to_image E pg resolution = Ok raw ->
  fallback_boxes E stroke_color outline_width (r_size raw)
                 (page_width pg, page_height pg) rects
  = Ok boxes ->
  exists w',
    annotate_page E out_dir resolution outline_width stroke_color force_render
                  matches_by_page chosen_images (pnum, pg) w
    = (Ok (dict_set chosen_images pnum (fallback_path out_dir pnum)), w') /\
    fs w' !! drawrect_path out_dir pnum
    = match first_native_failure E rects with
      | None => Some (PngFile {| im_size := r_size raw; im_mode := RGB;
                                 im_pixels := r_pixels raw; im_strokes := [] |})
      | Some _ => fs w !! drawrect_path out_dir pnum
      end.
Proof.
  intros rects Hskip Hraw Hboxes. unfold skipped in Hskip. fold rects in Hskip.
  unfold annotate_page. fold rects. rewrite Hskip.
  destruct (render_page_objects E pg resolution raw w Hraw)
    as (pil & tail & Hr & Hpil).
  set (img := image_of_raster raw) in *. set (plain := as_rgb img) in *.
  rewrite (bind_ok _ _ _ _ _ Hr). cbv beta iota.
  set (h1 := heap w ++ img :: img :: tail) in *.
  set (w1 := {| heap := h1; fs := fs w; stdout := stdout w |}).
  assert (Hcopy : image_copy pil w1
                  = (Ok (length h1),
                     {| heap := h1 ++ [plain]; fs := fs w; stdout := stdout w |})).
  { unfold image_copy, bind, deref, alloc. simpl.
    by rewrite (nth_lookup_blank _ _ _ Hpil). }
  rewrite (bind_ok _ _ _ _ _ Hcopy).
  set (w2 := {| heap := h1 ++ [plain]; fs := fs w; stdout := stdout w |}).
  assert (Hi : heap w2 !! length h1 = Some plain).
  { simpl. by rewrite lookup_app_r, Nat.sub_diag. }
  pose proof (draw_fallback_run E (length h1) plain
                (page_width pg, page_height pg) rects (fallback_path out_dir pnum)
                stroke_color outline_width w2 Hi) as Hdf.
  change (im_size plain) with (r_size raw) in Hdf. rewrite Hboxes in Hdf.
  rewrite (bind_ok _ _ _ _ _ Hdf).
  set (ss := flat_map (box_outlines stroke_color outline_width) boxes) in *.
  set (pobj := {| original := length (heap w); annotated := S (length (heap w)) |}).
  set (w3 := fallback_saved (length h1) ss (fallback_path out_dir pnum) w2).
  assert (Horig : nth (original pobj) (heap w3) blank = img).
  { apply nth_lookup_blank. subst w3 w2 h1. unfold fallback_saved. cbn [heap original pobj].
    rewrite list_lookup_alter_ne by (rewrite length_app; simpl; lia).
    rewrite <- app_assoc. by rewrite lookup_app_r, Nat.sub_diag. }
  assert (Hfs3 : fs w3 !! drawrect_path out_dir pnum = fs w !! drawrect_path out_dir pnum).
  { subst w3 w2. unfold fallback_saved. cbn [fs].
    apply lookup_insert_ne, fallback_ne_drawrect. }
  destruct (first_native_failure E rects) as [e |] eqn:Hnative.
  - pose proof (draw_with_drawrect_run E pobj rects (drawrect_path out_dir pnum)
                  stroke_color outline_width w3) as Hn.
    rewrite Hnative in Hn. destruct Hn as [h' Hn].
    rewrite (bind_ok _ _ _ _ _ Hn). eexists. split; [reflexivity |].
    cbn [fs]. exact Hfs3.
  - destruct (draw_with_drawrect_saves_original E pobj rects
                (drawrect_path out_dir pnum) stroke_color outline_width w3
                ltac:(simpl; lia) Hnative) as [h' Hn].
    rewrite (bind_ok _ _ _ _ _ Hn). eexists. split; [reflexivity |].
    cbn [fs]. rewrite lookup_insert_eq, Horig. reflexivity.
Qed.

Lemma drawrect_picture_is_plain_witness :
  let pg := scenario_page "report" 800 in
  let mbp := group_by_page (find_matches_in_pdf [pg] (py "report")) in
  exists w',
    annotate_page (scenario_env false) (py "out") 150 3 (py "red") false mbp []
                  (0%nat, pg) empty_world
    = (Ok [(0%nat, fallback_path (py "out") 0)], w') /\
    fs w' !! drawrect_path (py "out") 0
    = Some (PngFile {| im_size := (900, 1200)%Z; im_mode := RGB; im_pixels := 0;
                       im_strokes := [] |}).
Proof.
  intros pg mbp.
  exact (drawrect_picture_is_plain (scenario_env false) (py "out") 150 3 (py "red")
           false mbp [] 0 pg
           {| r_size := (900, 1200)%Z; r_mode := RGB; r_pixels := 0 |}
           [(150, 300, 240, 330)%Z] empty_world eq_refl eq_refl eq_refl).
Defined.

(** ** pdf_handler.py: a page that cannot be rendered *)

Lemma combined_ne_drawrect out_dir n :
  combined_path out_dir <> drawrect_path out_dir n.
Proof.
  unfold drawrect_path, combined_path, path_join. intros H.
  do 2 apply app_inv_head in H. vm_compute in H. discriminate.
Qed.

(** The pages rendered before the first page whose canonical rendering
    raises. *)
Lemma canonical_pages_fails E resolution outline_width stroke_color force_render
    matches_by_page pdf k pg e : forall s,
  pdf !! (k - s)%nat = Some pg -> (s <= k)%nat ->
  skipped force_render matches_by_page k = false ->
  fallback_image E pg resolution (default [] (dict_get matches_by_page k))
                 stroke_color outline_width = Raise e ->
  (forall j pgj, (s <= j < k)%nat -> pdf !! (j - s)%nat = Some pgj ->
     skipped force_render matches_by_page j = false ->
     exists img, fallback_image E pgj resolution
                   (default [] (dict_get matches_by_page j))
                   stroke_color outline_width = Ok img) ->
  let run := canonical_pages E resolution outline_width stroke_color force_render
               matches_by_page (enumerate s pdf) in
  run.2 = Some e /\
  (forall j img, (j, img) ∈ run.1 -> (j < k)%nat) /\
  (forall j pgj img, (s <= j < k)%nat -> pdf !! (j - s)%nat = Some pgj ->
     skipped force_render matches_by_page j = false ->
     fallback_image E pgj resolution (default [] (dict_get matches_by_page j))
                    stroke_color outline_width = Ok img ->
     (j, img) ∈ run.1).
Proof.
  induction pdf as [| pg0 pdf IH]; intros s Hpg Hle Hskip Hfail Hbefore.
  - by rewrite lookup_nil in Hpg.
  - cbn [enumerate canonical_pages].
    destruct (Nat.eqb_spec s k) as [-> | Hne].
    + rewrite Nat.sub_diag in Hpg. injection Hpg as ->.
      rewrite Hskip, Hfail. cbn [fst snd]. split; [reflexivity |]. split.
      * intros j img Hin. by apply elem_of_nil in Hin.
      * intros j pgj img Hj. lia.
    + assert (Hpg' : pdf !! (k - S s)%nat = Some pg).
      { replace (k - s)%nat with (S (k - S s)) in Hpg by lia. exact Hpg. }
      assert (Hbefore' : forall j pgj, (S s <= j < k)%nat ->
                pdf !! (j - S s)%nat = Some pgj ->
                skipped force_render matches_by_page j = false ->
                exists img, fallback_image E pgj resolution
                              (default [] (dict_get matches_by_page j))
                              stroke_color outline_width = Ok img).
      { intros j pgj Hj Hpgj. apply Hbefore; [lia |].
        by replace (j - s)%nat with (S (j - S s)) by lia. }
      destruct (IH (S s) Hpg' ltac:(lia) Hskip Hfail Hbefore')
        as (Hrun & Hlt & Hin).
      assert (Hlater : forall j pgj img, (s <= j < k)%nat -> j <> s ->
                (pg0 :: pdf) !! (j - s)%nat = Some pgj ->
                skipped force_render matches_by_page j = false ->
                fallback_image E pgj resolution
                  (default [] (dict_get matches_by_page j))
                  stroke_color outline_width = Ok img ->
                (j, img) ∈ (canonical_pages E resolution outline_width stroke_color
                              force_render matches_by_page (enumerate (S s) pdf)).1).
      { intros j pgj img Hj Hjs Hpgj. apply Hin; [lia |].
        by replace (j - s)%nat with (S (j - S s)) in Hpgj by lia. }
      destruct (skipped force_render matches_by_page s) eqn:Hs.
      * split; [exact Hrun |]. split; [exact Hlt |].
        intros j pgj img Hj Hpgj Hsj. apply (Hlater j pgj img Hj); [| done | done].
        intros ->. congruence.
      * destruct (Hbefore s pg0 ltac:(lia)) as [img0 Himg0];
          [by rewrite Nat.sub_diag | exact Hs |].
        rewrite Himg0. cbn [fst snd]. split; [exact Hrun |]. split.
        -- intros j img [[= -> ->] | H]%elem_of_cons; [lia | by apply (Hlt j img)].
        -- intros j pgj img Hj Hpgj Hsj Hfi.
           destruct (Nat.eqb_spec j s) as [-> | Hjs].
           ++ rewrite Nat.sub_diag in Hpgj. injection Hpgj as <-.
              rewrite Himg0 in Hfi. injection Hfi as <-. left.
           ++ right. by apply (Hlater j pgj img).
Qed.

(** X5: a page whose canonical rendering raises stops the whole run. If
    page [k] is the first page to be rendered whose rasterisation, mapping
    or drawing raises, [annotate_pdf_and_build_combined] raises that
    exception. The
    pictures of the pages rendered before it stay on disk, no picture is
    written for page [k] or a later page, and no combined file is written. *)
Theorem page_failure_leaves_partial_output (E : env) (pdf : list page)
    (query out_dir : pystr) (resolution outline_width : Z) (stroke_color : pystr)
    (prefer_fallback force_render : bool) (k : nat) (pg : page) (e : exn)
    (w : world) :
  let matches_by_page := group_by_page (find_matches_in_pdf pdf query) in
  let canonical j pgj :=
    fallback_image E pgj resolution (page_matches pdf query j) stroke_color
                   outline_width in
  pdf !! k = Some pg ->
  skipped force_render matches_by_page k = false ->
  canonical k pg = Raise e ->
  (forall j pgj, (j < k)%nat -> pdf !! j = Some pgj ->
     skipped force_render matches_by_page j = false ->
     exists img, canonical j pgj = Ok img) ->
  exists w',
    annotate_pdf_and_build_combined E pdf query out_dir resolution outline_width
      stroke_color prefer_fallback force_render w
    = (Raise e, w') /\
    fs w' !! combined_path out_dir = fs w !! combined_path out_dir /\
    (forall j pgj img, (j < k)%nat -> pdf !! j = Some pgj ->
       skipped force_render matches_by_page j = false ->
       canonical j pgj = Ok img ->
       fs w' !! fallback_path out_dir j = Some (PngFile img)) /\
    (forall j, (k <= j)%nat ->
       fs w' !! fallback_path out_dir j = fs w !! fallback_path out_dir j).
Proof.
  intros mbp canonical Hpg Hskip Hfail Hbefore.
  destruct (canonical_pages_fails E resolution outline_width stroke_color
              force_render mbp pdf k pg e 0) as (Hrun & Hlt & Hin).
  { by rewrite Nat.sub_0_r. }
  { lia. }
  { exact Hskip. }
  { exact Hfail. }
  { intros j pgj Hj Hpgj. apply Hbefore; [lia |]. by rewrite Nat.sub_0_r in Hpgj. }
  destruct (annotate_pdf_run E pdf query out_dir resolution outline_width
              stroke_color prefer_fallback force_render w) as (w' & Hres & Hfs).
  fold mbp in Hres, Hfs.
  destruct (rendered_keys_from E resolution outline_width stroke_color force_render
              mbp pdf 0) as [_ Hsorted].
  apply strictly_sorted_nodup in Hsorted.
  set (run := canonical_pages E resolution outline_width stroke_color force_render
                mbp (enumerate 0 pdf)) in *.
  cbv zeta in Hres, Hfs. rewrite Hrun in Hres.
  unfold pipeline_files in Hfs. rewrite Hrun in Hfs.
  exists w'. split; [exact Hres |]. split; [| split].
  - rewrite Hfs by (intros n; apply combined_ne_drawrect).
    apply canonical_files_other. intros u _. apply combined_ne_fallback.
  - intros j pgj img Hj Hpgj Hsj Hfi.
    rewrite Hfs by (intros n; apply fallback_ne_drawrect).
    apply canonical_files_lookup; [exact Hsorted |].
    apply (Hin j pgj img); [lia | by rewrite Nat.sub_0_r | done | done].
  - intros j Hj. rewrite Hfs by (intros n; apply fallback_ne_drawrect).
    apply canonical_files_other. intros [j' img] Hu Heq.
    apply fallback_path_inj in Heq. simpl in Heq. subst j'.
    specialize (Hlt j img Hu). lia.
Qed.

Lemma page_failure_leaves_partial_output_witness :
  let pdf := [scenario_page "report" 800; scenario_page "report" 801;
              scenario_page "report" 800] in
  exists w',
    annotate_pdf_and_build_combined (scenario_env false) pdf (py "report")
      (py "out") 150 3 (py "red") true false empty_world
    = (Raise (LibraryError 1), w') /\
    fs w' !! combined_path (py "out") = None /\
    fs w' !! fallback_path (py "out") 2 = None.
Proof.
  intros pdf.
  destruct (page_failure_leaves_partial_output (scenario_env false) pdf
              (py "report") (py "out") 150 3 (py "red") true false 1
              (scenario_page "report" 801) (LibraryError 1) empty_world
              eq_refl eq_refl eq_refl) as (w' & Hrun & Hcombined & _ & Hlater).
  { intros [| j] pgj Hj Hpgj _; [| lia]. injection Hpgj as <-.
    eexists. vm_compute. reflexivity. }
  exists w'. split; [exact Hrun |]. split; [exact Hcombined |].
  exact (Hlater 2%nat ltac:(lia)).
Defined.

(** ** excel_handler.py: the files of a run *)

Lemma sheet_image_path_inj out_dir a b :
  sheet_image_path out_dir a = sheet_image_path out_dir b -> a = b.
Proof.
  unfold sheet_image_path, path_join. intros H.
  do 2 apply app_inv_head in H. by apply app_inv_tail in H.
Qed.

Lemma sheet_files_cons E query out_dir color W font_size sh wb m :
  sheet_files E query out_dir color W font_size (sh :: wb) m
  = sheet_files E query out_dir color W font_size wb
      (match sheet_picture E query color W font_size sh with
       | Some img => <[sheet_image_path out_dir (sheet_name sh) := PngFile img]> m
       | None => m
       end).
Proof. reflexivity. Qed.

Lemma lays_out_picture E query color W font_size sh :
  lays_out E font_size sh = true ->
  is_Some (sheet_picture E query color W font_size sh).
Proof.
  unfold lays_out, sheet_picture.
  destruct (sheet_layout E font_size sh) as [[plain cells] |];
    [eauto | discriminate].
Qed.

Lemma picture_lays_out E query color W font_size sh :
  lays_out E font_size sh = false ->
  sheet_picture E query color W font_size sh = None.
Proof.
  unfold lays_out, sheet_picture.
  destruct (sheet_layout E font_size sh) as [[plain cells] |];
    [discriminate | reflexivity].
Qed.

Lemma sheet_files_other E query out_dir color W font_size wb p : forall m,
  p ∉ rendered_sheet_paths E out_dir font_size wb ->
  sheet_files E query out_dir color W font_size wb m !! p = m !! p.
Proof.
  induction wb as [| sh wb IH]; intros m Hp; [reflexivity |].
  rewrite sheet_files_cons. unfold rendered_sheet_paths in *.
  cbn [List.filter] in Hp.
  destruct (lays_out E font_size sh) eqn:Hl.
  - cbn [fmap list_fmap] in Hp. apply not_elem_of_cons in Hp as [Hne Hp].
    rewrite (IH _ Hp).
    destruct (sheet_picture E query color W font_size sh); [| reflexivity].
    by apply lookup_insert_ne.
  - rewrite (picture_lays_out _ _ _ _ _ _ Hl). by apply IH.
Qed.

(** Each sheet that lays out leaves its own picture, provided no later
    sheet has the same name. *)
Lemma sheet_files_lookup E query out_dir color W font_size wb sh : forall m,
  NoDup (sheet_name <$> List.filter (lays_out E font_size) wb) ->
  sh ∈ List.filter (lays_out E font_size) wb ->
  sheet_files E query out_dir color W font_size wb m
    !! sheet_image_path out_dir (sheet_name sh)
  = PngFile <$> sheet_picture E query color W font_size sh.
Proof.
  induction wb as [| sh0 wb IH]; intros m Hnd Hin; [by apply elem_of_nil in Hin |].
  rewrite sheet_files_cons. cbn [List.filter] in Hnd, Hin.
  destruct (lays_out E font_size sh0) eqn:Hl.
  - cbn [fmap list_fmap] in Hnd. apply NoDup_cons in Hnd as [Hfresh Hnd].
    apply elem_of_cons in Hin as [-> | Hin]; [| by apply IH].
    destruct (lays_out_picture E query color W font_size sh0 Hl) as [img Himg].
    rewrite Himg. rewrite sheet_files_other; [by rewrite lookup_insert_eq |].
    unfold rendered_sheet_paths. intros Hp.
    apply list_elem_of_fmap in Hp as (sh' & Heq & Hsh').
    apply sheet_image_path_inj in Heq. apply Hfresh. rewrite Heq.
    apply list_elem_of_fmap. by exists sh'.
  - rewrite (picture_lays_out _ _ _ _ _ _ Hl). by apply IH.
Qed.

(** X6: [process_excel_file] on a workbook none of whose sheets makes the
    loop raise, with at least one sheet that lays out, whose sheet names are
    distinct and whose pictures do not collide with the annotated workbook.
    It returns the picture paths of the sheets that lay out, and the
    combined file has one page per such sheet, in workbook order: the
    picture of the sheet with the outlines of its matching cells. *)
Theorem workbook_combined_pages (E : env) (xlsx_path : pystr) (wb : list sheet)
    (query out_dir stroke_color : pystr) (outline_width font_size : Z)
    (w : world) :
  let annotated_name := path_join out_dir (py "annotated_" ++ path_name xlsx_path) in
  let paths := rendered_sheet_paths E out_dir font_size wb in
  Forall (fun sh => passable E query stroke_color outline_width font_size sh = true)
         wb ->
  paths <> [] ->
  NoDup (sheet_name <$> List.filter (lays_out E font_size) wb) ->
  annotated_name ∉ paths ->
  exists w',
    process_excel_file E xlsx_path wb query out_dir stroke_color outline_width
                       font_size w
    = (Ok (paths, combined_path out_dir, annotated_name), w') /\
    fs w' !! combined_path out_dir
    = Some (PdfFile (sheet_pages E query stroke_color outline_width font_size wb)) /\
    length (sheet_pages E query stroke_color outline_width font_size wb)
    = length paths.
Proof.
  intros annotated_name paths Hwb Hne Hnd Hfresh. unfold process_excel_file.
  do 3 (unfold print at 1; unfold bind at 1).
  match goal with |- context [bind (for_fold wb ?f (?g, ?b)) ?k ?w1] =>
    destruct (process_sheets_run E query out_dir stroke_color outline_width
                font_size wb Hwb g b w1) as (h1 & log1 & Hloop) end.
  rewrite (bind_ok _ _ _ _ _ Hloop). cbn [app fs stdout]. fold annotated_name paths.
  set (files := sheet_files E query out_dir stroke_color outline_width font_size
                            wb (fs w)).
  set (borders := workbook_borders wb query).
  match goal with |- context [bind (try_except ?c ?h) ?k ?w2] =>
    assert (Hsave : exists log2,
              try_except c h w2
              = (Ok tt, {| heap := h1;
                           fs := workbook_saved E annotated_name borders files;
                           stdout := stdout w ++ log2 |}))
  end.
  { unfold try_except, save_workbook, workbook_saved, bind, print, raise.
    destruct (workbook_save_raises E); cbn [heap fs stdout];
      eexists; f_equal; f_equal; rewrite <- !app_assoc; reflexivity. }
  destruct Hsave as [log2 Hsave]. rewrite (bind_ok _ _ _ _ _ Hsave).
  set (w3 := {| heap := h1; fs := workbook_saved E annotated_name borders files;
                stdout := stdout w ++ log2 |}).
  assert (Hpic : forall sh, sh ∈ List.filter (lays_out E font_size) wb ->
            fs w3 !! sheet_image_path out_dir (sheet_name sh)
            = PngFile <$> sheet_picture E query stroke_color outline_width
                            font_size sh).
  { intros sh Hsh. cbn [fs w3]. unfold workbook_saved.
    assert (Hp : sheet_image_path out_dir (sheet_name sh) <> annotated_name).
    { intros Heq. apply Hfresh. rewrite <- Heq. unfold paths, rendered_sheet_paths.
      apply list_elem_of_fmap. by exists sh. }
    destruct (workbook_save_raises E);
      rewrite ?lookup_insert_ne by (by apply not_eq_sym);
      by apply sheet_files_lookup. }
  assert (Hall : Forall (fun p => exists i, fs w3 !! p = Some (PngFile i)) paths).
  { unfold paths, rendered_sheet_paths. apply Forall_fmap, Forall_forall.
    intros sh Hsh. unfold compose. rewrite (Hpic sh Hsh).
    assert (Hl : lays_out E font_size sh = true).
    { apply list_elem_of_In, filter_In in Hsh. tauto. }
    destruct (lays_out_picture E query stroke_color outline_width font_size sh Hl)
      as [img ->]. by exists img. }
  destruct (images_to_pdf_run paths (combined_path out_dir) w3 Hall Hne)
    as [h' Hpdf].
  destruct paths as [| p0 ps] eqn:Epaths; [done |]. cbn [is_nil].
  rewrite <- Epaths in *.
  match goal with |- context [bind (try_except ?c ?h) ?k ?w4] =>
    assert (Hcomb : try_except c h w4
              = (Ok tt, snd (print (XlsCombinedSaved (combined_path out_dir))
                               (snd (images_to_pdf paths (combined_path out_dir) w3)))))
  end.
  { unfold try_except. rewrite (bind_ok _ _ _ _ _ Hpdf). rewrite Hpdf. reflexivity. }
  rewrite (bind_ok _ _ _ _ _ Hcomb). rewrite Hpdf. unfold ret.
  eexists. split; [reflexivity |]. cbn [snd print fs]. split.
  - rewrite lookup_insert_eq. f_equal. f_equal.
    unfold paths, rendered_sheet_paths, sheet_pages. rewrite <- list_fmap_compose.
    apply Forall_fmap_ext, Forall_forall. intros sh Hsh. simpl.
    unfold png_at. rewrite (Hpic sh Hsh).
    by destruct (sheet_picture E query stroke_color outline_width font_size sh).
  - unfold sheet_pages, paths, rendered_sheet_paths. by rewrite !length_fmap.
Qed.

Lemma workbook_combined_pages_witness :
  let wb := [scenario_sheet "Sheet1" "total"; scenario_sheet "Sheet2" "report"] in
  exists w',
    process_excel_file (scenario_env false) (py "in/book.xlsx") wb (py "report")
                       (py "out") (py "red") 2 14 empty_world
    = (Ok ([py "out/Sheet1_annot.png"; py "out/Sheet2_annot.png"],
           py "out/annotated_combined.pdf", py "out/annotated_book.xlsx"), w') /\
    fs w' !! py "out/annotated_combined.pdf"
    = Some (PdfFile [ {| im_size := (60, 30)%Z; im_mode := RGB; im_pixels := 1;
                         im_strokes := [] |};
                      {| im_size := (60, 30)%Z; im_mode := RGB; im_pixels := 1;
                         im_strokes := [Outline (0, 0, 60, 30)%Z (py "red");
                                        Outline (-1, -1, 61, 31)%Z (py "red")] |} ]).
Proof.
  intros wb.
  destruct (workbook_combined_pages (scenario_env false) (py "in/book.xlsx") wb
              (py "report") (py "out") (py "red") 2 14 empty_world)
    as (w' & Hrun & Hpages & _).
  - repeat (constructor; [vm_compute; reflexivity |]). constructor.
  - vm_compute. discriminate.
  - vm_compute. repeat constructor; intros H%list_elem_of_In; vm_compute in H;
      intuition discriminate.
  - intros H%list_elem_of_In. vm_compute in H. intuition discriminate.
  - exists w'. split; [exact Hrun | exact Hpages].
Defined.

(** ** excel_handler.py: failures of a run are contained *)

Lemma process_sheet_failure E query out_dir stroke_color outline_width font_size
    generated_images borders sh e w :
  passable E query stroke_color outline_width font_size sh = true ->
  sheet_layout E font_size sh = Raise e ->
  process_sheet E query out_dir stroke_color outline_width font_size
                (generated_images, borders) sh w
  = (Ok (generated_images, borders ++ [(sheet_name sh, sheet_matches sh query)]),
     {| heap := heap w; fs := fs w;
        stdout := stdout w
                  ++ [XlsProcessingSheet (sheet_name sh);
                      XlsMatchesFound (length (sheet_matches sh query));
                      XlsRenderError (sheet_name sh) e] |}).
Proof.
  intros (ws & widths & dws & dwidths & Hsize & Hdata & Hrows & Hlay & Hm & _)
    %passable_inv Hlayout.
  rewrite Hlay in Hlayout. rewrite Hm.
  unfold process_sheet, set_row_heights_for_wrapped_cells, render_sheet_to_image,
    try_except, bind, print, lift, ret.
  rewrite Hsize, Hrows, Hdata. cbn [find_matches_in heap fs stdout].
  rewrite Hlayout. cbn [heap fs stdout].
  by rewrite <- !app_assoc.
Qed.

Lemma process_sheets_log E query out_dir stroke_color outline_width font_size wb :
  Forall (fun sh => passable E query stroke_color outline_width font_size sh = true)
         wb ->
  forall generated_images borders w,
  exists h' log,
    for_fold wb (process_sheet E query out_dir stroke_color outline_width font_size)
             (generated_images, borders) w
    = (Ok (generated_images ++ rendered_sheet_paths E out_dir font_size wb,
           borders ++ workbook_borders wb query),
       {| heap := h';
          fs := sheet_files E query out_dir stroke_color outline_width font_size
                            wb (fs w);
          stdout := stdout w ++ log |}) /\
    forall sh e, sh ∈ wb -> sheet_layout E font_size sh = Raise e ->
                 XlsRenderError (sheet_name sh) e ∈ log.
Proof.
  induction 1 as [| sh wb Hpass _ IH]; intros generated_images borders w.
  - exists (heap w), []. split.
    + unfold rendered_sheet_paths, workbook_borders. simpl. unfold ret.
      rewrite !app_nil_r. by destruct w.
    + intros sh e Hin. by apply elem_of_nil in Hin.
  - destruct (process_sheet_run E query out_dir stroke_color outline_width
                font_size generated_images borders sh w Hpass)
      as (h1 & log1 & Hsh).
    cbn [for_fold]. rewrite (bind_ok _ _ _ _ _ Hsh).
    match goal with |- context [for_fold wb _ (?g, ?b) ?w1] =>
      destruct (IH g b w1) as (h' & log & Hrest & Hlog) end.
    rewrite Hrest. exists h', (log1 ++ log). cbn [fs stdout]. split.
    + unfold rendered_sheet_paths, sheet_files, workbook_borders.
      cbn [List.filter fold_left fmap list_fmap].
      rewrite <- !app_assoc.
      destruct (lays_out E font_size sh); cbn [fmap list_fmap];
        by rewrite <- ?app_assoc.
    + intros sh' e [-> | Hin]%elem_of_cons Hraise.
      * rewrite (process_sheet_failure _ _ _ _ _ _ _ _ _ e _ Hpass Hraise) in Hsh.
        apply (f_equal (fun r => stdout (snd r))) in Hsh. cbn [snd stdout] in Hsh.
        apply app_inv_head in Hsh. subst log1.
        apply elem_of_app. left. set_solver.
      * apply elem_of_app. right. by apply (Hlog sh' e).
Qed.

(** The loop over the matching cells raises at the first cell whose box the
    drawing refuses. *)
Lemma cells_loop_raises (E : env) (img : nat) (cell_boxes : gmap (nat * nat) rect)
    (stroke : pystr) (stroke_width : Z) (cells : list (nat * nat)) :
  forallb (fun rc => match cell_boxes !! rc with
                     | Some box => accepted E stroke stroke_width box
                     | None => true
                     end) cells = false ->
  forall w,
  exists e w',
    for_each cells (fun rc =>
      match cell_boxes !! rc with
      | None => ret tt
      | Some box => outline_passes E img box stroke stroke_width
      end) w = (Raise e, w') /\
    fs w' = fs w.
Proof.
  induction cells as [| rc cells IH]; [discriminate |]. cbn [forallb for_each].
  intros H w. destruct (cell_boxes !! rc) as [box |] eqn:Ebox.
  - destruct (accepted E stroke stroke_width box) eqn:Hacc.
    + rewrite (bind_ok _ _ _ _ _
                 (outline_passes_accepted E img box stroke stroke_width w Hacc)).
      destruct (IH H (update_image img
                        (paint_all (box_outlines stroke stroke_width box)) w))
        as (e & w' & Hrun & Hfs).
      by exists e, w'.
    + pose proof (outline_passes_run E img box stroke stroke_width w) as Hrun.
      unfold accepted in Hacc.
      destruct (first_refusal E stroke (stroke_passes stroke_width box)) as [e |];
        [| discriminate].
      destruct Hrun as [ss Hrun]. eexists e, _.
      by rewrite (bind_raise _ _ _ _ _ Hrun).
  - unfold bind at 1, ret at 1. by apply IH.
Qed.

(** A sheet that is not passable makes the body of the sheet loop raise,
    before any file is written for it. *)
Lemma process_sheet_raises E query out_dir stroke_color outline_width font_size
    st sh w :
  passable E query stroke_color outline_width font_size sh = false ->
  exists e w',
    process_sheet E query out_dir stroke_color outline_width font_size st sh w
    = (Raise e, w') /\
    fs w' = fs w.
Proof.
  destruct st as [generated_images borders].
  unfold passable, prepared, drawable, sheet_layout, sheet_matches.
  unfold process_sheet, set_row_heights_for_wrapped_cells, render_sheet_to_image,
    try_except, bind, print, lift, alloc, ret.
  destruct (autosize_annotated (annotated_sheet sh)) as [[ws widths] | e];
    [| by eexists _, _].
  cbn [rbind heap fs stdout].
  destruct (row_heights_raise E ws widths font_size) as [e |] eqn:Hrows;
    [destruct (data_sheet sh); by eexists _, _ |].
  destruct (data_sheet sh) as [dws dwidths |]; [| by eexists _, _].
  cbn [find_matches_in andb heap fs stdout].
  destruct (layout_sheet E ws widths font_size) as [[plain places] |];
    [| discriminate].
  intros Hdraw. cbn [snd heap fs stdout].
  match goal with |- context [draw_matches_on_image ?E ?i ?b ?c ?p ?s ?W ?w1] =>
    destruct (cells_loop_raises E i b s W c Hdraw w1) as (e & w' & Hloop & Hfs);
    assert (Hrun : draw_matches_on_image E i b c p s W w1 = (Raise e, w'))
      by (unfold draw_matches_on_image; by apply bind_raise)
  end.
  rewrite Hrun. by exists e, w'.
Qed.

Lemma process_sheets_raise E query out_dir stroke_color outline_width font_size wb :
  forallb (passable E query stroke_color outline_width font_size) wb = false ->
  forall st w,
  exists e w',
    for_fold wb (process_sheet E query out_dir stroke_color outline_width font_size)
             st w
    = (Raise e, w').
Proof.
  induction wb as [| sh wb IH]; [discriminate |]. cbn [forallb for_fold].
  intros H [generated_images borders] w.
  destruct (passable E query stroke_color outline_width font_size sh) eqn:Hsh.
  - destruct (process_sheet_run E query out_dir stroke_color outline_width font_size
                generated_images borders sh w Hsh) as (h1 & log1 & Hrun).
    rewrite (bind_ok _ _ _ _ _ Hrun). by apply IH.
  - destruct (process_sheet_raises E query out_dir stroke_color outline_width
                font_size (generated_images, borders) sh w Hsh)
      as (e & w' & Hrun & _).
    exists e, w'. by apply bind_raise.
Qed.

(** X7: which failures [process_excel_file] contains on a loaded workbook.
    When no sheet makes the loop raise outside its [try] (every sheet is a
    worksheet that is sized and measured, and the drawing accepts the box
    of every matching cell), the function does not raise: a sheet whose
    layout raises is reported and skipped, a failure to save the annotated
    workbook or to build the combined file is reported, and the function
    returns the pictures of the sheets that lay out, in workbook order, with
    the two paths. Otherwise the exception of the first such sheet leaves
    the function. *)
Theorem workbook_failures_are_contained (E : env) (xlsx_path : pystr)
    (wb : list sheet) (query out_dir stroke_color : pystr)
    (outline_width font_size : Z) (w : world) :
  if forallb (passable E query stroke_color outline_width font_size) wb
  then
    exists w',
      process_excel_file E xlsx_path wb query out_dir stroke_color outline_width
                         font_size w
      = (Ok ((fun sh => sheet_image_path out_dir (sheet_name sh))
               <$> List.filter (lays_out E font_size) wb,
             combined_path out_dir,
             path_join out_dir (py "annotated_" ++ path_name xlsx_path)), w') /\
      (forall sh e, sh ∈ wb ->
         sheet_layout E font_size sh = Raise e ->
         XlsRenderError (sheet_name sh) e ∈ stdout w') /\
      (forall e, workbook_save_raises E = Some e -> XlsWorkbookError e ∈ stdout w')
  else
    exists e w',
      process_excel_file E xlsx_path wb query out_dir stroke_color outline_width
                         font_size w
      = (Raise e, w').
Proof.
  destruct (forallb _ wb) eqn:Hwb.
  2: { unfold process_excel_file.
       do 3 (unfold print at 1; unfold bind at 1).
       match goal with |- context [bind (for_fold wb ?f ?st) ?k ?w1] =>
         destruct (process_sheets_raise E query out_dir stroke_color outline_width
                     font_size wb Hwb st w1) as (e & w' & Hloop) end.
       exists e, w'. by apply bind_raise. }
  assert (Hpass : Forall (fun sh => passable E query stroke_color outline_width
                                      font_size sh = true) wb).
  { apply Forall_forall. intros sh Hsh. rewrite forallb_forall in Hwb.
    by apply Hwb, list_elem_of_In. }
  unfold process_excel_file.
  do 3 (unfold print at 1; unfold bind at 1).
  match goal with |- context [bind (for_fold wb ?f (?g, ?b)) ?k ?w1] =>
    destruct (process_sheets_log E query out_dir stroke_color outline_width
                font_size wb Hpass g b w1) as (h1 & log1 & Hloop & Hlog1) end.
  rewrite (bind_ok _ _ _ _ _ Hloop). cbn [app fs stdout].
  set (annotated_name := path_join out_dir (py "annotated_" ++ path_name xlsx_path)).
  fold (rendered_sheet_paths E out_dir font_size wb).
  set (imgs := rendered_sheet_paths E out_dir font_size wb).
  set (files := sheet_files E query out_dir stroke_color outline_width font_size
                            wb (fs w)).
  set (borders := workbook_borders wb query).
  set (out1 := ((stdout w ++ [XlsInputFile xlsx_path]) ++ [XlsQuery query])
               ++ [XlsOutputDir out_dir]) in *.
  match goal with |- context [bind (try_except ?c ?h) ?k ?w2] =>
    assert (Hsave : exists log2,
              try_except c h w2
              = (Ok tt, {| heap := h1;
                           fs := workbook_saved E annotated_name borders files;
                           stdout := (out1 ++ log1) ++ log2 |}) /\
              forall e, workbook_save_raises E = Some e ->
                        XlsWorkbookError e ∈ log2)
  end.
  { unfold try_except, save_workbook, workbook_saved, bind, print, raise.
    destruct (workbook_save_raises E) as [e0 |]; cbn [heap fs stdout];
      eexists; (split; [reflexivity |]).
    - intros e [= <-]. set_solver.
    - discriminate. }
  destruct Hsave as (log2 & Hsave & Hlog2). rewrite (bind_ok _ _ _ _ _ Hsave).
  set (w3 := {| heap := h1; fs := workbook_saved E annotated_name borders files;
                stdout := (out1 ++ log1) ++ log2 |}).
  assert (Hlast : exists w',
            (if is_nil imgs then print XlsNoImages
             else try_except
                    (_ <- images_to_pdf imgs (combined_path out_dir) ;;
                     print (XlsCombinedSaved (combined_path out_dir)))
                    (fun e => print (XlsCombinedError e))) w3 = (Ok tt, w') /\
            exists log3, stdout w' = stdout w3 ++ log3).
  { destruct (is_nil imgs).
    - eexists. split; [reflexivity |]. by exists [XlsNoImages].
    - destruct (images_to_pdf_outcome imgs (combined_path out_dir) w3)
        as [h' Hpdf].
      unfold try_except.
      destruct (first_unreadable (fs w3) imgs) as [[p e] |].
      + rewrite (bind_raise _ _ _ _ _ Hpdf). eexists. split; [reflexivity |].
        by exists [XlsCombinedError e].
      + destruct (is_nil imgs).
        * rewrite (bind_raise _ _ _ _ _ Hpdf). eexists. split; [reflexivity |].
          by exists [XlsCombinedError IndexError].
        * rewrite (bind_ok _ _ _ _ _ Hpdf). eexists. split; [reflexivity |].
          by exists [XlsCombinedSaved (combined_path out_dir)]. }
  destruct Hlast as (w' & Hlast & log3 & Hout). rewrite (bind_ok _ _ _ _ _ Hlast).
  exists w'. split; [reflexivity |]. rewrite Hout. cbn [stdout w3]. split.
  - intros sh e Hin Hraise. specialize (Hlog1 sh e Hin Hraise). set_solver.
  - intros e He. specialize (Hlog2 e He). set_solver.
Qed.

(** A workbook whose second sheet cannot be laid out: the failure is
    contained. The same workbook with a chart sheet, or drawn in a colour
    that Pillow does not know, makes [process_excel_file] raise. *)
Lemma workbook_failures_are_contained_witness :
  let empty := Worksheet {| max_row := 0; max_column := 0;
                            cell_value := fun _ _ => None |} (fun _ => None) in
  let bad := {| sheet_name := py "Empty"; data_sheet := empty;
                annotated_sheet := empty |} in
  let chart := {| sheet_name := py "Chart"; data_sheet := Chartsheet;
                  annotated_sheet := Chartsheet |} in
  let wb := [scenario_sheet "Sheet1" "total"; bad; scenario_sheet "Sheet3" "report"] in
  (exists w',
     process_excel_file (scenario_env false) (py "in/book.xlsx") wb (py "report")
                        (py "out") (py "red") 4 14 empty_world
     = (Ok ([py "out/Sheet1_annot.png"; py "out/Sheet3_annot.png"],
            py "out/annotated_combined.pdf", py "out/annotated_book.xlsx"), w') /\
     XlsRenderError (py "Empty") (LibraryError 3) ∈ stdout w') /\
  (exists e w',
     process_excel_file (scenario_env false) (py "in/book.xlsx") (wb ++ [chart])
                        (py "report") (py "out") (py "red") 4 14 empty_world
     = (Raise e, w')) /\
  (exists e w',
     process_excel_file (scenario_env false) (py "in/book.xlsx") wb (py "report")
                        (py "out") (py "notacolor") 4 14 empty_world
     = (Raise e, w')).
Proof.
  intros empty bad chart wb.
  pose proof (workbook_failures_are_contained (scenario_env false)
                (py "in/book.xlsx") wb (py "report") (py "out") (py "red") 4 14
                empty_world) as Hred.
  pose proof (workbook_failures_are_contained (scenario_env false)
                (py "in/book.xlsx") (wb ++ [chart]) (py "report") (py "out")
                (py "red") 4 14 empty_world) as Hchart.
  pose proof (workbook_failures_are_contained (scenario_env false)
                (py "in/book.xlsx") wb (py "report") (py "out") (py "notacolor")
                4 14 empty_world) as Hcolor.
  assert (H1 : forallb (passable (scenario_env false) (py "report") (py "red") 4 14)
                 wb = true) by (vm_compute; reflexivity).
  assert (H2 : forallb (passable (scenario_env false) (py "report") (py "red") 4 14)
                 (wb ++ [chart]) = false) by (vm_compute; reflexivity).
  assert (H3 : forallb (passable (scenario_env false) (py "report")
                          (py "notacolor") 4 14) wb = false)
    by (vm_compute; reflexivity).
  rewrite H1 in Hred. rewrite H2 in Hchart. rewrite H3 in Hcolor.
  split; [| split; [exact Hchart | exact Hcolor]].
  destruct Hred as (w' & Hrun & Hlog & _).
  exists w'. split; [exact Hrun |].
  apply (Hlog bad); [| reflexivity].
  apply elem_of_cons. right. apply elem_of_cons. by left.
Defined.

(** ** excel_handler.py: [find_matches_in_sheet] *)

Lemma cell_match_elem ws q r c rc :
  rc ∈ cell_match ws q r c
  <-> rc = (r, c) /\
      exists s, cell_value ws r c = Some s /\ py_in q (py_lower s) = true.
Proof.
  unfold cell_match. destruct (cell_value ws r c) as [s |].
  - destruct (py_in q (py_lower s)) eqn:Hin.
    + rewrite list_elem_of_singleton. split; [intros ->; eauto |]. tauto.
    + split; [intros H; by apply elem_of_nil in H |].
      intros (_ & s' & [= <-] & H). congruence.
  - split; [intros H; by apply elem_of_nil in H |].
    intros (_ & s' & H & _). discriminate.
Qed.

Lemma row_matches_sorted ws q r : forall n c0,
  StronglySorted cell_lt (flat_map (cell_match ws q r) (seq c0 n)) /\
  Forall (fun rc => rc.1 = r /\ (c0 <= rc.2)%nat)
         (flat_map (cell_match ws q r) (seq c0 n)).
Proof.
  induction n as [| n IH]; intros c0; [split; constructor |].
  cbn [seq flat_map]. destruct (IH (S c0)) as [Hs Hf].
  assert (Hf' : Forall (fun rc => rc.1 = r /\ (c0 <= rc.2)%nat)
                  (flat_map (cell_match ws q r) (seq (S c0) n))).
  { eapply Forall_impl; [exact Hf |]. simpl. intros rc [? ?]. split; [done | lia]. }
  unfold cell_match at 1 3. destruct (cell_value ws r c0) as [s |]; [| done].
  destruct (py_in q (py_lower s)); [| done].
  cbn [app]. split.
  - constructor; [exact Hs |]. eapply Forall_impl; [exact Hf |].
    intros rc [Hr Hc]. right. simpl. split; [done | lia].
  - constructor; [simpl; split; [done | lia] | exact Hf'].
Qed.

Lemma sheet_matches_sorted ws q m : forall n r0,
  StronglySorted cell_lt
    (flat_map (fun r => flat_map (cell_match ws q r) (seq 1 m)) (seq r0 n)) /\
  Forall (fun rc => (r0 <= rc.1)%nat)
    (flat_map (fun r => flat_map (cell_match ws q r) (seq 1 m)) (seq r0 n)).
Proof.
  induction n as [| n IH]; intros r0; [split; constructor |].
  cbn [seq flat_map]. destruct (IH (S r0)) as [Hs Hf].
  destruct (row_matches_sorted ws q r0 m 1) as [Hrow Hrowf]. split.
  - induction Hrow as [| rc row Hrc IHrow Hlt]; [exact Hs |].
    apply Forall_cons in Hrowf as [[Hr _] Hrowf].
    cbn [app]. constructor; [by apply IHrow |].
    apply Forall_app. split; [exact Hlt |].
    eapply Forall_impl; [exact Hf |]. intros rc' Hrc'. left. simpl in *. lia.
  - apply Forall_app. split.
    + eapply Forall_impl; [exact Hrowf |]. simpl. intros rc [-> _]. lia.
    + eapply Forall_impl; [exact Hf |]. simpl. lia.
Qed.

(** X8: [find_matches_in_sheet] returns exactly the cells within the
    bounds of the sheet that hold a value whose lower-cased text contains
    the normalised query, each of them once, in row-major order. *)
Theorem sheet_matches_are_exact (ws : worksheet) (query : pystr) :
  let q := py_strip (py_lower query) in
  (forall r c,
     (r, c) ∈ find_matches_in_sheet ws query
     <-> (1 <= r <= max_row ws)%nat /\ (1 <= c <= max_column ws)%nat /\
         exists s, cell_value ws r c = Some s /\ py_in q (py_lower s) = true) /\
  StronglySorted cell_lt (find_matches_in_sheet ws query) /\
  NoDup (find_matches_in_sheet ws query).
Proof.
  intros q.
  assert (Hsorted : StronglySorted cell_lt (find_matches_in_sheet ws query)).
  { apply (sheet_matches_sorted ws q (max_column ws) (max_row ws) 1). }
  split; [| split; [exact Hsorted |]].
  - intros r c. unfold find_matches_in_sheet. fold q.
    rewrite list_elem_of_In, in_flat_map. split.
    + intros (r' & Hr'%in_seq & Hin). apply in_flat_map in Hin as (c' & Hc'%in_seq & Hin).
      apply list_elem_of_In, cell_match_elem in Hin as ([= -> ->] & Hval).
      split; [lia |]. split; [lia | exact Hval].
    + intros (Hr & Hc & Hval). exists r. split; [apply in_seq; lia |].
      apply in_flat_map. exists c. split; [apply in_seq; lia |].
      apply list_elem_of_In, cell_match_elem. by split.
  - induction Hsorted as [| rc l _ IH Hlt]; constructor; [| exact IH].
    intros Hin. rewrite Forall_forall in Hlt. specialize (Hlt rc Hin).
    destruct Hlt as [H | [_ H]]; lia.
Qed.

(** ** excel_handler.py: the grid of [render_sheet_to_image] *)

Lemma py_sum_from l : forall a, fold_left Z.add l a = (a + py_sum l)%Z.
Proof.
  unfold py_sum. induction l as [| b l IH]; intros a; cbn [fold_left]; [lia |].
  rewrite (IH (a + b)%Z), (IH (0 + b)%Z). lia.
Qed.

Lemma py_sum_cons a l : py_sum (a :: l) = (a + py_sum l)%Z.
Proof. unfold py_sum at 1. simpl. apply py_sum_from. Qed.

Lemma py_sum_take_S l : forall k a,
  l !! k = Some a -> py_sum (take (S k) l) = (py_sum (take k l) + a)%Z.
Proof.
  induction l as [| b l IH]; intros [| k] a H; try discriminate.
  - injection H as ->. cbn [take]. rewrite py_sum_cons. unfold py_sum. simpl. lia.
  - change (take (S (S k)) (b :: l)) with (b :: take (S k) l).
    change (take (S k) (b :: l)) with (b :: take k l).
    rewrite !py_sum_cons, (IH k a H). lia.
Qed.

Local Ltac box_eq := f_equal; repeat (apply (f_equal2 pair)); lia.

(** One row of cells: the columns from [s] on, placed from abscissa [x]. *)
Lemma place_row_from r y h_px col_px : forall s x boxes r' c,
  (fold_left (fun (st : Z * gmap (nat * nat) rect) (cw : nat * Z) =>
                let '(x, boxes) := st in
                let '(c, w_px) := cw in
                let '(x0, y0) := (x, y) in
                let '(x1, y1) := (x + w_px, y + h_px)%Z in
                (x1, <[(r, c) := (x0, y0, x1, y1)]> boxes))
             (enumerate s col_px) (x, boxes)).2 !! (r', c)
  = if bool_decide (r' = r) && (s <=? c)%nat && (c <? s + length col_px)%nat
    then Some (x + py_sum (take (c - s) col_px), y,
               x + py_sum (take (S (c - s)) col_px), y + h_px)%Z
    else boxes !! (r', c).
Proof.
  induction col_px as [| w_px col_px IH]; intros s x boxes r' c.
  - cbn [enumerate fold_left length snd].
    replace (c <? s + 0)%nat with (c <? s)%nat by (f_equal; lia).
    destruct (Nat.leb_spec s c), (Nat.ltb_spec c s); try lia;
      by rewrite ?andb_false_r.
  - cbn [enumerate fold_left]. rewrite IH. cbn [length].
    case_bool_decide as Hr; cbn [andb].
    + subst r'. destruct (Nat.eqb_spec c s) as [-> | Hcs].
      * replace (S s <=? s)%nat with false by (symmetry; apply Nat.leb_gt; lia).
        rewrite Nat.leb_refl. cbn [andb].
        replace (s <? s + S (length col_px))%nat with true
          by (symmetry; apply Nat.ltb_lt; lia).
        rewrite lookup_insert_eq, Nat.sub_diag. cbn [take].
        rewrite py_sum_cons. unfold py_sum. simpl. box_eq.
      * destruct (Nat.leb_spec (S s) c), (Nat.leb_spec s c); try lia; cbn [andb].
        -- replace (c <? s + S (length col_px))%nat
             with (c <? S s + length col_px)%nat by (f_equal; lia).
           destruct (c <? S s + length col_px)%nat.
           ++ replace (c - s)%nat with (S (c - S s)) by lia.
              change (take (S (S (c - S s))) (w_px :: col_px))
                with (w_px :: take (S (c - S s)) col_px).
              change (take (S (c - S s)) (w_px :: col_px))
                with (w_px :: take (c - S s) col_px).
              rewrite !py_sum_cons. box_eq.
           ++ apply lookup_insert_ne. congruence.
        -- apply lookup_insert_ne. congruence.
    + apply lookup_insert_ne. congruence.
Qed.

Lemma place_row_lookup col_px r y h_px boxes r' c :
  place_row col_px r y h_px boxes !! (r', c)
  = if bool_decide (r' = r) && (1 <=? c)%nat && (c <=? length col_px)%nat
    then Some (py_sum (take (c - 1) col_px), y, py_sum (take c col_px),
               y + h_px)%Z
    else boxes !! (r', c).
Proof.
  unfold place_row. rewrite place_row_from.
  replace (c <? 1 + length col_px)%nat with (c <=? length col_px)%nat
    by (destruct (Nat.leb_spec c (length col_px)), (Nat.ltb_spec c (1 + length col_px));
        lia).
  destruct (bool_decide (r' = r) && (1 <=? c)%nat && (c <=? length col_px)%nat)
    eqn:Hin; [| reflexivity].
  apply andb_true_iff in Hin as [[_ Hc%Nat.leb_le]%andb_true_iff _].
  replace (S (c - 1)) with c by lia. box_eq.
Qed.

Lemma place_cells_from col_px row_px : forall s y boxes r c,
  (fold_left (fun (st : Z * gmap (nat * nat) rect) (rh : nat * Z) =>
                let '(y, boxes) := st in
                let '(r, h_px) := rh in
                (y + h_px, place_row col_px r y h_px boxes)%Z)
             (enumerate s row_px) (y, boxes)).2 !! (r, c)
  = if (s <=? r)%nat && (r <? s + length row_px)%nat
       && (1 <=? c)%nat && (c <=? length col_px)%nat
    then Some (py_sum (take (c - 1) col_px), y + py_sum (take (r - s) row_px),
               py_sum (take c col_px), y + py_sum (take (S (r - s)) row_px))%Z
    else boxes !! (r, c).
Proof.
  induction row_px as [| h_px row_px IH]; intros s y boxes r c.
  - cbn [enumerate fold_left length snd].
    destruct (Nat.leb_spec s r), (Nat.ltb_spec r (s + 0)); try lia; reflexivity.
  - cbn [enumerate fold_left]. rewrite IH, place_row_lookup. cbn [length].
    destruct (Nat.eqb_spec r s) as [-> | Hrs].
    + replace (S s <=? s)%nat with false by (symmetry; apply Nat.leb_gt; lia).
      rewrite Nat.leb_refl. cbn [andb].
      replace (s <? s + S (length row_px))%nat with true
        by (symmetry; apply Nat.ltb_lt; lia).
      rewrite bool_decide_eq_true_2 by done. cbn [andb].
      destruct ((1 <=? c)%nat && (c <=? length col_px)%nat); [| reflexivity].
      rewrite Nat.sub_diag. cbn [take]. rewrite py_sum_cons. unfold py_sum. simpl.
      box_eq.
    + rewrite bool_decide_eq_false_2 by done. cbn [andb].
      destruct (Nat.leb_spec (S s) r), (Nat.leb_spec s r); try lia; cbn [andb];
        [| reflexivity].
      replace (r <? s + S (length row_px))%nat
        with (r <? S s + length row_px)%nat by (f_equal; lia).
      destruct (r <? S s + length row_px)%nat; [| reflexivity]. cbn [andb].
      destruct ((1 <=? c)%nat && (c <=? length col_px)%nat); [| reflexivity].
      replace (r - s)%nat with (S (r - S s)) by lia.
      change (take (S (S (r - S s))) (h_px :: row_px))
        with (h_px :: take (S (r - S s)) row_px).
      change (take (S (r - S s)) (h_px :: row_px))
        with (h_px :: take (r - S s) row_px).
      rewrite !py_sum_cons. box_eq.
Qed.

Lemma place_cells_lookup (col_px row_px : list Z) (r c : nat) :
  place_cells col_px row_px !! (r, c)
  = if (1 <=? r)%nat && (r <=? length row_px)%nat
       && (1 <=? c)%nat && (c <=? length col_px)%nat
    then Some (py_sum (take (c - 1) col_px), py_sum (take (r - 1) row_px),
               py_sum (take c col_px), py_sum (take r row_px))
    else None.
Proof.
  unfold place_cells. rewrite place_cells_from.
  replace (r <? 1 + length row_px)%nat with (r <=? length row_px)%nat
    by (destruct (Nat.leb_spec r (length row_px)), (Nat.ltb_spec r (1 + length row_px));
        lia).
  destruct ((1 <=? r)%nat && (r <=? length row_px)%nat && (1 <=? c)%nat
            && (c <=? length col_px)%nat) eqn:Hin; [| apply lookup_empty].
  apply andb_true_iff in Hin as [[[Hr%Nat.leb_le _]%andb_true_iff _]%andb_true_iff _].
  replace (S (r - 1)) with r by lia. box_eq.
Qed.

(** X9: the cell boxes of [render_sheet_to_image] tile the picture. The
    loops give a box to the cells of rows [1..len(row_px)] and columns
    [1..len(col_px)] and to no other cell, and the box of cell [(r, c)]
    runs from the sum of the widths of the columns before it to the sum
    including its own, and likewise for the rows. So neighbours share an
    edge, and the last cell ends at [(img_w, img_h) = (sum(col_px),
    sum(row_px))]. *)
Theorem cell_boxes_tile_the_picture (col_px row_px : list Z) (r c : nat) :
  place_cells col_px row_px !! (r, c)
  = if (1 <=? r)%nat && (r <=? length row_px)%nat
       && (1 <=? c)%nat && (c <=? length col_px)%nat
    then Some (py_sum (take (c - 1) col_px), py_sum (take (r - 1) row_px),
               py_sum (take c col_px), py_sum (take r row_px))
    else None.
Proof. apply place_cells_lookup. Qed.

(** ** excel_handler.py: [autosize_sheet_excel] *)

Lemma splitlines_from_nonempty s : forall cur,
  cur <> [] \/ s <> [] -> splitlines_from false cur s <> [].
Proof.
  induction s as [| c s IH]; intros cur H.
  - cbn [splitlines_from]. destruct cur; [| done]. by destruct H.
  - cbn [splitlines_from]. rewrite andb_false_r.
    destruct (is_linebreak c); [done |].
    apply IH. left. by destruct cur.
Qed.

Lemma fold_max_list l : forall x, fold_left Nat.max l x = Nat.max x (max_list l).
Proof.
  induction l as [| y l IH]; intros x; cbn [fold_left max_list]; [lia |].
  rewrite IH. unfold id. lia.
Qed.

Lemma max_list_append l1 l2 :
  max_list (l1 ++ l2) = Nat.max (max_list l1) (max_list l2).
Proof.
  induction l1 as [| x l1 IH]; cbn [app max_list]; [reflexivity |].
  rewrite IH. unfold id. lia.
Qed.

(** The generator handed to [max] is never empty: [longest_line] never
    raises. *)
Lemma longest_line_run s :
  longest_line s = Ok (max_list (length <$> splitlines s)).
Proof.
  unfold longest_line. destruct s as [| c s]; [reflexivity |]. cbn [is_nil].
  assert (Hne : splitlines (c :: s) <> []).
  { apply splitlines_from_nonempty. by right. }
  destruct (splitlines (c :: s)) as [| x rest]; [congruence |].
  cbn [fmap list_fmap py_max max_list]. rewrite fold_max_list. reflexivity.
Qed.

Lemma dict_set_keys_nodup {V} (d : list (nat * V)) k v :
  NoDup (d.*1) -> NoDup ((dict_set d k v).*1).
Proof.
  induction d as [| [k0 v0] d IH]; intros Hnd; simpl.
  - apply NoDup_singleton.
  - simpl in Hnd. apply NoDup_cons in Hnd as [Hk0 Hnd].
    destruct (Nat.eqb_spec k0 k) as [-> |]; simpl.
    + by apply NoDup_cons.
    + apply NoDup_cons. split; [| by apply IH].
      intros Hin. apply Hk0. clear IH Hk0 Hnd.
      induction d as [| [k1 v1] d IHd]; simpl in *.
      * apply list_elem_of_singleton in Hin. congruence.
      * destruct (Nat.eqb_spec k1 k) as [-> |]; simpl in *; [exact Hin |].
        apply elem_of_cons in Hin as [-> | Hin]; [left | right; by apply IHd].
Qed.

(** The first loop, cell after cell. *)
Lemma autosize_cells_run ws m : forall rows d,
  NoDup (d.*1) ->
  exists d',
    result_fold (fun d r => result_fold (autosize_cell ws r) (seq 1 m) d) rows d
    = Ok d' /\
    NoDup (d'.*1) /\
    forall c,
      dict_get d' c
      = if (1 <=? c)%nat && (c <=? m)%nat
           && negb (is_nil (omap (fun r => cell_value ws r c) rows))
        then Some (Nat.max (default 0%nat (dict_get d c))
                     (max_list (flat_map (fun s => length <$> splitlines s)
                                  (omap (fun r => cell_value ws r c) rows))))
        else dict_get d c.
Proof.
  assert (Hrow : forall r n c0 d, NoDup (d.*1) ->
    exists d',
      result_fold (autosize_cell ws r) (seq c0 n) d = Ok d' /\
      NoDup (d'.*1) /\
      forall c,
        dict_get d' c
        = match cell_value ws r c with
          | Some s =>
              if (c0 <=? c)%nat && (c <? c0 + n)%nat
              then Some (Nat.max (default 0%nat (dict_get d c))
                           (max_list (length <$> splitlines s)))
              else dict_get d c
          | None => dict_get d c
          end).
  { intros r n. induction n as [| n IH]; intros c0 d Hnd.
    - exists d. split; [reflexivity |]. split; [exact Hnd |]. intros c.
      destruct (cell_value ws r c); [| reflexivity].
      destruct (Nat.leb_spec c0 c), (Nat.ltb_spec c (c0 + 0)); try lia; reflexivity.
    - cbn [seq result_fold]. unfold autosize_cell at 1.
      destruct (cell_value ws r c0) as [s0 |] eqn:Hc0.
      + rewrite longest_line_run. cbn [rbind].
        destruct (IH (S c0) _ (dict_set_keys_nodup d c0
                     (Nat.max (default 0%nat (dict_get d c0))
                        (max_list (length <$> splitlines s0))) Hnd))
          as (d' & Hrun & Hnd' & Hget).
        exists d'. split; [exact Hrun |]. split; [exact Hnd' |].
        intros c. rewrite Hget, dict_get_set.
        destruct (Nat.eqb_spec c0 c) as [<- | Hne].
        * rewrite Hc0.
          replace (S c0 <=? c0)%nat with false by (symmetry; apply Nat.leb_gt; lia).
          rewrite Nat.leb_refl.
          replace (c0 <? c0 + S n)%nat with true by (symmetry; apply Nat.ltb_lt; lia).
          reflexivity.
        * destruct (cell_value ws r c); [| reflexivity].
          destruct (Nat.leb_spec (S c0) c), (Nat.leb_spec c0 c),
                   (Nat.ltb_spec c (S c0 + n)), (Nat.ltb_spec c (c0 + S n));
            try lia; reflexivity.
      + cbn [rbind]. destruct (IH (S c0) d Hnd) as (d' & Hrun & Hnd' & Hget).
        exists d'. split; [exact Hrun |]. split; [exact Hnd' |].
        intros c. rewrite Hget.
        destruct (cell_value ws r c) eqn:Hc; [| reflexivity].
        destruct (Nat.eqb_spec c0 c) as [<- | Hne]; [congruence |].
        destruct (Nat.leb_spec (S c0) c), (Nat.leb_spec c0 c),
                 (Nat.ltb_spec c (S c0 + n)), (Nat.ltb_spec c (c0 + S n));
          try lia; reflexivity. }
  induction rows as [| r rows IH]; intros d Hnd.
  - exists d. split; [reflexivity |]. split; [exact Hnd |]. intros c.
    cbn [omap list_omap is_nil negb]. by rewrite andb_false_r.
  - cbn [result_fold]. destruct (Hrow r m 1%nat d Hnd) as (d1 & Hrun1 & Hnd1 & Hget1).
    rewrite Hrun1. cbn [rbind].
    destruct (IH d1 Hnd1) as (d' & Hrun & Hnd' & Hget).
    exists d'. split; [exact Hrun |]. split; [exact Hnd' |].
    intros c. rewrite Hget, Hget1. cbn [omap list_omap].
    replace (c <? 1 + m)%nat with (c <=? m)%nat
      by (destruct (Nat.leb_spec c m), (Nat.ltb_spec c (1 + m)); lia).
    set (rest := omap (fun r0 => cell_value ws r0 c) rows).
    destruct (cell_value ws r c) as [s |]; [| reflexivity].
    cbn [is_nil negb flat_map]. rewrite max_list_append.
    destruct ((1 <=? c)%nat && (c <=? m)%nat) eqn:Hin; cbn [andb]; [| reflexivity].
    destruct rest as [| s1 rest]; cbn [is_nil negb default flat_map max_list];
      f_equal; unfold id; lia.
Qed.

(** The second loop: each recorded column gets its width, the others keep
    theirs. *)
Lemma set_widths_run (f : nat -> Z) lens : forall widths c,
  NoDup (lens.*1) ->
  fold_left (fun (d : column_widths) '(c_idx, max_len) =>
               set_width d c_idx (PyInt (f max_len))) lens widths c
  = match dict_get lens c with
    | Some max_len => Some (PyInt (f max_len))
    | None => widths c
    end.
Proof.
  induction lens as [| [k v] lens IH]; intros widths c Hnd; [reflexivity |].
  simpl in Hnd. apply NoDup_cons in Hnd as [Hk Hnd].
  cbn [fold_left dict_get]. rewrite (IH _ c Hnd).
  destruct (Nat.eqb_spec k c) as [-> | Hne].
  - destruct (dict_get lens c) as [v' |] eqn:Hget.
    + exfalso. apply Hk. clear -Hget.
      induction lens as [| [k1 v1] lens IHl]; [discriminate |]. simpl in *.
      destruct (Nat.eqb_spec k1 c) as [-> |]; [left | right; by apply IHl].
    + unfold set_width. by rewrite Nat.eqb_refl.
  - destruct (dict_get lens c); [reflexivity |].
    unfold set_width. by destruct (Nat.eqb_spec c k) as [-> |].
Qed.

(** X10: [autosize_sheet_excel] never raises. It sets the width of each
    column that holds a value to the length of the longest line in the
    column plus two, kept within the two bounds, and leaves the width of
    every other column as it was. *)
Theorem autosize_sets_clamped_widths (ws : worksheet) (lo hi : Z)
    (widths : column_widths) :
  exists widths',
    autosize_sheet_excel ws lo hi widths = Ok widths' /\
    (forall c,
       widths' c
       = if (1 <=? c)%nat && (c <=? max_column ws)%nat
            && negb (is_nil (column_texts ws c))
         then Some (PyInt (Z.max lo (Z.min (Z.of_nat (longest_in_column ws c) + 2) hi)))
         else widths c).
Proof.
  destruct (autosize_cells_run ws (max_column ws) (seq 1 (max_row ws)) [])
    as (lens & Hrun & Hnd & Hget); [constructor |].
  unfold autosize_sheet_excel, max_len_per_col. rewrite Hrun. cbn [rbind].
  eexists. split; [reflexivity |].
  assert (Hw : forall c,
     fold_left (fun (d : column_widths) '(c_idx, max_len) =>
                  set_width d c_idx (PyInt (autosize_width lo hi max_len)))
               lens widths c
     = if (1 <=? c)%nat && (c <=? max_column ws)%nat
          && negb (is_nil (column_texts ws c))
       then Some (PyInt (Z.max lo (Z.min (Z.of_nat (longest_in_column ws c) + 2) hi)))
       else widths c).
  { intros c. rewrite (set_widths_run (autosize_width lo hi) lens widths c Hnd).
    rewrite Hget. fold (column_texts ws c).
    destruct ((1 <=? c)%nat && (c <=? max_column ws)%nat
              && negb (is_nil (column_texts ws c))); reflexivity. }
  exact Hw.
Qed.

(** ** excel_handler.py: the width of a rendered column *)

Lemma between_10_and_60 (P : Z -> bool) :
  forallb (fun n => P (Z.of_nat n)) (seq 10 51) = true ->
  forall z, (10 <= z <= 60)%Z -> P z = true.
Proof.
  intros H z Hz. rewrite forallb_forall in H.
  rewrite <- (Z2Nat.id z) by lia. apply H. apply in_seq. lia.
Qed.

(** X11: the width in pixels of a column is always between [MIN_COL_PX]
    and [MAX_COL_PX]. For a column sized by [autosize_sheet_excel] with its
    default bounds neither limit applies: a width of [n] characters is
    rendered [7 n + 16] pixels wide, between 86 and 436, whether openpyxl
    hands the width back as the [int] that was stored or as a [float]. *)
Theorem autosized_column_is_not_clamped :
  (forall n_chars px,
     pixel_width_from_chars n_chars = Ok px -> (60 <= px <= 800)%Z) /\
  (forall max_len,
     let n := autosize_width 10 60 max_len in
     column_px (Some (PyInt n)) = Ok (7 * n + 16)%Z /\
     column_px (Some (PyFloat (float_of_int n))) = Ok (7 * n + 16)%Z /\
     (86 <= 7 * n + 16 <= 436)%Z).
Proof.
  split.
  - intros n_chars px. unfold pixel_width_from_chars, rbind, MIN_COL_PX, MAX_COL_PX.
    destruct n_chars as [z | x].
    + intros [= <-]. lia.
    + destruct (py_int _); [| discriminate]. intros [= <-]. lia.
  - intros max_len n.
    assert (Hn : (10 <= n <= 60)%Z) by (unfold n, autosize_width; lia).
    clearbody n. split; [| split; [| lia]].
    + unfold column_px, width_or_10, width_truthy, min_max_col_chars,
        pixel_width_from_chars, rbind, MAX_COL_CHARS, CHAR_PX, CELL_PADDING_PX,
        MIN_COL_PX, MAX_COL_PX.
      replace (n =? 0)%Z with false by (symmetry; apply Z.eqb_neq; lia).
      cbn [negb].
      replace (100 <? n)%Z with false by (symmetry; apply Z.ltb_ge; lia).
      f_equal. lia.
    + assert (H : forall z, (10 <= z <= 60)%Z ->
                (fun z => match column_px (Some (PyFloat (float_of_int z))) with
                          | Ok px => (px =? 7 * z + 16)%Z
                          | Raise _ => false
                          end) z = true).
      { apply between_10_and_60. vm_compute. reflexivity. }
      specialize (H n Hn). cbv beta in H.
      destruct (column_px (Some (PyFloat (float_of_int n)))) as [px |];
        [| discriminate].
      apply Z.eqb_eq in H. by subst px.
Qed.

(** ** app.py: [detect_type] *)

Lemma py_upper_map s : is_ascii s -> py_upper s = upper_ascii_char <$> s.
Proof.
  unfold py_upper, is_ascii. induction 1 as [| c s Hc _ IH]; [reflexivity |].
  cbn [flat_map fmap list_fmap]. rewrite IH. f_equal.
  unfold upper_cp, upper_ascii_char, is_latin1_lower.
  replace (224 <=? c) with false by (symmetry; apply N.leb_gt; lia).
  rewrite orb_false_r. destruct (is_ascii_lower c); [reflexivity |].
  replace (c =? 223) with false by (symmetry; apply N.eqb_neq; lia).
  replace (c =? 255) with false by (symmetry; apply N.eqb_neq; lia).
  replace (c =? 181) with false by (symmetry; apply N.eqb_neq; lia).
  reflexivity.
Qed.

Lemma lower_char_keeps_marks : keeps_marks lower_char.
Proof.
  intros c. destruct (N.lt_ge_cases c 256) as [Hc | Hc].
  - assert (H : forall c, c < 256 ->
              (fun c => Bool.eqb (lower_char c =? 47) (c =? 47)
                        && Bool.eqb (lower_char c =? 46) (c =? 46)) c = true).
    { apply below_256. vm_compute. reflexivity. }
    specialize (H c Hc). cbv beta in H.
    apply andb_true_iff in H as [H1 H2].
    by apply Bool.eqb_prop in H1, H2.
  - rewrite (lower_char_high c Hc).
    destruct (N.eqb_spec c 376) as [-> |]; [by split |].
    destruct (N.eqb_spec c 924) as [-> |]; by split.
Qed.

Lemma upper_ascii_char_keeps_marks : keeps_marks upper_ascii_char.
Proof.
  intros c. unfold upper_ascii_char, is_ascii_lower.
  destruct (N.leb_spec 97 c), (N.leb_spec c 122); cbn [andb]; try by split.
  split; rewrite !(proj2 (N.eqb_neq _ _)); try reflexivity; lia.
Qed.

Section ChangeOfCase.

Variable g : N -> N.
Hypothesis Hg : keeps_marks g.

Lemma split_on_map (s : pystr) :
  split_on 47 (g <$> s) = (fun x : pystr => g <$> x) <$> split_on 47 s.
Proof.
  induction s as [| c s IH]; [reflexivity |].
  change (g <$> c :: s) with (g c :: (g <$> s)).
  cbn [split_on]. rewrite IH.
  rewrite (proj1 (Hg c)). destruct (c =? 47); [reflexivity |].
  by destruct (split_on 47 s).
Qed.

Lemma map_is_dot (x : pystr) :
  pystr_eqb (g <$> x) (py ".") = pystr_eqb x (py ".").
Proof.
  unfold pystr_eqb. change (py ".") with [46].
  destruct x as [| c [| c' x]]; [reflexivity | |].
  - change (g <$> [c]) with [g c]. pose proof (proj2 (Hg c)) as Hc.
    destruct (N.eqb_spec c 46) as [Hc46 | Hc46].
    + apply N.eqb_eq in Hc. by rewrite Hc, Hc46.
    + apply N.eqb_neq in Hc.
      rewrite !bool_decide_eq_false_2; [reflexivity | congruence | congruence].
  - change (g <$> c :: c' :: x) with (g c :: g c' :: (g <$> x)).
    rewrite !bool_decide_eq_false_2; [reflexivity | discriminate | discriminate].
Qed.

Lemma path_components_map (s : pystr) :
  path_components (g <$> s) = (fun x : pystr => g <$> x) <$> path_components s.
Proof.
  unfold path_components. rewrite split_on_map.
  induction (split_on 47 s) as [| x l IH]; [reflexivity |].
  change ((fun x : pystr => g <$> x) <$> x :: l)
    with ((g <$> x) :: ((fun x : pystr => g <$> x) <$> l)).
  cbn [List.filter]. rewrite map_is_dot, IH.
  replace (is_nil (g <$> x)) with (is_nil x) by (by destruct x).
  by destruct (negb (is_nil x) && negb (pystr_eqb x (py "."))).
Qed.

Lemma name_of_path_map (s : pystr) :
  name_of_path (g <$> s) = g <$> name_of_path s.
Proof.
  unfold name_of_path. rewrite path_components_map, fmap_last.
  by destruct (last (path_components s)).
Qed.

Lemma rfind_map (s : pystr) : rfind 46 (g <$> s) = rfind 46 s.
Proof.
  induction s as [| c s IH]; [reflexivity |].
  change (g <$> c :: s) with (g c :: (g <$> s)).
  cbn [rfind]. rewrite IH.
  by rewrite (proj2 (Hg c)).
Qed.

Lemma path_suffix_map (s : pystr) :
  path_suffix (g <$> s) = g <$> path_suffix s.
Proof.
  unfold path_suffix, suffix_start. rewrite name_of_path_map, rfind_map, length_fmap.
  destruct (rfind 46 (name_of_path s)) as [i |]; [| reflexivity].
  destruct ((0 <? i)%nat && (S i <? length (name_of_path s))%nat); [| reflexivity].
  by rewrite fmap_drop.
Qed.

End ChangeOfCase.

Lemma lower_upper_ascii_char c : lower_char (upper_ascii_char c) = lower_char c.
Proof.
  destruct (N.lt_ge_cases c 256) as [Hc | Hc].
  - assert (H : forall c, c < 256 ->
              (fun c => lower_char (upper_ascii_char c) =? lower_char c) c = true).
    { apply below_256. vm_compute. reflexivity. }
    by apply N.eqb_eq, H.
  - unfold upper_ascii_char, is_ascii_lower.
    replace (c <=? 122) with false by (symmetry; apply N.leb_gt; lia).
    by rewrite andb_false_r.
Qed.

(** X12: [detect_type] does not look at the case of a path. Lower-casing
    a path never changes its kind, and neither does upper-casing an ASCII
    path: [report.XLSX] is a workbook like [report.xlsx]. *)
Theorem detect_type_ignores_case (path : pystr) :
  detect_type (py_lower path) = detect_type path /\
  (is_ascii path -> detect_type (py_upper path) = detect_type path).
Proof.
  unfold detect_type. split.
  - rewrite (py_lower_map path), (path_suffix_map _ lower_char_keeps_marks).
    rewrite !py_lower_map, <- list_fmap_compose. f_equal.
    apply list_fmap_ext. intros _ c _. apply lower_char_idemp.
  - intros Hascii. rewrite (py_upper_map path Hascii).
    rewrite (path_suffix_map _ upper_ascii_char_keeps_marks).
    rewrite !py_lower_map, <- list_fmap_compose. f_equal.
    apply list_fmap_ext. intros _ c _. apply lower_upper_ascii_char.
Qed.

(** ** app.py: [gather_files] *)

Lemma split_on_app sep a b :
  split_on sep (a ++ sep :: b) = split_on sep a ++ split_on sep b.
Proof.
  induction a as [| c a IH]; cbn [app split_on].
  - by rewrite N.eqb_refl.
  - rewrite IH. destruct (c =? sep); [reflexivity |].
    destruct (split_on sep a) as [| piece pieces] eqn:E; [| reflexivity].
    by destruct a; [| cbn [split_on] in E; destruct (_ =? _), (split_on sep _)].
Qed.

Lemma split_on_plain sep s : sep ∉ s -> split_on sep s = [s].
Proof.
  induction s as [| c s IH]; intros Hs; [reflexivity |].
  apply not_elem_of_cons in Hs as [Hc Hs]. cbn [split_on].
  rewrite (proj2 (N.eqb_neq c sep)) by congruence. by rewrite (IH Hs).
Qed.

(** The final component of [dir / name] is [name]. *)
Lemma name_of_path_join dir name :
  plain_component name -> name_of_path (path_join dir name) = name.
Proof.
  intros (Hne & Hdot & Hsep). unfold name_of_path, path_join, path_components.
  change (py "/") with [47]. cbn [app].
  rewrite split_on_app, (split_on_plain 47 name Hsep), List.filter_app.
  cbn [List.filter].
  assert (Hkeep : negb (is_nil name) && negb (pystr_eqb name (py ".")) = true).
  { apply andb_true_iff. split.
    - by destruct name.
    - unfold pystr_eqb. by rewrite bool_decide_eq_false_2. }
  rewrite Hkeep. by rewrite last_snoc.
Qed.

(** X13: the kind of a file found in a directory is that of its own name:
    the directories above it, dots in their names included, play no part. *)
Theorem detect_type_of_entry (dir name : pystr) :
  plain_component name ->
  detect_type (path_join dir name) = detect_type name.
Proof.
  intros Hname. unfold detect_type, path_suffix.
  rewrite (name_of_path_join dir name Hname).
  replace (name_of_path name) with name; [reflexivity |].
  destruct Hname as (Hne & Hdot & Hsep).
  unfold name_of_path, path_components.
  rewrite (split_on_plain 47 name Hsep). cbn [List.filter].
  replace (negb (is_nil name) && negb (pystr_eqb name (py "."))) with true;
    [reflexivity |].
  symmetry. apply andb_true_iff. split.
  - by destruct name.
  - unfold pystr_eqb. by rewrite bool_decide_eq_false_2.
Qed.

Lemma detect_type_of_entry_witness :
  detect_type (path_join (py "archive.pdf/v1.2") (py "Report.XLSX"))
  = Some (py "excel").
Proof.
  rewrite (detect_type_of_entry (py "archive.pdf/v1.2") (py "Report.XLSX")).
  - vm_compute. reflexivity.
  - split; [discriminate |]. split; [discriminate |].
    intros H%list_elem_of_In. vm_compute in H. intuition discriminate.
Defined.

Lemma node_induction (P : node -> Prop) :
  P RegularFile -> P OtherNode -> P UnreadableDirectory ->
  (forall names, P (UnsearchableDirectory names)) ->
  (forall entries, Forall (fun e => P e.2) entries -> P (Directory entries)) ->
  forall n, P n.
Proof.
  intros Hfile Hother Hunread Hunsearch Hdir.
  fix IH 1. intros [| entries | | names |];
    [exact Hfile | | exact Hunread | apply Hunsearch | exact Hother].
  apply Hdir.
  induction entries as [| [name child] rest IHrest]; constructor;
    [apply IH | exact IHrest].
Qed.

(** A recursive scan of a tree: the supported files below it, unless one
    of its directories cannot be read or searched. *)
Lemma gather_files_recursive n : forall path,
  gather_files path n true
  = match n with
    | RegularFile => Done [path]
    | OtherNode => Fail NotADirectoryError
    | _ => if accessible n
           then Done (List.filter supported (regular_files path n))
           else Fail PermissionError
    end.
Proof.
  induction n as [| | | names | entries IH] using node_induction;
    [done | done | done | by destruct names |].
  intros path. cbn [gather_files regular_files accessible].
  assert (Hscan : forall files,
    (fix scan (entries : list (pystr * node)) (files : list pystr)
       : app_result (list pystr) :=
       match entries with
       | [] => Done files
       | (name, child) :: rest =>
           let p := path_join path name in
           match child with
           | RegularFile =>
               scan rest (if is_some (detect_type p) then files ++ [p] else files)
           | Directory _ | UnreadableDirectory | UnsearchableDirectory _ =>
               match gather_files p child true with
               | Done found => scan rest (files ++ found)
               | Fail e => Fail e
               end
           | OtherNode => scan rest files
           end
       end) entries files
    = if (fix each (entries : list (pystr * node)) : bool :=
            match entries with
            | [] => true
            | (_, child) :: rest => accessible child && each rest
            end) entries
      then Done (files ++ List.filter supported
              ((fix walk (entries : list (pystr * node)) : list pystr :=
                  match entries with
                  | [] => []
                  | (name, child) :: rest =>
                      regular_files (path_join path name) child ++ walk rest
                  end) entries))
      else Fail PermissionError).
  { induction IH as [| [name child] rest Hchild _ IHrest]; intros files.
    - by rewrite app_nil_r.
    - cbv zeta. specialize (Hchild (path_join path name)). cbn [snd] in Hchild.
      destruct child as [| sub | | names |].
      + rewrite IHrest. cbn [regular_files accessible andb app List.filter].
        destruct (_ rest); [| reflexivity]. unfold supported at 2.
        destruct (is_some (detect_type (path_join path name)));
          by rewrite <- ?app_assoc.
      + rewrite Hchild. destruct (accessible (Directory sub)); [| reflexivity].
        rewrite IHrest. cbn [andb]. destruct (_ rest); [| reflexivity].
        by rewrite List.filter_app, app_assoc.
      + reflexivity.
      + rewrite Hchild. destruct (accessible (UnsearchableDirectory names));
          [| reflexivity].
        rewrite IHrest. cbn [andb regular_files app List.filter].
        destruct (_ rest); [| reflexivity]. by rewrite app_nil_r.
      + rewrite IHrest. reflexivity. }
  exact (Hscan []).
Qed.

Lemma gather_files_flat path entries : forall files,
  (fix scan (entries : list (pystr * node)) (files : list pystr)
     : app_result (list pystr) :=
     match entries with
     | [] => Done files
     | (name, child) :: rest =>
         let p := path_join path name in
         match child with
         | RegularFile =>
             scan rest (if is_some (detect_type p) then files ++ [p] else files)
         | Directory _ | UnreadableDirectory | UnsearchableDirectory _ =>
             scan rest files
         | OtherNode => scan rest files
         end
     end) entries files
  = Done (files ++ List.filter supported (direct_files path entries)).
Proof.
  induction entries as [| [name child] rest IH]; intros files.
  - unfold direct_files. cbn [flat_map List.filter]. by rewrite app_nil_r.
  - cbv zeta. unfold direct_files in *. cbn [flat_map].
    destruct child as [| sub | | names |]; rewrite IH; cbn [app List.filter];
      try reflexivity.
    unfold supported at 2.
    destruct (is_some (detect_type (path_join path name)));
      by rewrite <- ?app_assoc.
Qed.

(** X14: what [gather_files] collects. A path that is a regular file is
    returned as it is, whatever its kind. A directory that can be read and
    searched gives the entries that are regular files of a supported kind,
    in the order of [iterdir]; with [recursive] it gives all such files of
    the tree below it, each subdirectory in full at the place of its entry,
    unless a directory of that tree cannot be read, or cannot be searched
    and is not empty: then the scan raises [PermissionError]. So does the
    scan of a path that is itself such a directory, with or without
    [recursive]. *)
Theorem gather_files_collects_supported_files (path : pystr)
    (entries : list (pystr * node)) (names : list pystr) (recursive : bool) :
  gather_files path RegularFile recursive = Done [path] /\
  gather_files path (Directory entries) false
  = Done (List.filter supported (direct_files path entries)) /\
  gather_files path (Directory entries) true
  = (if accessible (Directory entries)
     then Done (List.filter supported (regular_files path (Directory entries)))
     else Fail PermissionError) /\
  gather_files path UnreadableDirectory recursive = Fail PermissionError /\
  gather_files path (UnsearchableDirectory names) recursive
  = (if is_nil names then Done [] else Fail PermissionError).
Proof.
  split; [reflexivity |]. split; [| split; [| split]].
  - cbn [gather_files]. exact (gather_files_flat path entries []).
  - exact (gather_files_recursive (Directory entries) path).
  - reflexivity.
  - by destruct names.
Qed.

(** A recursive scan of a directory that holds a supported file, a
    subdirectory with another one, and a subdirectory that cannot be read:
    the flat scan returns the first file, the recursive one raises. *)
Lemma gather_files_collects_supported_files_witness :
  let entries := [(py "a.pdf", RegularFile);
                  (py "sub", Directory [(py "b.png", RegularFile);
                                        (py "notes.txt", RegularFile)]);
                  (py "locked", UnreadableDirectory)] in
  gather_files (py "in") (Directory entries) false = Done [py "in/a.pdf"] /\
  gather_files (py "in") (Directory entries) true = Fail PermissionError /\
  gather_files (py "in") (Directory (firstn 2 entries)) true
  = Done [py "in/a.pdf"; py "in/sub/b.png"].
Proof.
  intros entries.
  destruct (gather_files_collects_supported_files (py "in") entries [] true)
    as (_ & Hflat & Hrec & _).
  destruct (gather_files_collects_supported_files (py "in") (firstn 2 entries) []
              true) as (_ & _ & Hrec2 & _).
  split; [rewrite Hflat; vm_compute; reflexivity |].
  split; [rewrite Hrec; vm_compute; reflexivity |].
  rewrite Hrec2. vm_compute. reflexivity.
Defined.

(** ** image_handler.py: [process_image] *)

Lemma app_bind_done {A B} (c : App A) (k : A -> App B) s a s' :
  c s = (Done a, s') -> app_bind c k s = k a s'.
Proof. unfold app_bind. by intros ->. Qed.

Lemma app_bind_fail {A B} (c : App A) (k : A -> App B) s e s' :
  c s = (Fail e, s') -> app_bind c k s = (Fail e, s').
Proof. unfold app_bind. by intros ->. Qed.

Lemma run_handler_ok {A} (c : M A) s a w' :
  c (disk s) = (Ok a, w') ->
  run_handler c s = (Done a, {| disk := w'; console := console s |}).
Proof. unfold run_handler. by intros ->. Qed.

Lemma run_handler_raise {A} (c : M A) s e w' :
  c (disk s) = (Raise e, w') ->
  run_handler c s = (Fail (Raised e), {| disk := w'; console := console s |}).
Proof. unfold run_handler. by intros ->. Qed.

Lemma extract_boxes_at_run ocr image_path query i data w :
  fs w !! image_path = Some (PngFile i) ->
  ocr (as_rgb i) = Ok data ->
  let w2 := {| heap := (heap w ++ [i]) ++ [as_rgb i]; fs := fs w;
               stdout := stdout w |} in
  extract_boxes_at ocr image_path query w
  = (Ok (S (length (heap w)), extract_boxes data query), w2) /\
  heap w2 !! S (length (heap w)) = Some (as_rgb i).
Proof.
  intros Hfile Hocr w2.
  assert (Hi : heap w2 !! S (length (heap w)) = Some (as_rgb i)).
  { cbn [heap w2]. rewrite lookup_app_r by (rewrite length_app; simpl; lia).
    rewrite length_app. simpl.
    by replace (S (length (heap w)) - (length (heap w) + 1))%nat with 0%nat by lia. }
  split; [| exact Hi].
  assert (Hopen : image_open image_path w
                  = (Ok (length (heap w)),
                     {| heap := heap w ++ [i]; fs := fs w; stdout := stdout w |})).
  { unfold image_open. by rewrite Hfile. }
  assert (Hconv : convert_rgb (length (heap w))
                    {| heap := heap w ++ [i]; fs := fs w; stdout := stdout w |}
                  = (Ok (S (length (heap w))), w2)).
  { unfold convert_rgb, deref, alloc, bind. cbn [heap fs stdout].
    rewrite nth_middle, length_app. cbn [length]. by rewrite Nat.add_1_r. }
  assert (Hderef : deref (S (length (heap w))) w2 = (Ok (as_rgb i), w2)).
  { unfold deref. f_equal. f_equal. by apply nth_lookup_blank. }
  unfold extract_boxes_at.
  rewrite (bind_ok _ _ _ _ _ Hopen), (bind_ok _ _ _ _ _ Hconv),
    (bind_ok _ _ _ _ _ Hderef).
  unfold bind, lift, ret. by rewrite Hocr.
Qed.

(** X15: [process_image] on a picture that exists and that OCR reads. When
    the drawing accepts the outline colour and the box of every matching
    row, it saves the picture in RGB with one outline loop per matching row
    as [<stem>_annot.png], builds a combined file of exactly one page
    holding that same picture, and returns the two paths; a picture without
    any match is saved all the same, unchanged. When the stroke width is
    positive and the drawing refuses the box of the first matching row or
    the colour, [process_image] raises that exception and writes no file.
    On a path that does not exist it raises [FileNotFoundError] before
    writing or printing anything. *)
Theorem process_image_outcome (E : env) (ocr : image -> result (list ocr_entry))
    (image_path query out_dir stroke_color : pystr) (outline_width : Z)
    (s : session) :
  let out_img := path_join out_dir (path_stem image_path ++ py "_annot.png") in
  let combined := path_join out_dir (py "annotated_combined.pdf") in
  (fs (disk s) !! image_path = None ->
   process_image E ocr image_path query out_dir stroke_color outline_width s
   = (Fail (Raised FileNotFoundError), s)) /\
  (forall i data box rest e,
     fs (disk s) !! image_path = Some (PngFile i) ->
     ocr (as_rgb i) = Ok data ->
     extract_boxes data query = box :: rest ->
     (0 < outline_width)%Z ->
     rectangle_raises E stroke_color box = Some e ->
     exists s',
       process_image E ocr image_path query out_dir stroke_color outline_width s
       = (Fail (Raised e), s') /\
       fs (disk s') = fs (disk s)) /\
  (forall i data,
     fs (disk s) !! image_path = Some (PngFile i) ->
     ocr (as_rgb i) = Ok data ->
     Forall (fun box => accepted E stroke_color outline_width box = true)
            (extract_boxes data query) ->
     let annotated :=
       paint_all (flat_map (box_outlines stroke_color outline_width)
                           (extract_boxes data query))
                 (as_rgb i) in
     exists heap',
       process_image E ocr image_path query out_dir stroke_color outline_width s
       = (Done (out_img, combined),
          {| disk := {| heap := heap';
                        fs := <[combined := PdfFile [annotated]]>
                                (<[out_img := PngFile annotated]> (fs (disk s)));
                        stdout := stdout (disk s) |};
             console := console s
                        ++ [ImgInput image_path; ImgQuery query;
                            ImgOutputDir out_dir;
                            ImgMatchesFound (length (extract_boxes data query));
                            ImgSaved out_img; ImgCombinedSaved combined] |}) /\
       (extract_boxes data query = [] -> annotated = as_rgb i)).
Proof.
  intros out_img combined.
  assert (Hstart : forall i data,
    fs (disk s) !! image_path = Some (PngFile i) ->
    ocr (as_rgb i) = Ok data ->
    let w2 := {| heap := (heap (disk s) ++ [i]) ++ [as_rgb i]; fs := fs (disk s);
                 stdout := stdout (disk s) |} in
    let boxes := extract_boxes data query in
    heap w2 !! S (length (heap (disk s))) = Some (as_rgb i) /\
    process_image E ocr image_path query out_dir stroke_color outline_width s
    = (_ <~ run_handler (draw_boxes E (S (length (heap (disk s)))) boxes out_img
                           stroke_color outline_width) ;;
       _ <~ say (ImgSaved out_img) ;;
       _ <~ run_handler (images_to_pdf [out_img] combined) ;;
       _ <~ say (ImgCombinedSaved combined) ;;
       app_ret (out_img, combined))
        {| disk := w2;
           console := console s
                      ++ [ImgInput image_path; ImgQuery query; ImgOutputDir out_dir;
                          ImgMatchesFound (length boxes)] |}).
  { intros i data Hfile Hocr w2 boxes.
    destruct (extract_boxes_at_run ocr image_path query i data (disk s) Hfile Hocr)
      as [Hextract Hi].
    split; [exact Hi |].
    assert (Hexists : path_exists image_path s = (Done true, s)).
    { unfold path_exists. by rewrite Hfile. }
    unfold process_image. rewrite (app_bind_done _ _ _ _ _ Hexists).
    cbv beta. cbn [negb]. fold out_img combined.
    do 3 (erewrite app_bind_done by reflexivity).
    erewrite app_bind_done by (apply run_handler_ok; cbn [disk]; exact Hextract).
    cbv beta iota zeta.
    erewrite app_bind_done by reflexivity.
    cbn [disk console]. f_equal. f_equal. by rewrite <- !app_assoc. }
  split; [| split].
  - intros Hnone. unfold process_image, app_bind, path_exists. rewrite Hnone.
    reflexivity.
  - intros i data box rest e Hfile Hocr Hboxes HW Hbox.
    destruct (Hstart i data Hfile Hocr) as [_ Hrun]. rewrite Hrun, Hboxes.
    eexists. split.
    + apply app_bind_fail, run_handler_raise. cbn [disk].
      unfold draw_boxes. cbn [for_each].
      by apply bind_raise, bind_raise, outline_passes_refused.
    + reflexivity.
  - intros i data Hfile Hocr Haccepted annotated.
    destruct (Hstart i data Hfile Hocr) as [Hi Hrun]. rewrite Hrun. clear Hrun.
    set (boxes := extract_boxes data query) in *.
    set (w := disk s) in *.
    set (w2 := {| heap := (heap w ++ [i]) ++ [as_rgb i]; fs := fs w;
                  stdout := stdout w |}) in *.
    pose proof (draw_boxes_run E (S (length (heap w))) (as_rgb i) boxes out_img
                  stroke_color outline_width w2 Hi Haccepted) as Hdraw.
    fold annotated in Hdraw.
    set (w3 := fallback_saved (S (length (heap w)))
                 (flat_map (box_outlines stroke_color outline_width) boxes)
                 out_img w2) in *.
    assert (Hsaved : fs w3 = <[out_img := PngFile annotated]> (fs w)).
    { unfold w3, fallback_saved. cbn [fs w2].
      by rewrite (nth_lookup_blank _ _ _ Hi). }
    destruct (images_to_pdf_run [out_img] combined w3) as [h' Hpdf].
    { repeat constructor. exists annotated. rewrite Hsaved. apply lookup_insert_eq. }
    { discriminate. }
    exists (heap w3 ++ h'). split.
    + erewrite app_bind_done by (apply run_handler_ok; cbn [disk]; exact Hdraw).
      erewrite app_bind_done by reflexivity.
      erewrite app_bind_done by (apply run_handler_ok; cbn [disk]; exact Hpdf).
      erewrite app_bind_done by reflexivity.
      unfold app_ret. cbn [console disk]. rewrite Hsaved. do 2 f_equal.
      * do 2 f_equal. cbn [fmap list_fmap]. unfold png_at.
        rewrite Hsaved, lookup_insert_eq. reflexivity.
      * by rewrite <- !app_assoc.
    + intros Hnil. unfold annotated. rewrite Hnil. cbn [flat_map].
      apply paint_all_nil.
Qed.

(** A picture on which OCR reads one word: outlined in red it is saved
    and combined; in a colour that Pillow does not know the drawing raises
    and no file is written. *)
Lemma process_image_outcome_witness :
  let ocr := fun _ : image =>
    Ok [ {| o_text := py "Report"; o_left := 10; o_top := 20; o_width := 50;
            o_height := 12 |} ] in
  let s := {| disk := {| heap := []; fs := {[ py "in/pic.png" := PngFile blank ]};
                         stdout := [] |};
              console := [] |} in
  (exists s',
     process_image (scenario_env false) ocr (py "in/pic.png") (py "report")
                   (py "out") (py "red") 2 s
     = (Done (py "out/pic_annot.png", py "out/annotated_combined.pdf"), s')) /\
  (exists s',
     process_image (scenario_env false) ocr (py "in/pic.png") (py "report")
                   (py "out") (py "notacolor") 2 s
     = (Fail (Raised ValueError), s') /\
     fs (disk s') = fs (disk s)).
Proof.
  intros ocr s.
  set (data := [ {| o_text := py "Report"; o_left := 10; o_top := 20;
                    o_width := 50; o_height := 12 |} ]).
  assert (Hfile : fs (disk s) !! py "in/pic.png" = Some (PngFile blank))
    by (vm_compute; reflexivity).
  assert (Hboxes : extract_boxes data (py "report") = [(10, 20, 60, 32)%Z])
    by (vm_compute; reflexivity).
  split.
  - destruct (proj2 (proj2 (process_image_outcome (scenario_env false) ocr
                              (py "in/pic.png") (py "report") (py "out") (py "red")
                              2 s))
                blank data Hfile eq_refl) as (heap' & Hrun & _).
    + rewrite Hboxes. repeat constructor.
    + eexists. exact Hrun.
  - exact (proj1 (proj2 (process_image_outcome (scenario_env false) ocr
                           (py "in/pic.png") (py "report") (py "out")
                           (py "notacolor") 2 s))
             blank data (10, 20, 60, 32)%Z [] ValueError Hfile eq_refl Hboxes
             eq_refl eq_refl).
Defined.

(** ** app.py: [process_single_file] *)

Lemma supported_kinds key t :
  str_dict_get SUPPORTED_EXTENSIONS key = Some t ->
  t = py "pdf" \/ t = py "docx" \/ t = py "excel" \/ t = py "image".
Proof.
  unfold SUPPORTED_EXTENSIONS. cbn [str_dict_get].
  repeat (destruct (pystr_eqb _ key); [intros [= <-]; tauto |]).
  discriminate.
Qed.

Lemma process_single_file_dispatch (H : handlers) (file_path query outdir : pystr)
    (o : opts) (s : session) :
  match detect_type file_path with
  | None =>
      process_single_file H file_path query outdir o s
      = (Fail (RuntimeError (UnsupportedExtension (path_suffix file_path))), s)
  | Some ftype =>
      exists run,
        str_dict_get (DISPATCH H) ftype = Some run /\
        In (ftype, run) (DISPATCH H) /\
        process_single_file H file_path query outdir o s
        = (result <~ run file_path query (path_join outdir (path_stem file_path)) o ;;
           app_ret (result, path_join outdir (path_stem file_path))) s
  end.
Proof.
  unfold process_single_file.
  destruct (detect_type file_path) as [ftype |] eqn:Hkind; [| reflexivity].
  unfold detect_type in Hkind.
  destruct (supported_kinds _ _ Hkind) as [-> | [-> | [-> | ->]]];
    eexists; (split; [reflexivity |]); (split; [| reflexivity]);
    unfold DISPATCH; simpl; tauto.
Qed.

(** X16: every kind [detect_type] can return has its runner. On a file of
    no supported kind [process_single_file] raises [RuntimeError] for the
    extension and does nothing else; on any other file it hands the file to
    the runner [DISPATCH] holds for its kind, with the output directory
    [outdir / stem]. The error for a kind without runner cannot occur. *)
Theorem every_kind_has_a_runner (H : handlers) (file_path query outdir : pystr)
    (o : opts) (s : session) :
  match detect_type file_path with
  | None =>
      process_single_file H file_path query outdir o s
      = (Fail (RuntimeError (UnsupportedExtension (path_suffix file_path))), s)
  | Some ftype =>
      exists run,
        str_dict_get (DISPATCH H) ftype = Some run /\
        process_single_file H file_path query outdir o s
        = (result <~ run file_path query (path_join outdir (path_stem file_path)) o ;;
           app_ret (result, path_join outdir (path_stem file_path))) s
  end.
Proof.
  pose proof (process_single_file_dispatch H file_path query outdir o s) as Hrun.
  destruct (detect_type file_path); [| exact Hrun].
  destruct Hrun as (run & Hget & _ & Hrun). by exists run.
Qed.

(** ** app.py: the loop of [main] over the files *)

Lemma say_each {A} (g : A -> console_line) l : forall s,
  app_for_each l (fun x => say (g x)) s
  = (Done tt, {| disk := disk s; console := console s ++ (g <$> l) |}).
Proof.
  induction l as [| x l IH]; intros s.
  - cbn [app_for_each fmap list_fmap]. unfold app_ret. rewrite app_nil_r.
    by destruct s.
  - cbn [app_for_each]. erewrite app_bind_done by reflexivity.
    rewrite IH. cbn [disk console fmap list_fmap]. by rewrite <- app_assoc.
Qed.

Lemma runner_fails_with_exception H ftype run path query outdir o s e s' :
  fail_with_exceptions H ->
  In (ftype, run) (DISPATCH H) ->
  run path query outdir o s = (Fail e, s') ->
  is_exception e = true.
Proof.
  intros (Hpdf & Hdocx & Hexcel & Himage) Hin Hfail.
  unfold DISPATCH in Hin. cbn [In] in Hin.
  destruct Hin as [[= _ <-] | [[= _ <-] | [[= _ <-] | [[= _ <-] | []]]]];
    destruct o as [[r |] [ol |] [c |] [f |] [fs |]];
    cbn in Hfail; try (injection Hfail as <- _; reflexivity);
    unfold app_bind in Hfail.
  - destruct (h_annotate_pdf H path query outdir r ol c true f s)
      as [[[pgs comb] | x] s1] eqn:Hh; [discriminate |].
    injection Hfail as <- _. by eapply Hpdf.
  - destruct (h_process_word_file H path query outdir r ol c f true s)
      as [[[pgs comb] | x] s1] eqn:Hh; [discriminate |].
    injection Hfail as <- _. by eapply Hdocx.
  - destruct (h_process_excel_file H path query outdir c ol fs s)
      as [[[[images comb] annotated] | x] s1] eqn:Hh; [discriminate |].
    injection Hfail as <- _. by eapply Hexcel.
  - destruct (h_process_image H path query outdir c ol s)
      as [[[img comb] | x] s1] eqn:Hh; [discriminate |].
    injection Hfail as <- _. by eapply Himage.
Qed.

Lemma process_single_file_fails H file_path query outdir o s e s' :
  fail_with_exceptions H ->
  process_single_file H file_path query outdir o s = (Fail e, s') ->
  is_exception e = true.
Proof.
  intros HH Hfail.
  pose proof (process_single_file_dispatch H file_path query outdir o s) as Hrun.
  destruct (detect_type file_path) as [ftype |].
  - destruct Hrun as (run & _ & Hin & Hrun). rewrite Hrun in Hfail.
    unfold app_bind in Hfail.
    destruct (run file_path query (path_join outdir (path_stem file_path)) o s)
      as [[r | x] s1] eqn:Hr; [discriminate |].
    injection Hfail as <- _.
    by eapply (runner_fails_with_exception H ftype run).
  - rewrite Hrun in Hfail. by injection Hfail as <- _.
Qed.

Section MainLoop.

Variable H : handlers.
Variable message : app_exn -> pystr.
Variables (query outdir : pystr) (resolution outline : Z) (color : pystr).
Variables (force_render : bool) (font_size : Z).
Hypothesis HH : fail_with_exceptions H.

Local Abbreviation step :=
  (process_listed_file H message query outdir resolution outline color
                       force_render font_size).

(** One file: whatever happens to it, one item is appended. *)
Lemma process_listed_file_run overall f s :
  exists item s',
    step overall f s = (Done (overall ++ [item]), s') /\
    item_file item = f /\
    (silent_failure item = true ->
     exists e, is_exception e = true /\ message e = []).
Proof.
  unfold process_listed_file.
  do 2 (erewrite app_bind_done by reflexivity).
  set (s1 := {| disk := disk s;
                console := (console s ++ [RunnerSeparator])
                           ++ [RunnerProcessing (name_of_path f) f] |}).
  unfold app_try. cbv zeta.
  set (o := runner_opts (detect_type f) resolution outline color force_render
              font_size).
  destruct (process_single_file H f query outdir o s1) as [[[result subdir] | e] s2]
    eqn:Hrun.
  - rewrite (app_bind_done _ _ _ _ _ Hrun). cbv beta iota.
    erewrite app_bind_done by reflexivity.
    match goal with |- context [app_bind (if is_nil (pages result) then ?a else ?b) ?k ?s0] =>
      assert (Hpages : exists s3, (if is_nil (pages result) then a else b) s0 = (Done tt, s3))
    end.
    { destruct (is_nil (pages result)); [by eexists |].
      erewrite app_bind_done by reflexivity. rewrite say_each. by eexists. }
    destruct Hpages as [s3 Hpages]. rewrite (app_bind_done _ _ _ _ _ Hpages).
    match goal with |- context [app_bind (if str_truthy (combined result) then ?a else ?b) ?k ?s0] =>
      assert (Hcomb : exists s4, (if str_truthy (combined result) then a else b) s0
                                 = (Done tt, s4))
    end.
    { destruct (str_truthy (combined result)); by eexists. }
    destruct Hcomb as [s4 Hcomb]. rewrite (app_bind_done _ _ _ _ _ Hcomb).
    match goal with |- context [app_bind (if str_truthy (annotated_xlsx result) then ?a else ?b) ?k ?s0] =>
      assert (Hxl : exists s5, (if str_truthy (annotated_xlsx result) then a else b) s0
                               = (Done tt, s5))
    end.
    { destruct (str_truthy (annotated_xlsx result)); by eexists. }
    destruct Hxl as [s5 Hxl]. rewrite (app_bind_done _ _ _ _ _ Hxl).
    eexists _, _. split; [reflexivity |]. split; [reflexivity | discriminate].
  - rewrite (app_bind_fail _ _ _ _ _ Hrun).
    pose proof (process_single_file_fails H f query outdir o s1 e s2 HH Hrun) as He.
    rewrite He. do 2 (erewrite app_bind_done by reflexivity).
    eexists _, _. split; [reflexivity |]. split; [reflexivity |].
    cbn [silent_failure]. intros Hsilent. exists e. split; [exact He |].
    by destruct (message e).
Qed.

Lemma files_loop_run files : forall overall s,
  exists items s',
    app_for_fold files step overall s = (Done (overall ++ items), s') /\
    item_file <$> items = files /\
    Forall (fun item => silent_failure item = true ->
                        exists e, is_exception e = true /\ message e = []) items.
Proof.
  induction files as [| f files IH]; intros overall s.
  - exists [], s. rewrite app_nil_r. by repeat split.
  - destruct (process_listed_file_run overall f s) as (item & s1 & Hstep & Hfile & Hsilent).
    destruct (IH (overall ++ [item]) s1) as (items & s' & Hrest & Hfiles & Hall).
    exists (item :: items), s'. cbn [app_for_fold].
    rewrite (app_bind_done _ _ _ _ _ Hstep), Hrest, <- app_assoc.
    split; [reflexivity |]. split.
    + cbn [fmap list_fmap]. by rewrite Hfile, Hfiles.
    + by constructor.
Qed.

Lemma summary_run overall : forall s,
  exists s',
    app_for_each overall summarize_item s
    = (if existsb silent_failure overall then Fail KeyErrorResult else Done tt, s').
Proof.
  induction overall as [| item overall IH]; intros s; [by exists s |].
  cbn [app_for_each existsb].
  destruct item as [file dir r | file [| c msg]]; cbn [silent_failure orb].
  - assert (Hitem : exists s1, summarize_item (ItemResult file dir r) s = (Done tt, s1)).
    { unfold summarize_item. erewrite app_bind_done by reflexivity.
      destruct (str_truthy (combined r)); erewrite app_bind_done by reflexivity;
        destruct (is_nil (pages r)); by eexists. }
    destruct Hitem as [s1 Hitem]. rewrite (app_bind_done _ _ _ _ _ Hitem).
    apply IH.
  - exists s. reflexivity.
  - erewrite app_bind_done by reflexivity. apply IH.
Qed.

End MainLoop.

(** X17: [main] deals with the files one by one, and a file that fails does
    not stop the others. For handlers that fail with exceptions, the loop
    never raises: it leaves exactly one item per file, in the order of the
    files, a result or an error. If moreover every exception has a
    non-empty message, [main] returns 0 whenever it found a file, even if
    every file failed; without any file it exits with status 2. *)
Theorem main_contains_file_failures (H : handlers) (message : app_exn -> pystr)
    (query outdir : pystr) (resolution outline : Z) (color : pystr)
    (force_render : bool) (font_size : Z) (path_obj : pystr) (n : node)
    (recursive open_after : bool) (files : list pystr) (s : session) :
  fail_with_exceptions H ->
  gather_files path_obj n recursive = Done files ->
  (exists overall s',
     app_for_fold files
       (process_listed_file H message query outdir resolution outline color
                            force_render font_size) [] s
     = (Done overall, s') /\
     item_file <$> overall = files) /\
  (files = [] ->
   main H message query outdir resolution outline color force_render font_size
        path_obj (Some n) recursive open_after s
   = (Fail (SystemExit 2),
      {| disk := disk s; console := console s ++ [RunnerNoFiles path_obj] |})) /\
  (files <> [] ->
   (forall e, is_exception e = true -> message e <> []) ->
   exists s',
     main H message query outdir resolution outline color force_render font_size
          path_obj (Some n) recursive open_after s
     = (Done 0%Z, s')).
Proof.
  intros HH Hfiles. split; [| split].
  - destruct (files_loop_run H message query outdir resolution outline color
                force_render font_size HH files [] s)
      as (items & s' & Hloop & Hitems & _).
    by exists items, s'.
  - intros ->. unfold main, gather_files_at.
    erewrite app_bind_done by (rewrite Hfiles; reflexivity).
    cbn [is_nil]. erewrite app_bind_done by reflexivity. reflexivity.
  - intros Hne Hmsg. unfold main, gather_files_at.
    erewrite app_bind_done by (rewrite Hfiles; reflexivity).
    destruct files as [| f files]; [done |]. cbn [is_nil].
    destruct (files_loop_run H message query outdir resolution outline color
                force_render font_size HH (f :: files) [] s)
      as (items & s1 & Hloop & _ & Hsilent).
    rewrite (app_bind_done _ _ _ _ _ Hloop). cbn [app].
    do 2 (erewrite app_bind_done by reflexivity).
    match goal with |- context [app_bind (app_for_each items _) _ ?s0] =>
      destruct (summary_run items s0) as [s2 Hsummary] end.
    assert (Hquiet : existsb silent_failure items = false).
    { apply not_true_is_false. intros Hex. apply existsb_exists in Hex as (item & Hin & Hitem).
      rewrite Forall_forall in Hsilent.
      destruct (Hsilent item (proj2 (list_elem_of_In _ _) Hin) Hitem) as (e & He & Hempty).
      by apply (Hmsg e He). }
    rewrite Hquiet in Hsummary. rewrite (app_bind_done _ _ _ _ _ Hsummary).
    erewrite app_bind_done by reflexivity. by eexists.
Qed.

Lemma run_handler_fails {A} (c : M A) s x s' :
  run_handler c s = (Fail x, s') -> is_exception x = true.
Proof.
  unfold run_handler. destruct (c (disk s)) as [[a | e] w']; [discriminate |].
  by intros [= <- _].
Qed.

Lemma app_bind_fails {A B} (c : App A) (k : A -> App B) s x s' :
  app_bind c k s = (Fail x, s') ->
  c s = (Fail x, s') \/ exists a s1, c s = (Done a, s1) /\ k a s1 = (Fail x, s').
Proof.
  unfold app_bind. destruct (c s) as [[a | e] s1]; intros Hk.
  - right. exists a, s1. split; [reflexivity | exact Hk].
  - left. by injection Hk as -> ->.
Qed.

Lemma process_image_fails E ocr image_path query out_dir color outline s x s' :
  process_image E ocr image_path query out_dir color outline s = (Fail x, s') ->
  is_exception x = true.
Proof.
  unfold process_image. intros Hfail.
  apply app_bind_fails in Hfail as [Hfail | (found & s1 & _ & Hfail)];
    [discriminate |].
  destruct (negb found); [by injection Hfail as <- _ |].
  do 3 (apply app_bind_fails in Hfail as [Hfail | (? & ? & _ & Hfail)];
        [discriminate |]).
  apply app_bind_fails in Hfail as [Hfail | ([img boxes] & ? & _ & Hfail)];
    [by apply run_handler_fails in Hfail |].
  apply app_bind_fails in Hfail as [Hfail | (? & ? & _ & Hfail)]; [discriminate |].
  apply app_bind_fails in Hfail as [Hfail | (? & ? & _ & Hfail)];
    [by apply run_handler_fails in Hfail |].
  apply app_bind_fails in Hfail as [Hfail | (? & ? & _ & Hfail)]; [discriminate |].
  apply app_bind_fails in Hfail as [Hfail | (? & ? & _ & Hfail)];
    [by apply run_handler_fails in Hfail |].
  apply app_bind_fails in Hfail as [Hfail | (? & ? & _ & Hfail)]; discriminate.
Qed.

Lemma scenario_handlers_fail_with_exceptions :
  fail_with_exceptions scenario_handlers.
Proof.
  unfold fail_with_exceptions, scenario_handlers.
  cbn [h_annotate_pdf h_process_word_file h_process_excel_file h_process_image].
  split; [| split; [| split]].
  - intros a b c d e f g h s x s' Hfail. exact (run_handler_fails _ _ _ _ Hfail).
  - intros a b c d e f g h s x s' [= <- _]. reflexivity.
  - intros a b c d e f s x s' Hfail. exact (run_handler_fails _ _ _ _ Hfail).
  - intros a b c d e s x s' Hfail. exact (process_image_fails _ _ _ _ _ _ _ _ _ _ Hfail).
Qed.

Lemma main_contains_file_failures_witness :
  let tree := Directory [(py "a.pdf", RegularFile); (py "notes.txt", RegularFile);
                         (py "b.docx", RegularFile)] in
  exists s',
    main scenario_handlers (fun _ => py "failed") (py "report") (py "out") 150 3
         (py "red") false 14 (py "in") (Some tree) false false empty_session
    = (Done 0%Z, s').
Proof.
  intros tree.
  refine (proj2 (proj2 (main_contains_file_failures scenario_handlers
            (fun _ => py "failed") (py "report") (py "out") 150 3 (py "red") false 14
            (py "in") tree false false [py "in/a.pdf"; py "in/b.docx"] empty_session
            scenario_handlers_fail_with_exceptions _)) _ _).
  - vm_compute. reflexivity.
  - discriminate.
  - intros e _. discriminate.
Defined.

(** X18: a failure whose message is empty breaks the summary. When the
    only file fails with an exception [e] for which [str(e)] is empty, the
    item recorded for it counts as a success in the summary loop, which
    looks up its missing result: [main] raises [KeyError] after having
    printed the headings of the summary. *)
Theorem silent_failure_breaks_the_summary (H : handlers)
    (message : app_exn -> pystr) (query outdir : pystr) (resolution outline : Z)
    (color : pystr) (force_render : bool) (font_size : Z) (path : pystr)
    (recursive open_after : bool) (e : app_exn) (s s2 : session) :
  let o := runner_opts (detect_type path) resolution outline color force_render
             font_size in
  let s1 := {| disk := disk s;
               console := console s
                          ++ [RunnerSeparator;
                              RunnerProcessing (name_of_path path) path] |} in
  process_single_file H path query outdir o s1 = (Fail e, s2) ->
  is_exception e = true ->
  message e = [] ->
  main H message query outdir resolution outline color force_render font_size
       path (Some RegularFile) recursive open_after s
  = (Fail KeyErrorResult,
     {| disk := disk s2;
        console := console s2
                   ++ [RunnerError (name_of_path path) []; RunnerTraceback e;
                       RunnerSeparator; RunnerSummary] |}).
Proof.
  intros o s1 Hfail He Hmsg.
  assert (Hs1 : {| disk := disk s;
                   console := (console s ++ [RunnerSeparator])
                              ++ [RunnerProcessing (name_of_path path) path] |}
                = s1).
  { unfold s1. by rewrite <- app_assoc. }
  assert (Hstep :
    process_listed_file H message query outdir resolution outline color
                        force_render font_size [] path s
    = (Done [ItemError path []],
       {| disk := disk s2;
          console := (console s2 ++ [RunnerError (name_of_path path) []])
                     ++ [RunnerTraceback e] |})).
  { unfold process_listed_file.
    do 2 (erewrite app_bind_done by reflexivity).
    cbn [disk console]. rewrite Hs1.
    unfold app_try. cbv zeta. fold o.
    rewrite (app_bind_fail _ _ _ _ _ Hfail), He, Hmsg.
    do 2 (erewrite app_bind_done by reflexivity). reflexivity. }
  unfold main, gather_files_at.
  erewrite app_bind_done by reflexivity. cbn [is_nil app_for_fold].
  erewrite app_bind_done
    by (erewrite app_bind_done by exact Hstep; reflexivity).
  do 2 (erewrite app_bind_done by reflexivity).
  cbn [app_for_each summarize_item]. unfold app_bind, app_raise.
  cbn [disk console]. by rewrite <- !app_assoc.
Qed.

Lemma silent_failure_breaks_the_summary_witness :
  let H := {| h_annotate_pdf := fun _ _ _ _ _ _ _ _ => app_raise (Raised (LibraryError 7));
              h_process_word_file := fun _ _ _ _ _ _ _ _ =>
                app_raise (Raised FileNotFoundError);
              h_process_excel_file := fun _ _ _ _ _ _ =>
                app_raise (Raised FileNotFoundError);
              h_process_image := fun _ _ _ _ _ => app_raise (Raised FileNotFoundError) |} in
  fst (main H (fun _ => []) (py "report") (py "out") 150 3 (py "red") false 14
            (py "in/a.pdf") (Some RegularFile) false false empty_session)
  = Fail KeyErrorResult.
Proof.
  intros H.
  rewrite (silent_failure_breaks_the_summary H (fun _ => []) (py "report") (py "out")
             150 3 (py "red") false 14 (py "in/a.pdf") false false
             (Raised (LibraryError 7)) empty_session
             {| disk := empty_world;
                console := [RunnerSeparator;
                            RunnerProcessing (py "a.pdf") (py "in/a.pdf")] |}
             eq_refl eq_refl eq_refl).
  reflexivity.
Defined.

(** ** app.py: the options [main] hands to a runner *)

(** X19: the keyword arguments [main] builds for a file always fit the
    runner of its kind, so no [TypeError] comes from the call itself. A
    PDF or Word file reaches its handler with the resolution, the outline
    width, the colour and [force_render] of the command line, a workbook
    with the colour, the outline width and the font size, a picture with
    the colour and the outline width; each with [outdir / stem] as its
    output directory. *)
Theorem main_options_fit_the_runner (H : handlers) (file query outdir : pystr)
    (resolution outline : Z) (color : pystr) (force_render : bool) (font_size : Z)
    (ftype : pystr) (s : session) :
  detect_type file = Some ftype ->
  let subdir := path_join outdir (path_stem file) in
  process_single_file H file query outdir
    (runner_opts (detect_type file) resolution outline color force_render font_size)
    s
  = (r <~ handler_call H ftype file query subdir resolution outline color
            force_render font_size ;;
     app_ret (r, subdir)) s.
Proof.
  intros Hkind subdir. unfold process_single_file. rewrite Hkind.
  unfold detect_type in Hkind.
  destruct (supported_kinds _ _ Hkind) as [-> | [-> | [-> | ->]]].
  - replace (str_truthy (Some (py "pdf"))) with true by reflexivity.
    cbn [negb default]. unfold id.
    replace (str_dict_get (DISPATCH H) (py "pdf")) with (Some (dispatch_run_pdf H))
      by reflexivity.
    replace (runner_opts (Some (py "pdf")) resolution outline color force_render
               font_size)
      with {| opt_resolution := Some resolution; opt_outline := Some outline;
              opt_color := Some color; opt_force_render := Some force_render;
              opt_font_size := None |} by reflexivity.
    unfold handler_call.
    replace (pystr_eqb (py "pdf") (py "pdf")) with true by reflexivity.
    fold subdir. unfold dispatch_run_pdf, app_bind.
    destruct (h_annotate_pdf H file query subdir resolution outline color true
                force_render s) as [[[pgs comb] | e] s1]; reflexivity.
  - replace (str_truthy (Some (py "docx"))) with true by reflexivity.
    cbn [negb default]. unfold id.
    replace (str_dict_get (DISPATCH H) (py "docx")) with (Some (dispatch_run_docx H))
      by reflexivity.
    replace (runner_opts (Some (py "docx")) resolution outline color force_render
               font_size)
      with {| opt_resolution := Some resolution; opt_outline := Some outline;
              opt_color := Some color; opt_force_render := Some force_render;
              opt_font_size := None |} by reflexivity.
    unfold handler_call.
    replace (pystr_eqb (py "docx") (py "pdf")) with false by reflexivity.
    replace (pystr_eqb (py "docx") (py "docx")) with true by reflexivity.
    fold subdir. unfold dispatch_run_docx, app_bind.
    destruct (h_process_word_file H file query subdir resolution outline color
                force_render true s) as [[[pgs comb] | e] s1]; reflexivity.
  - replace (str_truthy (Some (py "excel"))) with true by reflexivity.
    cbn [negb default]. unfold id.
    replace (str_dict_get (DISPATCH H) (py "excel"))
      with (Some (dispatch_run_excel H)) by reflexivity.
    replace (runner_opts (Some (py "excel")) resolution outline color force_render
               font_size)
      with {| opt_resolution := None; opt_outline := Some outline;
              opt_color := Some color; opt_force_render := None;
              opt_font_size := Some font_size |} by reflexivity.
    unfold handler_call.
    replace (pystr_eqb (py "excel") (py "pdf")) with false by reflexivity.
    replace (pystr_eqb (py "excel") (py "docx")) with false by reflexivity.
    replace (pystr_eqb (py "excel") (py "excel")) with true by reflexivity.
    fold subdir. unfold dispatch_run_excel, app_bind.
    destruct (h_process_excel_file H file query subdir color outline font_size s)
      as [[[[images comb] annotated] | e] s1]; reflexivity.
  - replace (str_truthy (Some (py "image"))) with true by reflexivity.
    cbn [negb default]. unfold id.
    replace (str_dict_get (DISPATCH H) (py "image"))
      with (Some (dispatch_run_image H)) by reflexivity.
    replace (runner_opts (Some (py "image")) resolution outline color force_render
               font_size)
      with {| opt_resolution := None; opt_outline := Some outline;
              opt_color := Some color; opt_force_render := None;
              opt_font_size := None |} by reflexivity.
    unfold handler_call.
    replace (pystr_eqb (py "image") (py "pdf")) with false by reflexivity.
    replace (pystr_eqb (py "image") (py "docx")) with false by reflexivity.
    replace (pystr_eqb (py "image") (py "excel")) with false by reflexivity.
    fold subdir. unfold dispatch_run_image, app_bind.
    destruct (h_process_image H file query subdir color outline s)
      as [[[img comb] | e] s1]; reflexivity.
Qed.

Lemma main_options_fit_the_runner_witness :
  process_single_file scenario_handlers (py "in/Report.PDF") (py "report") (py "out")
    (runner_opts (detect_type (py "in/Report.PDF")) 150 3 (py "red") false 14)
    empty_session
  = (r <~ handler_call scenario_handlers (py "pdf") (py "in/Report.PDF")
            (py "report") (py "out/Report") 150 3 (py "red") false 14 ;;
     app_ret (r, py "out/Report")) empty_session.
Proof.
  exact (main_options_fit_the_runner scenario_handlers (py "in/Report.PDF")
           (py "report") (py "out") 150 3 (py "red") false 14 (py "pdf")
           empty_session eq_refl).
Defined.

(** ** excel_handler.py: matches and cell boxes *)

Lemma sheet_match_in_bounds ws query r c :
  (r, c) ∈ find_matches_in_sheet ws query ->
  (1 <= r <= max_row ws)%nat /\ (1 <= c <= max_column ws)%nat.
Proof.
  unfold find_matches_in_sheet. rewrite list_elem_of_In, in_flat_map.
  intros (r' & Hr'%in_seq & Hin). apply in_flat_map in Hin as (c' & Hc'%in_seq & Hin).
  apply list_elem_of_In, cell_match_elem in Hin as ([= -> ->] & _). lia.
Qed.

(** X20: every match of [find_matches_in_sheet] has a cell box when the
    sheet that is laid out has at least as many rows and columns as the one
    that is searched, as the two loads of one workbook have. The test
    [(r, c) not in cell_boxes] of [draw_matches_on_image] then never skips
    a match. *)
Theorem every_match_has_a_box (ws : worksheet) (query : pystr)
    (col_px row_px : list Z) (r c : nat) :
  (max_row ws <= length row_px)%nat ->
  (max_column ws <= length col_px)%nat ->
  (r, c) ∈ find_matches_in_sheet ws query ->
  place_cells col_px row_px !! (r, c)
  = Some (py_sum (take (c - 1) col_px), py_sum (take (r - 1) row_px),
          py_sum (take c col_px), py_sum (take r row_px)).
Proof.
  intros Hrows Hcols Hin.
  destruct (sheet_match_in_bounds ws query r c Hin) as [Hr Hc].
  rewrite place_cells_lookup.
  replace (1 <=? r)%nat with true by (symmetry; apply Nat.leb_le; lia).
  replace (r <=? length row_px)%nat with true by (symmetry; apply Nat.leb_le; lia).
  replace (1 <=? c)%nat with true by (symmetry; apply Nat.leb_le; lia).
  replace (c <=? length col_px)%nat with true by (symmetry; apply Nat.leb_le; lia).
  reflexivity.
Qed.

Lemma every_match_has_a_box_witness :
  let ws := {| max_row := 2; max_column := 2;
               cell_value := fun r c => if (r =? c)%nat then Some (py "Total") else None |} in
  place_cells [60; 86]%Z [30; 30]%Z !! (2%nat, 2%nat) = Some (60, 30, 146, 60)%Z.
Proof.
  intros ws.
  refine (every_match_has_a_box ws (py "total") [60; 86]%Z [30; 30]%Z 2 2 _ _ _).
  - cbn. lia.
  - cbn. lia.
  - apply list_elem_of_In. vm_compute. tauto.
Defined.

(** ** pathlib: the string of a path is in normal form *)

Lemma split_on_pieces sep s : Forall (fun x => sep ∉ x) (split_on sep s).
Proof.
  induction s as [| c s IH]; cbn [split_on].
  - repeat constructor. apply not_elem_of_nil.
  - destruct (c =? sep) eqn:E.
    + constructor; [apply not_elem_of_nil | exact IH].
    + destruct (split_on sep s) as [| piece pieces].
      * repeat constructor. apply N.eqb_neq in E.
        intros H. apply list_elem_of_singleton in H. congruence.
      * inversion IH as [| ? ? Hp Hps]; subst. constructor; [| exact Hps].
        apply N.eqb_neq in E. apply not_elem_of_cons. split; [congruence | exact Hp].
Qed.

Lemma path_components_plain p : Forall plain_component (path_components p).
Proof.
  unfold path_components.
  pose proof (split_on_pieces 47 p) as H.
  induction H as [| x l Hx Hl IH]; cbn [List.filter]; [constructor |].
  destruct (negb (is_nil x) && negb (pystr_eqb x (py "."))) eqn:E; [| exact IH].
  constructor; [| exact IH].
  apply andb_true_iff in E as [Hne Hdot]. repeat split.
  - by destruct x.
  - unfold pystr_eqb in Hdot. apply negb_true_iff, bool_decide_eq_false in Hdot.
    exact Hdot.
  - exact Hx.
Qed.

Lemma plain_component_kept x :
  plain_component x ->
  negb (is_nil x) && negb (pystr_eqb x (py ".")) = true.
Proof.
  intros (Hne & Hdot & _). apply andb_true_iff. split.
  - by destruct x.
  - unfold pystr_eqb. by rewrite bool_decide_eq_false_2.
Qed.

Lemma path_components_join parts :
  Forall plain_component parts ->
  path_components (join_components parts) = parts.
Proof.
  unfold path_components.
  induction 1 as [| x l Hx Hl IH]; [reflexivity |].
  destruct l as [| y l].
  - cbn [join_components]. destruct Hx as (Hne & Hdot & Hsep).
    rewrite (split_on_plain 47 x Hsep). cbn [List.filter].
    by rewrite (plain_component_kept x).
  - change (join_components (x :: y :: l)) with (x ++ 47 :: join_components (y :: l)).
    rewrite split_on_app, List.filter_app, IH.
    destruct Hx as (Hne & Hdot & Hsep).
    rewrite (split_on_plain 47 x Hsep). cbn [List.filter].
    by rewrite (plain_component_kept x).
Qed.

Lemma join_components_head parts :
  Forall plain_component parts ->
  leading_separators (join_components parts) = 0%nat.
Proof.
  destruct 1 as [| x l (Hne & Hdot & Hsep) Hl]; [reflexivity |].
  assert (Hx : leading_separators x = 0%nat -> forall t,
             leading_separators (x ++ t) = 0%nat).
  { destruct x as [| c x]; [done |]. cbn. by destruct (c =? 47). }
  assert (H0 : leading_separators x = 0%nat).
  { destruct x as [| c x]; [done |]. cbn.
    apply not_elem_of_cons in Hsep as [Hc _].
    by rewrite (proj2 (N.eqb_neq c 47)) by congruence. }
  destruct l; cbn [join_components].
  - exact H0.
  - by apply Hx.
Qed.

Lemma path_root_is_root p : root_of_path (path_root p).
Proof.
  unfold path_root, root_of_path.
  destruct (leading_separators p) as [| [| [| n]]]; tauto.
Qed.

Lemma path_of_normal r parts :
  root_of_path r -> Forall plain_component parts ->
  path_root (path_of r parts) = r /\ path_components (path_of r parts) = parts.
Proof.
  intros Hr Hparts. unfold path_of.
  pose proof (join_components_head parts Hparts) as Hhead.
  pose proof (path_components_join parts Hparts) as Hcomp.
  destruct Hr as [-> | [-> | ->]].
  - destruct parts as [| x l]; [by vm_compute |].
    cbn [is_nil andb app]. split; [| exact Hcomp].
    unfold path_root. by rewrite Hhead.
  - change (is_nil (py "/") && is_nil parts) with false. cbv iota.
    change (py "/" ++ join_components parts)
      with (47 :: join_components parts). split.
    + unfold path_root. cbn [leading_separators]. rewrite N.eqb_refl, Hhead.
      reflexivity.
    + unfold path_components in *. cbn [split_on]. rewrite N.eqb_refl.
      cbn [List.filter]. exact Hcomp.
  - change (is_nil (py "//") && is_nil parts) with false. cbv iota.
    change (py "//" ++ join_components parts)
      with (47 :: 47 :: join_components parts). split.
    + unfold path_root. cbn [leading_separators]. rewrite N.eqb_refl, Hhead.
      reflexivity.
    + unfold path_components in *. cbn [split_on]. rewrite N.eqb_refl.
      cbn [List.filter]. exact Hcomp.
Qed.

Lemma path_str_path_of r parts :
  root_of_path r -> Forall plain_component parts ->
  path_str (path_of r parts) = path_of r parts.
Proof.
  intros Hr Hparts. unfold path_str.
  by destruct (path_of_normal r parts Hr Hparts) as [-> ->].
Qed.

Lemma path_str_idemp p : path_str (path_str p) = path_str p.
Proof.
  apply path_str_path_of; [apply path_root_is_root | apply path_components_plain].
Qed.

Lemma path_str_div d n : path_str (path_div d n) = path_div d n.
Proof.
  unfold path_div. destruct (is_nil (path_root n)); [| apply path_str_idemp].
  apply path_str_path_of; [apply path_root_is_root |].
  apply Forall_app; split; apply path_components_plain.
Qed.

(** ** docx_handler.py: the conversion *)

Lemma path_exists_run p s :
  path_exists p s = (Done (is_some (fs (disk s) !! p)), s).
Proof. reflexivity. Qed.

Lemma try_or_false_run (c : App bool) (P : session -> Prop) s :
  (forall s', c s = (Done true, s') -> P s') ->
  (exists ok s',
     app_try c (fun _ => app_ret false) s = (Done ok, s') /\ (ok = true -> P s')) \/
  (exists e s',
     app_try c (fun _ => app_ret false) s = (Fail e, s') /\ is_exception e = false).
Proof.
  intros Hc. unfold app_try. destruct (c s) as [[ok | e] s1].
  - left. exists ok, s1. split; [reflexivity |]. intros ->. by apply Hc.
  - destruct (is_exception e) eqn:He.
    + left. exists false, s1. split; [reflexivity | discriminate].
    + right. by exists e, s1.
Qed.

Lemma convert_with_docx2pdf_run C docx out s :
  (exists ok s',
     _convert_with_docx2pdf C docx out s = (Done ok, s') /\
     (ok = true -> is_some (fs (disk s') !! out) = true)) \/
  (exists e s',
     _convert_with_docx2pdf C docx out s = (Fail e, s') /\ is_exception e = false).
Proof.
  unfold _convert_with_docx2pdf.
  destruct (docx2pdf_convert C) as [convert |].
  - apply (try_or_false_run _ (fun s' => is_some (fs (disk s') !! out) = true)).
    intros s' H. unfold app_bind in H.
    destruct (convert docx out s) as [[[] | e] s1]; [| discriminate].
    rewrite path_exists_run in H. injection H as H <-. exact H.
  - left. exists false, s. split; [reflexivity | discriminate].
Qed.

Lemma convert_with_libreoffice_run C docx out s :
  (exists ok s',
     _convert_with_libreoffice C docx out s = (Done ok, s') /\
     (ok = true -> is_some (fs (disk s') !! out) = true)) \/
  (exists e s',
     _convert_with_libreoffice C docx out s = (Fail e, s') /\ is_exception e = false).
Proof.
  unfold _convert_with_libreoffice.
  destruct (which_soffice C) as [cmd |].
  2: { left. exists false, s. split; [reflexivity | discriminate]. }
  cbv zeta.
  apply (try_or_false_run _ (fun s' => is_some (fs (disk s') !! out) = true)).
  intros s' H. unfold app_bind in H.
  destruct (run_soffice C cmd (path_parent out) docx s) as [[[] | e] s1];
    [| discriminate].
  rewrite path_exists_run in H.
  destruct (is_some (fs (disk s1) !! _)); [| discriminate].
  destruct (negb (pystr_eqb _ out)).
  - destruct (move_file _ out s1) as [[[] | e] s2]; [| discriminate].
    rewrite path_exists_run in H. injection H as H <-. exact H.
  - unfold app_ret in H. rewrite path_exists_run in H. injection H as H <-. exact H.
Qed.

Lemma convert_docx_to_pdf_outcome C docx out s :
  match convert_docx_to_pdf C docx out s with
  | (Done _, s') => is_some (fs (disk s') !! path_str out) = true
  | (Fail e, _) => e = RuntimeError NoConverterFound \/ is_exception e = false
  end.
Proof.
  unfold convert_docx_to_pdf. cbv zeta. unfold app_bind at 1.
  destruct (convert_with_docx2pdf_run C (path_str docx) (path_str out) s)
    as [(ok & s1 & -> & Hok) | (e & s1 & -> & He)]; [| by right].
  destruct ok; [by apply Hok |].
  unfold app_bind.
  destruct (convert_with_libreoffice_run C (path_str docx) (path_str out) s1)
    as [(ok & s2 & -> & Hok2) | (e & s2 & -> & He)]; [| by right].
  destruct ok; [by apply Hok2 | by left].
Qed.

(** X21: [convert_docx_to_pdf] returns only when the PDF is there. Whatever
    the converters do, a normal return means that the output path exists.
    The exceptions of the converters are swallowed: the one exception the
    function raises is the [RuntimeError] for the missing converter, unless
    a converter ends in what [except Exception] lets through. And when
    [docx2pdf] has produced the file, LibreOffice is not run. *)
Theorem conversion_returns_with_the_pdf (C : converters) (docx out : pystr)
    (s : session) :
  match convert_docx_to_pdf C docx out s with
  | (Done _, s') => is_some (fs (disk s') !! path_str out) = true
  | (Fail e, _) => e = RuntimeError NoConverterFound \/ is_exception e = false
  end /\
  (forall convert s1,
     docx2pdf_convert C = Some convert ->
     convert (path_str docx) (path_str out) s = (Done tt, s1) ->
     is_some (fs (disk s1) !! path_str out) = true ->
     convert_docx_to_pdf C docx out s = (Done tt, s1)).
Proof.
  split; [apply convert_docx_to_pdf_outcome |].
  intros convert s1 Hconv Hrun Hthere.
  unfold convert_docx_to_pdf, _convert_with_docx2pdf. cbv zeta. rewrite Hconv.
  unfold app_bind, app_try. rewrite Hrun, path_exists_run, Hthere. reflexivity.
Qed.

(** ** docx_handler.py: [process_word_file] *)

Lemma remove_tree_lookup tmpd files p :
  startswith p (tmpd ++ py "/") = true -> remove_tree tmpd files !! p = None.
Proof.
  intros Hp. unfold remove_tree. apply map_lookup_filter_None. right.
  intros f _ H. change (startswith p (tmpd ++ py "/") = false) in H. congruence.
Qed.

Lemma with_temporary_directory_run {A} tmpd (body : App A) s :
  with_temporary_directory tmpd body s = ((body s).1, cleaned tmpd (body s).2).
Proof. unfold with_temporary_directory. by destruct (body s). Qed.

Lemma source_guard_run {A} p (k : App A) s :
  (found <~ path_exists p ;;
   if negb found then app_raise (Raised FileNotFoundError) else k) s =
  match fs (disk s) !! p with
  | None => (Fail (Raised FileNotFoundError), s)
  | Some _ => k s
  end.
Proof. unfold app_bind, path_exists. by destruct (fs (disk s) !! p). Qed.

(** X22: [process_word_file] leaves nothing behind. Without the source
    file it raises [FileNotFoundError] before anything is done; with it,
    however the conversion and the delegate end, by a return or by an
    exception, no file of the temporary directory remains, the converted
    PDF among them. *)
Theorem word_file_leaves_no_temporary_file (C : converters) (D : delegate)
    (tmpd path query out_dir : pystr) (resolution outline_width : Z)
    (stroke_color : pystr) (force_render prefer_fallback : bool) (s : session) :
  let run := process_word_file C D tmpd path query out_dir resolution
               outline_width stroke_color force_render prefer_fallback s in
  (fs (disk s) !! path_str path = None ->
   run = (Fail (Raised FileNotFoundError), s)) /\
  (is_Some (fs (disk s) !! path_str path) ->
   forall p, startswith p (tmpd ++ py "/") = true -> fs (disk run.2) !! p = None).
Proof.
  cbv zeta. unfold process_word_file. cbv zeta. rewrite source_guard_run. split.
  - by intros ->.
  - intros [f ->]. rewrite with_temporary_directory_run.
    cbn [snd]. intros p Hp. by apply remove_tree_lookup.
Qed.

(** X23: what [process_word_file] returns and raises. A normal return
    gives the pages and the combined path of the delegate, called on a
    converted PDF that exists at that moment: by keyword, or by position
    after a [TypeError], and then without [prefer_fallback] and
    [force_render]. An exception is [FileNotFoundError] for a missing
    source, what the conversion raised (the [RuntimeError] for the missing
    converter, or what [except Exception] lets through), the exception of
    the keyword call when it is not a [TypeError], or a [RuntimeError]
    around the exception of the positional call. But for a missing source,
    the session is left with the temporary directory removed. *)
Theorem word_file_outcome (C : converters) (D : delegate)
    (tmpd path query out_dir : pystr) (resolution outline_width : Z)
    (stroke_color : pystr) (force_render prefer_fallback : bool) (s : session) :
  let src := path_str path in
  let out := path_str out_dir in
  let temp := path_div tmpd (path_stem src ++ py ".pdf") in
  let by_keyword := call_by_keyword D temp query out resolution outline_width
                      stroke_color prefer_fallback force_render in
  let by_position := call_by_position D temp query out resolution outline_width
                       stroke_color in
  match process_word_file C D tmpd path query out_dir resolution outline_width
          stroke_color force_render prefer_fallback s with
  | (Done (pgs, comb), s') =>
      exists s1 s2 c,
        convert_docx_to_pdf C src temp s = (Done tt, s1) /\
        is_some (fs (disk s1) !! temp) = true /\
        (by_keyword s1 = (Done (pgs, c), s2) \/
         exists s1', by_keyword s1 = (Fail TypeError, s1') /\
                     by_position s1' = (Done (pgs, c), s2)) /\
        comb = Some c /\ s' = cleaned tmpd s2
  | (Fail e, s') =>
      (fs (disk s) !! src = None /\ e = Raised FileNotFoundError /\ s' = s) \/
      (exists s1,
         convert_docx_to_pdf C src temp s = (Fail e, s1) /\
         (e = RuntimeError NoConverterFound \/ is_exception e = false) /\
         s' = cleaned tmpd s1) \/
      (exists s1 s2,
         convert_docx_to_pdf C src temp s = (Done tt, s1) /\
         by_keyword s1 = (Fail e, s2) /\ e <> TypeError /\
         s' = cleaned tmpd s2) \/
      (exists s1 s1' s2 cause,
         convert_docx_to_pdf C src temp s = (Done tt, s1) /\
         by_keyword s1 = (Fail TypeError, s1') /\
         by_position s1' = (Fail cause, s2) /\
         e = (if is_exception cause then DelegateCallFailed cause else cause) /\
         s' = cleaned tmpd s2)
  end.
Proof.
  cbv zeta. unfold process_word_file. cbv zeta. rewrite source_guard_run.
  destruct (fs (disk s) !! path_str path) as [f |] eqn:Hsrc; [| by left].
  set (temp := path_div tmpd (path_stem (path_str path) ++ py ".pdf")).
  unfold with_temporary_directory, app_bind, app_try_type_error, app_try.
  pose proof (convert_docx_to_pdf_outcome C (path_str path) temp s) as Hconv.
  destruct (convert_docx_to_pdf C (path_str path) temp s) as [[[] | e] s1].
  2: { cbn [fst snd]. right. left. by exists s1. }
  unfold temp in Hconv at 1. rewrite path_str_div in Hconv. fold temp in Hconv.
  destruct (call_by_keyword D temp query (path_str out_dir) resolution
              outline_width stroke_color prefer_fallback force_render s1)
    as [[[pgs c] | e] s2] eqn:Hkw.
  - cbn [fst snd]. exists s1, s2, c. repeat split; try done. by left.
  - destruct e;
      try (cbn [fst snd]; right; right; left; exists s1, s2;
           repeat split; done).
    destruct (call_by_position D temp query (path_str out_dir) resolution
                outline_width stroke_color s2) as [[[pgs c] | cause] s3] eqn:Hpos.
    + cbn [fst snd]. exists s1, s3, c. repeat split; try done.
      right. by exists s2.
    + destruct (is_exception cause) eqn:Hexc; cbn [fst snd];
        right; right; right; exists s1, s2, s3, cause; rewrite Hexc;
        repeat split; done.
Qed.
